(** * Weibo spider pipeline: a shallow embedding of [main.py]

    The development follows the source file function by function:
    Python strings and [int()], naive [datetime] values, [parse_weibo_time],
    the recency/media filter of [process_keyword], [load_config],
    [load_keyword_classifications], [clean_and_reorder_dataframe] and the
    two drivers ([process_keyword] and [main]).  The definitions come
    first, the properties after them.

    Conventions.
    - A Python [str] is a list of Unicode code points ([pystr]); [len] is
      [length], so that the fixed widths 11 and 16 tested by the source count
      code points as Python does.
    - A Python exception is a value of [exn]; code that may raise returns a
      [result].  Only subclasses of [Exception] are represented, which is
      what [except Exception] catches ([KeyboardInterrupt] is not).
    - Library behaviour (CPython 3.11: [str.strip], [str.replace], [int],
      [datetime], [datetime.strptime]) is transcribed from the library's
      algorithms.
    - The fetcher (with its [_extract_user_id], which may raise like any
      other method of the fetcher), the scorer, the clock and the file
      system are parameters ([Externals]); each call is recorded in a
      trace, and so is each call of [logging].
    - Of pandas, [DataFrame(records)], [sort_values] and its [nargsort]
      are transcribed; numpy's ascending [argsort] and the dtype inference
      of a column are parameters, and a property that depends on them
      states what it assumes of them ([argsort_contract],
      [keeps_integers]).
    - A post is a [dict] in insertion order; every fetch is taken to return
      fresh records, so that tagging the records of one unit does not touch
      those of another. *)

From Stdlib Require Import ZArith Lia List String Ascii Permutation Sorted.
From stdpp Require Import base option list gmap.
Import ListNotations.

Local Open Scope Z_scope.

(** ** Exceptions *)

Inductive exn : Type :=
| ValueError
| OverflowError
| KeyError
| TypeError
| ImportError
| AttributeError
| IndexError
| ExternalError (tag : Z).   (* any other [Exception] of a collaborator *)

Inductive result (A : Type) : Type :=
| Ok (a : A)
| Raise (e : exn).
Arguments Ok {A} a.
Arguments Raise {A} e.

Definition rbind {A B : Type} (m : result A) (k : A -> result B) : result B :=
  match m with
  | Ok a => k a
  | Raise e => Raise e
  end.

(** [try: body  except Exception: handler] *)
Definition try_except {A : Type} (body : result A) (handler : exn -> result A)
  : result A :=
  match body with
  | Ok a => Ok a
  | Raise e => handler e
  end.

#[global] Instance result_ret : MRet result := @Ok.
#[global] Instance result_bind : MBind result := fun A B k m => rbind m k.
#[global] Instance result_fmap : FMap result :=
  fun A B f m => rbind m (fun a => Ok (f a)).

(** ** Python strings *)

Module Str.

Abbreviation char := Z (only parsing).
Abbreviation pystr := (list Z) (only parsing).

(** An ASCII literal of the source as a code-point list. *)
Definition lit (s : string) : pystr :=
  List.map (fun a => Z.of_N (N_of_ascii a)) (list_ascii_of_string s).

(** [str.isspace] on one code point ([Py_UNICODE_ISSPACE]). *)
Definition isspace (c : char) : bool :=
  ((9 <=? c) && (c <=? 13)) || ((28 <=? c) && (c <=? 32))
  || (c =? 0x85) || (c =? 0xa0) || (c =? 0x1680)
  || ((0x2000 <=? c) && (c <=? 0x200a))
  || (c =? 0x2028) || (c =? 0x2029) || (c =? 0x202f) || (c =? 0x205f)
  || (c =? 0x3000).

Fixpoint lstrip (s : pystr) : pystr :=
  match s with
  | c :: s' => if isspace c then lstrip s' else s
  | [] => []
  end.

Definition rstrip (s : pystr) : pystr := rev (lstrip (rev s)).

(** [s.strip()] *)
Definition strip (s : pystr) : pystr := rstrip (lstrip s).

Fixpoint startswith (p s : pystr) : bool :=
  match p, s with
  | [], _ => true
  | a :: p', b :: s' => (a =? b) && startswith p' s'
  | _ :: _, [] => false
  end.

(** [sub in s] *)
Fixpoint contains (sub s : pystr) : bool :=
  startswith sub s ||
  match s with
  | [] => false
  | _ :: s' => contains sub s'
  end.

(** [s.replace(old, new)]: occurrences are found left to right and do not
    overlap; [skip] counts the code points of a match still to be dropped. *)
Fixpoint replace_go (old new : pystr) (skip : nat) (s : pystr) : pystr :=
  match s with
  | [] => []
  | c :: s' =>
      match skip with
      | S k => replace_go old new k s'
      | O =>
          if startswith old s
          then new ++ replace_go old new (length old - 1)%nat s'
          else c :: replace_go old new 0%nat s'
      end
  end.

Definition replace (old new s : pystr) : pystr :=
  match old with
  | [] => new ++ flat_map (fun c => c :: new) s
  | _ :: _ => replace_go old new 0%nat s
  end.

(** [s.split(sep)] for a one-code-point separator: empty fields are kept. *)
Fixpoint split (sep : char) (s : pystr) : list pystr :=
  match s with
  | [] => [[]]
  | c :: s' =>
      if c =? sep then [] :: split sep s'
      else match split sep s' with
           | w :: ws => (c :: w) :: ws
           | [] => [[c]]
           end
  end.

(** [sep.join(parts)] *)
Fixpoint join (sep : pystr) (parts : list pystr) : pystr :=
  match parts with
  | [] => []
  | [w] => w
  | w :: ws => w ++ sep ++ join sep ws
  end.

(** The code points with [decimal] value 0 (Unicode 14.0, general category
    Nd); every run of ten code points starting at one of them holds the
    digits 0 to 9 in order. *)
Definition decimal_zeros : list char :=
  [ 0x30; 0x660; 0x6f0; 0x7c0; 0x966; 0x9e6; 0xa66; 0xae6; 0xb66; 0xbe6;
    0xc66; 0xce6; 0xd66; 0xde6; 0xe50; 0xed0; 0xf20; 0x1040; 0x1090; 0x17e0;
    0x1810; 0x1946; 0x19d0; 0x1a80; 0x1a90; 0x1b50; 0x1bb0; 0x1c40; 0x1c50;
    0xa620; 0xa8d0; 0xa900; 0xa9d0; 0xa9f0; 0xaa50; 0xabf0; 0xff10; 0x104a0;
    0x10d30; 0x11066; 0x110f0; 0x11136; 0x111d0; 0x112f0; 0x11450; 0x114d0;
    0x11650; 0x116c0; 0x11730; 0x118e0; 0x11950; 0x11c50; 0x11d50; 0x11da0;
    0x16a60; 0x16ac0; 0x16b50; 0x1d7ce; 0x1d7d8; 0x1d7e2; 0x1d7ec; 0x1d7f6;
    0x1e140; 0x1e2f0; 0x1e950; 0x1fbf0 ].

(** [Py_UNICODE_TODECIMAL]; [None] stands for -1. *)
Definition unicode_decimal (c : char) : option Z :=
  match List.find (fun z => (z <=? c) && (c <? z + 10)) decimal_zeros with
  | Some z => Some (c - z)
  | None => None
  end.

(** [\d] of a [str] regular expression, [str.isdecimal] on one code point. *)
Definition isdecimal (c : char) : bool :=
  match unicode_decimal c with Some _ => true | None => false end.

(** [_PyUnicode_TransformDecimalAndSpaceToASCII]: ASCII is kept, other
    white space becomes a blank, other decimal digits become ASCII digits,
    and the first other code point becomes ['?'] and ends the buffer. *)
Fixpoint transform_decimal_and_space (s : pystr) : pystr :=
  match s with
  | [] => []
  | c :: s' =>
      if c <? 128 then c :: transform_decimal_and_space s'
      else if isspace c then 32 :: transform_decimal_and_space s'
      else match unicode_decimal c with
           | Some d => (48 + d) :: transform_decimal_and_space s'
           | None => [63]
           end
  end.

(** [Py_ISSPACE] of the C locale. *)
Definition c_isspace (c : char) : bool :=
  ((9 <=? c) && (c <=? 13)) || (c =? 32).

Fixpoint skip_c_space (s : pystr) : pystr :=
  match s with
  | c :: s' => if c_isspace c then skip_c_space s' else s
  | [] => []
  end.

Definition ascii_digit (c : char) : option Z :=
  if (48 <=? c) && (c <=? 57) then Some (c - 48) else None.

(** The digit scan of [PyLong_FromString] in base 10: digits and single
    underscores; [prev] is the previous code point, [digits] the number of
    digits seen.  [None] is the error exit. *)
Fixpoint scan_digits (s : pystr) (prev : char) (acc : Z) (digits : nat)
  : option (Z * nat * pystr) :=
  match s with
  | [] => if prev =? 95 then None else Some (acc, digits, [])
  | c :: s' =>
      if c =? 95 then
        if prev =? 95 then None else scan_digits s' c acc digits
      else
        match ascii_digit c with
        | Some d => scan_digits s' c (10 * acc + d) (S digits)
        | None => if prev =? 95 then None else Some (acc, digits, s)
        end
  end.

(** [sys.get_int_max_str_digits()] *)
Definition int_max_str_digits : Z := 4300.

Definition parse_long (s : pystr) : option Z :=
  let s1 := skip_c_space s in
  let '(sign, s2) :=
    match s1 with
    | c :: r => if c =? 43 then (1, r) else if c =? 45 then (-1, r) else (1, s1)
    | [] => (1, s1)
    end in
  if startswith [95] s2 then None
  else
    match scan_digits s2 0 0 0%nat with
    | Some (v, digits, rest) =>
        if (digits =? 0)%nat then None
        else if int_max_str_digits <? Z.of_nat digits then None
        else match skip_c_space rest with
             | [] => Some (sign * v)
             | _ :: _ => None
             end
    | None => None
    end.

(** [int(s)] for a [str] argument. *)
Definition py_int (s : pystr) : result Z :=
  match parse_long (transform_decimal_and_space s) with
  | Some v => Ok v
  | None => Raise ValueError
  end.

(** Decimal digits of a non-negative integer, most significant first. *)
Fixpoint decimal_go (fuel : nat) (n : Z) (acc : pystr) : pystr :=
  match fuel with
  | O => acc
  | S fuel' =>
      let acc' := (48 + n mod 10) :: acc in
      if n <? 10 then acc' else decimal_go fuel' (n / 10) acc'
  end.

Definition decimal (n : Z) : pystr :=
  decimal_go (S (Z.to_nat (Z.log2 n))) n [].

(** [str(n)] for an [int]. *)
Definition str_of_int (n : Z) : pystr :=
  if n <? 0 then 45 :: decimal (- n) else decimal n.

End Str.
Import Str.

(** ** Naive [datetime] values

    A [datetime] is represented by its position on the proleptic Gregorian
    time line: the number of microseconds since 0001-01-01T00:00:00
    ([datetime.min]).  Field access and construction go through the calendar
    functions of [datetime.py]; a [timedelta] is a number of microseconds. *)

Module DT.

Abbreviation datetime := Z (only parsing).
Abbreviation timedelta := Z (only parsing).

Definition us_per_second : Z := 1000000.
Definition us_per_minute : Z := 60 * us_per_second.
Definition us_per_hour : Z := 60 * us_per_minute.
Definition us_per_day : Z := 24 * us_per_hour.

Definition minutes (n : Z) : timedelta := n * us_per_minute.
Definition hours (n : Z) : timedelta := n * us_per_hour.
Definition days (n : Z) : timedelta := n * us_per_day.

(** [datetime.max.toordinal()], the ordinal of 9999-12-31 *)
Definition MAXORDINAL : Z := 3652059.

Definition in_range (t : Z) : bool :=
  (0 <=? t) && (t <? MAXORDINAL * us_per_day).

(** [t - d]: exact, [OverflowError] when the result leaves
    [datetime.min .. datetime.max] (this also covers the [OverflowError]
    of building a [timedelta] of more than 999999999 days). *)
Definition sub (t : datetime) (d : timedelta) : result datetime :=
  if in_range (t - d) then Ok (t - d) else Raise OverflowError.

Definition is_leap (year : Z) : bool :=
  (year mod 4 =? 0) && (negb (year mod 100 =? 0) || (year mod 400 =? 0)).

Definition days_before_year (year : Z) : Z :=
  let y := year - 1 in y * 365 + y / 4 - y / 100 + y / 400.

Definition days_in_month (year month : Z) : Z :=
  if (month =? 2) && is_leap year then 29
  else nth (Z.to_nat month) [0; 31; 28; 31; 30; 31; 30; 31; 31; 30; 31; 30; 31] 0.

Definition days_before_month (year month : Z) : Z :=
  nth (Z.to_nat month) [0; 0; 31; 59; 90; 120; 151; 181; 212; 243; 273; 304; 334] 0
  + (if (2 <? month) && is_leap year then 1 else 0).

Definition ymd2ord (year month day : Z) : Z :=
  days_before_year year + days_before_month year month + day.

(** [datetime(year, month, day, hour, minute, second, microsecond)] *)
Definition make (year month day hour minute second microsecond : Z)
  : result datetime :=
  if (1 <=? year) && (year <=? 9999) && (1 <=? month) && (month <=? 12)
     && (1 <=? day) && (day <=? days_in_month year month)
     && (0 <=? hour) && (hour <=? 23) && (0 <=? minute) && (minute <=? 59)
     && (0 <=? second) && (second <=? 59)
     && (0 <=? microsecond) && (microsecond <=? 999999)
  then Ok ((ymd2ord year month day - 1) * us_per_day + hour * us_per_hour
           + minute * us_per_minute + second * us_per_second + microsecond)
  else Raise ValueError.

Definition DI400Y : Z := 146097.
Definition DI100Y : Z := 36524.
Definition DI4Y : Z := 1461.

(** The year computed by [_ord2ymd]. *)
Definition ord2year (ordinal : Z) : Z :=
  let n := ordinal - 1 in
  let n400 := n / DI400Y in
  let n := n mod DI400Y in
  let n100 := n / DI100Y in
  let n := n mod DI100Y in
  let n4 := n / DI4Y in
  let n := n mod DI4Y in
  let n1 := n / 365 in
  let year := n400 * 400 + 1 + n100 * 100 + n4 * 4 + n1 in
  if (n1 =? 4) || (n100 =? 4) then year - 1 else year.

Definition toordinal (t : datetime) : Z := t / us_per_day + 1.

(** [t.year], [t.hour], [t.minute] *)
Definition year (t : datetime) : Z := ord2year (toordinal t).
Definition hour (t : datetime) : Z := (t mod us_per_day) / us_per_hour.
Definition minute (t : datetime) : Z := (t mod us_per_hour) / us_per_minute.

(** [t.replace(hour=h, minute=m, second=0, microsecond=0)] for fields [h]
    and [m] read from another [datetime]. *)
Definition replace_time (t : datetime) (h m : Z) : datetime :=
  (t / us_per_day) * us_per_day + h * us_per_hour + m * us_per_minute.

End DT.

(** ** [datetime.strptime]

    [_strptime] turns the format into a regular expression, matches it at
    the start of the text (the first match in backtracking order), rejects
    unconverted trailing text, and converts the groups with [int]. *)

Module Strptime.

Abbreviation cls := (char -> bool) (only parsing).

Inductive item : Type :=
| Lit (c : char)                   (* one literal code point *)
| Spaces                           (* [\s+] *)
| Group (alts : list (list cls)).  (* a named group of alternatives *)

Definition range (a b : char) : cls := fun c => (a <=? c) && (c <=? b).
Definition one (a : char) : cls := fun c => c =? a.
Definition digit : cls := isdecimal.

Fixpoint match_classes (cs : list cls) (s : pystr) : option (pystr * pystr) :=
  match cs, s with
  | [], _ => Some ([], s)
  | p :: cs', c :: s' =>
      if p c then
        match match_classes cs' s' with
        | Some (m, rest) => Some (c :: m, rest)
        | None => None
        end
      else None
  | _ :: _, [] => None
  end.

Section Backtracking.
Context {R : Type}.

Fixpoint first_alt (alts : list (list cls))
    (k : pystr -> pystr -> option R) (s : pystr) : option R :=
  match alts with
  | [] => None
  | a :: alts' =>
      match match_classes a s with
      | Some (m, rest) =>
          match k m rest with
          | Some r => Some r
          | None => first_alt alts' k s
          end
      | None => first_alt alts' k s
      end
  end.

(** Greedy [\s+]: the longest run first, then shorter ones. *)
Fixpoint plus_space (k : pystr -> option R) (s : pystr) : option R :=
  match s with
  | c :: s' =>
      if isspace c then
        match plus_space k s' with
        | Some r => Some r
        | None => k s'
        end
      else None
  | [] => None
  end.
End Backtracking.

(** Matching a format: the captured groups in order, and the text left. *)
Fixpoint run (items : list item) (caps : list pystr) (s : pystr)
  : option (list pystr * pystr) :=
  match items with
  | [] => Some (rev caps, s)
  | Lit a :: items' =>
      match s with
      | c :: s' => if c =? a then run items' caps s' else None
      | [] => None
      end
  | Spaces :: items' => plus_space (run items' caps) s
  | Group alts :: items' =>
      first_alt alts (fun m rest => run items' (m :: caps) rest) s
  end.

(** The directives used by the source, as in [TimeRE]. *)
Definition re_Y : item := Group [[digit; digit; digit; digit]].
Definition re_m : item :=
  Group [[one 49; range 48 50]; [one 48; range 49 57]; [range 49 57]].
Definition re_d : item :=
  Group [[one 51; range 48 49]; [range 49 50; digit]; [one 48; range 49 57];
         [range 49 57]; [one 32; range 49 57]].
Definition re_H : item :=
  Group [[one 50; range 48 51]; [range 48 49; digit]; [digit]].
Definition re_M : item := Group [[range 48 53; digit]; [digit]].

(** ['%H:%M'] *)
Definition format_HM : list item := [re_H; Lit 58; re_M].
(** ['%Y-%m-%d %H:%M'] *)
Definition format_YmdHM : list item :=
  [re_Y; Lit 45; re_m; Lit 45; re_d; Spaces; re_H; Lit 58; re_M].

Definition groups (fmt : list item) (s : pystr) : result (list pystr) :=
  match run fmt [] s with
  | Some (caps, []) => Ok caps
  | Some (_, _ :: _) => Raise ValueError   (* unconverted data remains *)
  | None => Raise ValueError               (* does not match format *)
  end.

(** [datetime.strptime(s, '%H:%M')] *)
Definition strptime_HM (s : pystr) : result DT.datetime :=
  caps ← groups format_HM s;
  match caps with
  | [H; M] =>
      h ← py_int H;
      mi ← py_int M;
      DT.make 1900 1 1 h mi 0 0
  | _ => Raise ValueError
  end.

(** [datetime.strptime(s, '%Y-%m-%d %H:%M')] *)
Definition strptime_YmdHM (s : pystr) : result DT.datetime :=
  caps ← groups format_YmdHM s;
  match caps with
  | [Y; m; d; H; M] =>
      y ← py_int Y;
      mo ← py_int m;
      dd ← py_int d;
      h ← py_int H;
      mi ← py_int M;
      DT.make y mo dd h mi 0 0
  | _ => Raise ValueError
  end.

End Strptime.

(** ** Python values and records *)

(** The values carried by posts, configuration entries and table cells.  A
    [float] is carried by its [repr]: the modelled code never computes with
    one, it only converts it to text or tests its truth value. *)
Inductive pyval : Type :=
| VNone
| VBool (b : bool)
| VInt (n : Z)
| VFloat (repr : pystr)
| VStr (s : pystr).

(** [str(v)] *)
Definition py_str (v : pyval) : pystr :=
  match v with
  | VNone => lit "None"
  | VBool true => lit "True"
  | VBool false => lit "False"
  | VInt n => str_of_int n
  | VFloat r => r
  | VStr s => s
  end.

(** [bool(v)] *)
Definition truthy (v : pyval) : bool :=
  match v with
  | VNone => false
  | VBool b => b
  | VInt n => negb (n =? 0)
  | VFloat r =>
      negb (bool_decide (r = lit "0.0") || bool_decide (r = lit "-0.0"))
  | VStr s => negb (bool_decide (s = []))
  end.

(** [float('nan')], the cell pandas puts where a record has no entry. *)
Definition NaN : pyval := VFloat (lit "nan").

(** A post is a Python [dict] with [str] keys.  Insertion order is kept,
    as it decides the column order of a [DataFrame] built from records. *)
Module Dict.

Abbreviation dict := (list (pystr * pyval)) (only parsing).

(** [d.get(k)] *)
Fixpoint get (k : pystr) (d : dict) : option pyval :=
  match d with
  | [] => None
  | (k', v) :: d' => if bool_decide (k' = k) then Some v else get k d'
  end.

(** [d.get(k, dflt)] *)
Definition get_default (k : pystr) (dflt : pyval) (d : dict) : pyval :=
  match get k d with
  | Some v => v
  | None => dflt
  end.

(** [d[k] = v]: an existing key keeps its place, a new one goes last. *)
Fixpoint set (k : pystr) (v : pyval) (d : dict) : dict :=
  match d with
  | [] => [(k, v)]
  | (k', v') :: d' =>
      if bool_decide (k' = k) then (k, v) :: d' else (k', v') :: set k v d'
  end.

Definition keys (d : dict) : list pystr := List.map fst d.

End Dict.
Abbreviation dict := (list (pystr * pyval)) (only parsing).

(** ** [parse_weibo_time] *)

Definition minutes_ago : pystr := [0x5206; 0x949f; 0x524d].           (* 分钟前 *)
Definition hours_ago : pystr := [0x5c0f; 0x65f6; 0x524d].             (* 小时前 *)
Definition today : pystr := [0x4eca; 0x5929].                         (* 今天 *)
Definition yesterday : pystr := [0x6628; 0x5929].                     (* 昨天 *)
Definition unknown_time : pystr := [0x672a; 0x77e5; 0x65f6; 0x95f4].  (* 未知时间 *)
Definition hyphen : pystr := [45].

(** The body of the [try] block, on the stripped text.  Falling out of the
    [if] chain reaches the final [return None]. *)
Definition parse_weibo_time_try (time_str : pystr) (now : DT.datetime)
  : result (option DT.datetime) :=
  if contains minutes_ago time_str then
    minutes ← py_int (strip (replace minutes_ago [] time_str));
    dt ← DT.sub now (DT.minutes minutes);
    Ok (Some dt)
  else if contains hours_ago time_str then
    hours ← py_int (strip (replace hours_ago [] time_str));
    dt ← DT.sub now (DT.hours hours);
    Ok (Some dt)
  else if contains today time_str then
    let t := strip (replace today [] time_str) in
    dt ← Strptime.strptime_HM t;
    Ok (Some (DT.replace_time now (DT.hour dt) (DT.minute dt)))
  else if contains yesterday time_str then
    let t := strip (replace yesterday [] time_str) in
    dt ← Strptime.strptime_HM t;
    dt ← DT.sub (DT.replace_time now (DT.hour dt) (DT.minute dt)) (DT.days 1);
    Ok (Some dt)
  else if contains hyphen time_str then
    if (length time_str =? 11)%nat then
      let t := str_of_int (DT.year now) ++ hyphen ++ time_str in
      dt ← Strptime.strptime_YmdHM t;
      Ok (Some dt)
    else if (length time_str =? 16)%nat then
      dt ← Strptime.strptime_YmdHM time_str;
      Ok (Some dt)
    else Ok None
  else Ok None.

(** [parse_weibo_time(time_str, now)]; [clock] is what [datetime.now()]
    reads when [now] is omitted. *)
Definition parse_weibo_time (clock : DT.datetime) (time_str : pyval)
    (now : option DT.datetime) : result (option DT.datetime) :=
  let now := match now with Some t => t | None => clock end in
  let time_str := strip (py_str time_str) in
  if bool_decide (time_str = []) || bool_decide (time_str = unknown_time)
  then Ok None
  else try_except (parse_weibo_time_try time_str now) (fun _ => Ok None).

(** 2024-05-23T12:00:00 *)
Definition t_2024_05_23_12_00 : DT.datetime :=
  739028 * DT.us_per_day + 12 * DT.us_per_hour.

(** ** Configuration: [load_config] *)

(** A JSON document as [json.load] returns it.  Only the top level is
    distinguished: the source indexes it and tests membership in it. *)
Inductive json : Type :=
| JDict (m : gmap pystr pyval)
| JList (l : list pyval)
| JScalar (v : pyval).

(** What is at the path ["config.json"]. *)
Inductive config_file : Type :=
| Missing                    (* [os.path.exists] is false *)
| Unreadable                 (* [open] raises *)
| Malformed                  (* [json.load] raises *)
| Document (j : json).

Record disk : Type := {
  config_json : config_file;
  writable : bool;           (* whether [open(config_file, 'w')] succeeds *)
}.

Definition default_items : list (pystr * pyval) :=
  [ (lit "cookie", VStr []);
    (lit "default_pages", VInt 5);
    (lit "min_score", VInt 80);
    (lit "min_likes", VInt 500);
    (lit "download_media", VBool false);
    (lit "max_retries", VInt 3);
    (lit "retry_delay", VInt 5);
    (lit "thread_pool_size", VInt 4);
    (lit "proxy", VNone) ].

Definition default_config : gmap pystr pyval := list_to_map default_items.

(** [key in config] *)
Definition json_contains (key : pystr) (config : json) : result bool :=
  match config with
  | JDict m => Ok (bool_decide (is_Some (m !! key)))
  | JList l =>
      Ok (existsb (fun v => match v with
                            | VStr s => bool_decide (s = key)
                            | _ => false
                            end) l)
  | JScalar (VStr s) => Ok (contains key s)
  | JScalar _ => Raise TypeError
  end.

(** [config[key] = value] *)
Definition json_setitem (key : pystr) (value : pyval) (config : json)
  : result json :=
  match config with
  | JDict m => Ok (JDict (<[key := value]> m))
  | _ => Raise TypeError
  end.

(** [config[key]] *)
Definition json_getitem (key : pystr) (config : json) : result pyval :=
  match config with
  | JDict m =>
      match m !! key with
      | Some v => Ok v
      | None => Raise KeyError
      end
  | _ => Raise TypeError
  end.

(** The loop over [default_config.items()]. *)
Fixpoint fill_defaults (items : list (pystr * pyval)) (config : json)
  : result json :=
  match items with
  | [] => Ok config
  | (key, value) :: items' =>
      present ← json_contains key config;
      config ← (if (present : bool) then Ok config
                else json_setitem key value config);
      fill_defaults items' config
  end.

(** ** Classification table: [load_keyword_classifications] *)

(** What is at ["keyword and classification.txt"]: no file, a file that
    [pd.read_csv] rejects, or the rows of the frame it returns (the header
    line is not a row).  Cells are read as text. *)
Inductive classification_file : Type :=
| NoTable
| BadTable
| Table (rows : list (list pystr)).

(** [row.iloc[i]] *)
Definition iloc (i : nat) (row : list pystr) : result pystr :=
  match nth_error row i with
  | Some c => Ok c
  | None => Raise IndexError
  end.

(** The loop over [df.iterrows()], on the dictionary being filled; when a
    row raises, the entries stored so far remain. *)
Fixpoint classify_rows (rows : list (list pystr))
    (keyword_to_type : gmap pystr pystr) : gmap pystr pystr :=
  match rows with
  | [] => keyword_to_type
  | row :: rows' =>
      match (keyword ← iloc 0 row;
             classification ← iloc 1 row;
             Ok (<[keyword := classification]> keyword_to_type)) with
      | Ok keyword_to_type' => classify_rows rows' keyword_to_type'
      | Raise _ => keyword_to_type
      end
  end.

Definition load_keyword_classifications (f : classification_file)
  : gmap pystr pystr :=
  match f with
  | NoTable => ∅
  | BadTable => ∅
  | Table rows => classify_rows rows ∅
  end.

(** ** Data frames and [clean_and_reorder_dataframe]

    A frame is its column labels and its rows; a row is a record holding
    one cell for each column, in column order.  pandas' conversion of
    numeric columns to a common dtype is not represented: cells keep the
    value of the record they come from, and a missing entry is [NaN]. *)

Module DF.

Record DataFrame : Type := {
  columns : list pystr;
  rows : list dict;
}.

Definition inb (c : pystr) (cs : list pystr) : bool :=
  existsb (fun c' => bool_decide (c' = c)) cs.

(** [c in df.columns] *)
Definition has_column (c : pystr) (df : DataFrame) : bool :=
  inb c (columns df).

(** The cell of row [r] in column [c]. *)
Definition cell (c : pystr) (r : dict) : pyval := Dict.get_default c NaN r.

(** [df[cols]] for a list of labels of the frame. *)
Definition select (cols : list pystr) (df : DataFrame) : DataFrame :=
  {| columns := cols;
     rows := List.map (fun r => List.map (fun c => (c, cell c r)) cols) (rows df) |}.

(** [df.drop(columns=[col for col in cols if col in df.columns])] *)
Definition drop (cols : list pystr) (df : DataFrame) : DataFrame :=
  select (List.filter (fun c => negb (inb c cols)) (columns df)) df.

(** [df[c] = ...apply(f)]: a known label keeps its place, a new one is
    appended. *)
Definition set_column (c : pystr) (f : dict -> pyval) (df : DataFrame)
  : DataFrame :=
  {| columns := if has_column c df then columns df else columns df ++ [c];
     rows := List.map (fun r => Dict.set c (f r) r) (rows df) |}.

(** The labels of [pd.DataFrame(records)]: the keys of the records in
    order of first appearance. *)
Fixpoint union_keys (seen : list pystr) (recs : list dict) : list pystr :=
  match recs with
  | [] => seen
  | r :: recs' =>
      union_keys
        (fold_left (fun acc k => if inb k acc then acc else acc ++ [k])
                   (Dict.keys r) seen)
        recs'
  end.

(** [isna(v)] *)
Definition isna (v : pyval) : bool :=
  match v with
  | VNone => true
  | VFloat r => bool_decide (r = lit "nan")
  | _ => false
  end.

(** [pd.DataFrame(records)].  The labels are the keys in order of first
    appearance; the values of a column, with [NaN] where a record has no
    entry, go through pandas' dtype inference [convert]
    ([lib.maybe_convert_objects]: a column of integers with a missing entry
    becomes a column of floats, for one).  Row [i] holds entry [i] of every
    converted column. *)
Definition of_records (convert : list pyval -> list pyval) (recs : list dict)
  : DataFrame :=
  let cols := union_keys [] recs in
  {| columns := cols;
     rows := List.map
               (fun i =>
                  List.map
                    (fun c => (c, nth i (convert (List.map (cell c) recs)) NaN))
                    cols)
               (seq 0 (length recs)) |}.

(** [pandas.core.sorting.nargsort(items, kind='quicksort', ascending,
    na_position='last')].  The values that are not NaN are sorted by
    numpy's [argsort], which sorts in ascending order: for a descending
    sort pandas reverses the values before the call and the indexer after
    it.  The positions of the NaN values go last. *)
Definition nargsort (argsort : list pyval -> result (list nat))
    (ascending : bool) (items : list pyval) : result (list nat) :=
  let idx := combine (seq 0 (length items)) items in
  let non_nan := List.filter (fun p => negb (isna (snd p))) idx in
  let nan_idx := List.map fst (List.filter (fun p => isna (snd p)) idx) in
  let non_nan := if ascending then non_nan else rev non_nan in
  order ← argsort (List.map snd non_nan);
  let indexer := List.map (fun j => nth j (List.map fst non_nan) 0%nat) order in
  let indexer := if ascending then indexer else rev indexer in
  Ok (indexer ++ nan_idx).

(** [df.sort_values(by=c, ascending=ascending)] *)
Definition sort_values (argsort : list pyval -> result (list nat))
    (c : pystr) (ascending : bool) (df : DataFrame) : result DataFrame :=
  if has_column c df then
    indexer ← nargsort argsort ascending (List.map (cell c) (rows df));
    Ok {| columns := columns df;
          rows := List.map (fun i => nth i (rows df) []) indexer |}
  else Raise KeyError.

End DF.

(** [re.sub(r'\s+', ' ', s)]; [in_run] tells that the previous code point
    was white space. *)
Fixpoint collapse_spaces (in_run : bool) (s : pystr) : pystr :=
  match s with
  | [] => []
  | c :: s' =>
      if isspace c then
        if in_run then collapse_spaces true s'
        else 32 :: collapse_spaces true s'
      else c :: collapse_spaces false s'
  end.

Definition columns_to_drop : list pystr :=
  [lit "user_id"; lit "image_urls"; lit "local_image_paths"; lit "source"].

Definition desired_columns : list pystr :=
  [lit "keyword"; lit "user_name"; lit "weibo_id"; lit "content";
   lit "publish_time"; lit "reposts_count"; lit "comments_count";
   lit "attitudes_count"; lit "post_link"; lit "content_score"].

(** [clean_and_reorder_dataframe(df)].  None of the frame operations
    below raises on a frame built from records, so the [except] branch of
    the source is never entered. *)
Definition clean_and_reorder_dataframe (df : DF.DataFrame) : DF.DataFrame :=
  let df := DF.drop columns_to_drop df in
  let df :=
    if negb (DF.has_column (lit "post_link") df)
       && DF.has_column (lit "weibo_id") df
    then DF.set_column (lit "post_link")
           (fun r => VStr (lit "https://weibo.com/detail/"
                           ++ py_str (DF.cell (lit "weibo_id") r))) df
    else df in
  let df :=
    if DF.has_column (lit "content") df
    then DF.set_column (lit "content")
           (fun r => VStr (strip (collapse_spaces false
                                    (py_str (DF.cell (lit "content") r))))) df
    else df in
  let existing_columns :=
    List.filter (fun c => DF.has_column c df) desired_columns in
  DF.select existing_columns df.

(** ** The collaborators and the run-time state

    The fetcher, the scorer, the clock, the file system and the sorting
    routine are outside the source file.  They act on an abstract [World];
    each call may return a value or raise. *)

Inductive level : Type := INFO | WARNING | ERROR.

(** The result of [ml_analyzer.analyze_weibos]: the entries of the
    returned dictionary that the source reads. *)
Record analysis : Type := {
  filtered_weibos : option (list dict);
  trending_topics : option (list dict);
}.

Inductive event : Type :=
| ELog (lv : level)
| ESearchKeyword (keyword : pystr) (pages start_page : pyval)
| ESearchUser (user_url keyword : pystr) (pages : Z) (download_media : pyval)
| EAnalyze (posts : list dict)
    (min_score min_likes min_comments min_forwards : pyval)
| EDownload (url keyword : pystr) (weibo_id : pyval)
| ESleep
| EMakedirs (path : pystr)
| EWriteCsv (path : pystr) (df : DF.DataFrame)
| EWriteJson (path : pystr) (a : analysis)
| EGallery.

Record Externals (World : Type) : Type := {
  (* [spider.search_keyword(keyword, pages=, start_page=, download_media=False)] *)
  search_keyword :
    pystr -> pyval -> pyval -> World -> result (list dict) * World;
  (* [spider.search_keyword(user_url=, keyword=, pages=1, download_media=)] *)
  search_user :
    pystr -> pystr -> Z -> pyval -> World -> result (list dict) * World;
  (* [spider._extract_user_id(user_url)] *)
  extract_user_id : pystr -> World -> result (option pystr) * World;
  (* [spider.download_media(url, 'image', keyword, weibo_id)] *)
  download_media :
    pystr -> pystr -> pyval -> World -> result (option pystr) * World;
  (* [ml_analyzer.analyze_weibos(posts, min_score=, min_likes=, ...)] *)
  analyze_weibos :
    list dict -> pyval -> pyval -> pyval -> pyval ->
    World -> result (option analysis) * World;
  (* [datetime.now()] *)
  clock : World -> DT.datetime;
  (* [os.path.exists(path)] *)
  path_exists : pystr -> World -> bool;
  (* the PIL pipeline and [base64.b64encode] of [image_to_base64] *)
  encode_jpeg : pystr -> World -> result pystr;
  (* [os.makedirs(path, exist_ok=True)] *)
  makedirs : pystr -> World -> result unit * World;
  (* [df.to_csv(path, index=False, encoding='utf-8-sig')] *)
  to_csv : pystr -> DF.DataFrame -> World -> result unit * World;
  (* [json.dump(analysis_result, f, ...)] into a fresh file *)
  dump_json : pystr -> analysis -> World -> result unit * World;
  (* numpy's [a.argsort(kind='quicksort')]: the indexer of an ascending
     sort, with the default [kind] of [sort_values] *)
  argsort : list pyval -> result (list nat);
  (* pandas' dtype inference for one column of [pd.DataFrame(records)] *)
  maybe_convert_objects : list pyval -> list pyval;
  (* [datetime.now().strftime("%Y%m%d_%H%M%S")] *)
  run_timestamp : World -> pystr;
  (* [WeiboSpider()] *)
  new_spider : World -> result unit * World;
  (* [create_simple_gallery()] and the prompt that follows it *)
  gallery : World -> result unit * World;
}.
Arguments search_keyword {World}.
Arguments search_user {World}.
Arguments extract_user_id {World}.
Arguments download_media {World}.
Arguments analyze_weibos {World}.
Arguments clock {World}.
Arguments path_exists {World}.
Arguments encode_jpeg {World}.
Arguments makedirs {World}.
Arguments to_csv {World}.
Arguments dump_json {World}.
Arguments argsort {World}.
Arguments maybe_convert_objects {World}.
Arguments run_timestamp {World}.
Arguments new_spider {World}.
Arguments gallery {World}.

Section Program.

Context {World : Type} (ext : Externals World).

(** The world and the calls made so far, oldest first. *)
Record state : Type := {
  world : World;
  files : disk;
  trace : list event;
}.

(** A computation that may raise and acts on the state. *)
Definition M (A : Type) : Type := state -> result A * state.

Definition ret {A : Type} (a : A) : M A := fun s => (Ok a, s).
Definition raise {A : Type} (e : exn) : M A := fun s => (Raise e, s).
Definition bind {A B : Type} (m : M A) (k : A -> M B) : M B :=
  fun s =>
    match m s with
    | (Ok a, s') => k a s'
    | (Raise e, s') => (Raise e, s')
    end.

(** [try: body  except Exception: handler]; what the body did before it
    raised stays done. *)
Definition try_catch {A : Type} (body : M A) (handler : exn -> M A) : M A :=
  fun s =>
    match body s with
    | (Ok a, s') => (Ok a, s')
    | (Raise e, s') => handler e s'
    end.

Definition lift {A : Type} (r : result A) : M A := fun s => (r, s).

Definition emit (e : event) : M unit :=
  fun s =>
    (Ok tt, {| world := world s; files := files s; trace := trace s ++ [e] |}).

(** A call of a collaborator, recorded as [e]. *)
Definition call {A : Type} (e : event) (f : World -> result A * World) : M A :=
  fun s =>
    let '(r, w) := f (world s) in
    (r, {| world := w; files := files s; trace := trace s ++ [e] |}).

(** A call of a collaborator that leaves no record. *)
Definition silent {A : Type} (f : World -> result A * World) : M A :=
  fun s =>
    let '(r, w) := f (world s) in
    (r, {| world := w; files := files s; trace := trace s |}).

Definition read {A : Type} (f : World -> A) : M A :=
  fun s => (Ok (f (world s)), s).

Definition log (lv : level) : M unit := emit (ELog lv).

#[global] Instance M_ret : MRet M := @ret.
#[global] Instance M_bind : MBind M := fun A B k m => bind m k.

(** [for x in xs: body], threading the value [acc] the body updates. *)
Fixpoint for_each {A S : Type} (xs : list A) (body : A -> S -> M S) (acc : S)
  : M S :=
  match xs with
  | [] => ret acc
  | x :: xs' => acc' ← body x acc; for_each xs' body acc'
  end.

(** [config[key]] on a dictionary *)
Definition getitem (key : pystr) (d : gmap pystr pyval) : M pyval :=
  match d !! key with
  | Some v => ret v
  | None => raise KeyError
  end.

(** [weibo[key]] on a record *)
Definition record_getitem (key : pystr) (d : dict) : M pyval :=
  match Dict.get key d with
  | Some v => ret v
  | None => raise KeyError
  end.

(** *** [image_to_base64] and [add_image_data_to_weibos] *)

Definition image_to_base64 (image_path : pystr) : M pystr :=
  try_catch
    (e ← read (path_exists ext image_path);
     if (e : bool) then
       b64 ← (fun s => (encode_jpeg ext image_path (world s), s));
       ret (lit "data:image/jpeg;base64," ++ b64)
     else ret [])
    (fun _ => _ ← log WARNING; ret []).

Definition add_image_data_to_weibos (weibos : list dict) : M (list dict) :=
  for_each weibos
    (fun weibo done =>
       let image_paths := Dict.get_default (lit "image_paths") (VStr []) weibo in
       base64_images ←
         (if truthy image_paths then
            match image_paths with
            | VStr p =>
                for_each (split 124 p)
                  (fun path acc =>
                     e ← read (path_exists ext path);
                     if negb (bool_decide (path = [])) && (e : bool) then
                       base64_data ← image_to_base64 path;
                       ret (if bool_decide (base64_data = []) then acc
                            else acc ++ [base64_data])
                     else ret acc)
                  []
            | _ => raise AttributeError
            end
          else ret []);
       let weibo := Dict.set (lit "image_base64")
                      (VStr (join [124] base64_images)) weibo in
       let weibo := Dict.set (lit "image_count")
                      (VInt (Z.of_nat (length base64_images))) weibo in
       ret (done ++ [weibo]))
    [].

(** *** [download_filtered_media]: the updated posts and the count *)

Definition download_filtered_media (filtered_weibos : list dict)
    (keyword : pystr) : M (list dict * Z) :=
  for_each filtered_weibos
    (fun weibo '(done, downloaded_count) =>
       if truthy (Dict.get_default (lit "has_images") (VBool false) weibo) then
         match Dict.get_default (lit "image_urls") (VStr []) weibo with
         | VStr urls =>
             '(image_paths, downloaded_count) ←
               for_each (split 124 urls)
                 (fun url '(image_paths, downloaded_count) =>
                    if bool_decide (url = []) then
                      ret (image_paths, downloaded_count)
                    else
                      weibo_id ← record_getitem (lit "weibo_id") weibo;
                      local_path ← call (EDownload url keyword weibo_id)
                                     (download_media ext url keyword weibo_id);
                      let r :=
                        match local_path with
                        | Some p =>
                            if bool_decide (p = [])
                            then (image_paths, downloaded_count)
                            else (image_paths ++ [p], downloaded_count + 1)
                        | None => (image_paths, downloaded_count)
                        end in
                      _ ← emit ESleep;
                      ret r)
                 ([], downloaded_count);
             ret (done ++ [Dict.set (lit "image_paths")
                             (VStr (join [124] image_paths)) weibo],
                  downloaded_count)
         | _ => raise AttributeError
         end
       else ret (done ++ [weibo], downloaded_count))
    ([], 0).

(** *** [load_config] *)

Definition write_config (config : json) : M unit :=
  fun s =>
    if writable (files s)
    then (Ok tt, {| world := world s;
                    files := {| config_json := Document config;
                                writable := true |};
                    trace := trace s |})
    else (Raise (ExternalError 0), s).

Definition load_config : M json :=
  try_catch
    (d ← (fun s => (Ok (files s), s));
     match config_json d with
     | Missing =>
         let config := JDict default_config in
         _ ← write_config config;
         ret config
     | Unreadable => raise (ExternalError 0)
     | Malformed => raise ValueError
     | Document config => lift (fill_defaults default_items config)
     end)
    (fun _ => _ ← log ERROR; ret (JDict default_config)).

(** [save_config(config)] *)
Definition save_config (config : json) : M unit :=
  try_catch (write_config config) (fun _ => log ERROR).

(** *** The recency and media filter of [process_keyword] *)

(** The loop that fills [filtered_by_time_and_media]; [kept] is the list
    built so far. *)
Fixpoint filter_loop (now_dt two_days_ago : DT.datetime)
    (results kept : list dict) : result (list dict) :=
  match results with
  | [] => Ok kept
  | weibo :: results' =>
      dt ← parse_weibo_time now_dt
             (Dict.get_default (lit "publish_time") (VStr []) weibo)
             (Some now_dt);
      let has_img := Dict.get_default (lit "has_images") (VBool false) weibo in
      let has_vid := Dict.get_default (lit "has_videos") (VBool false) weibo in
      match dt with
      | Some dt =>
          if (two_days_ago <=? dt) && (truthy has_img || truthy has_vid)
          then filter_loop now_dt two_days_ago results' (kept ++ [weibo])
          else filter_loop now_dt two_days_ago results' kept
      | None => filter_loop now_dt two_days_ago results' kept
      end
  end.

Definition filter_by_time_and_media (results : list dict)
    (now_dt : DT.datetime) : result (list dict) :=
  two_days_ago ← DT.sub now_dt (DT.days 2);
  filter_loop now_dt two_days_ago results [].

(** *** [process_keyword] *)

(** [{topic['score']:.2f}] *)
Definition format_2f (v : pyval) : result unit :=
  match v with
  | VInt _ | VFloat _ | VBool _ => Ok tt
  | VStr _ => Raise ValueError
  | VNone => Raise TypeError
  end.

(** The body of the [try] block. *)
Definition process_keyword_try (keyword : pystr) (config : gmap pystr pyval)
    (now : pystr) (keyword_to_type : gmap pystr pystr)
  : M (option (list dict)) :=
     _ ← log INFO;
     let keyword_type :=
       match keyword_to_type !! keyword with
       | Some t => t
       | None => lit "unknown"
       end in
     _ ← log INFO;
     pages ← getitem (lit "default_pages") config;
     start_page ← getitem (lit "start_page") config;
     results ← call (ESearchKeyword keyword pages start_page)
                 (search_keyword ext keyword pages start_page);
     match results with
     | [] => _ ← log WARNING; ret None
     | _ :: _ =>
     _ ← log INFO;
     now_dt ← read (clock ext);
     filtered_by_time_and_media ← lift (filter_by_time_and_media results now_dt);
     _ ← log INFO;
     match filtered_by_time_and_media with
     | [] => _ ← log WARNING; ret None
     | _ :: _ =>
     _ ← log INFO;
     min_score ← getitem (lit "min_score") config;
     min_likes ← getitem (lit "min_likes") config;
     let min_comments :=
       match config !! lit "min_comments" with Some v => v | None => VInt 0 end in
     let min_forwards :=
       match config !! lit "min_forwards" with Some v => v | None => VInt 0 end in
     analysis_result ←
       call (EAnalyze filtered_by_time_and_media
               min_score min_likes min_comments min_forwards)
            (analyze_weibos ext filtered_by_time_and_media
               min_score min_likes min_comments min_forwards);
     match analysis_result ≫= filtered_weibos with
     | None => _ ← log WARNING; ret None
     | Some filtered_results =>
     _ ← log INFO;
     let filtered_results :=
       List.map (Dict.set (lit "type") (VStr keyword_type)) filtered_results in
     dm ← getitem (lit "download_media") config;
     filtered_results ←
       (if truthy dm then
          _ ← log INFO;
          '(weibos, _) ← download_filtered_media filtered_results keyword;
          _ ← log INFO;
          ret weibos
        else ret filtered_results);
     dm ← getitem (lit "download_media") config;
     filtered_results ←
       (if truthy dm then
          _ ← log INFO;
          weibos ← add_image_data_to_weibos filtered_results;
          _ ← log INFO;
          ret weibos
        else ret filtered_results);
     let result_dir := lit "results" in
     _ ← call (EMakedirs result_dir) (makedirs ext result_dir);
     let df := DF.of_records (maybe_convert_objects ext) filtered_results in
     let df := clean_and_reorder_dataframe df in
     df ← lift (DF.sort_values (argsort ext) (lit "likes") false df);
     let keyword_file :=
       result_dir ++ lit "/" ++ keyword ++ lit "_" ++ now ++ lit ".csv" in
     _ ← call (EWriteCsv keyword_file df) (to_csv ext keyword_file df);
     _ ← log INFO;
     let analysis_file :=
       result_dir ++ lit "/" ++ keyword ++ lit "_analysis_" ++ now
       ++ lit ".json" in
     (* the posts of [analysis_result] are the records updated above *)
     let analysis_result :=
       {| filtered_weibos := Some filtered_results;
          trending_topics := analysis_result ≫= trending_topics |} in
     _ ← call (EWriteJson analysis_file analysis_result)
           (dump_json ext analysis_file analysis_result);
     _ ← log INFO;
     _ ← match trending_topics analysis_result with
         | Some topics =>
             _ ← log INFO;
             for_each topics
               (fun topic _ =>
                  _ ← record_getitem (lit "keyword") topic;
                  score ← record_getitem (lit "score") topic;
                  _ ← lift (format_2f score);
                  _ ← record_getitem (lit "weibo_count") topic;
                  log INFO)
               tt
         | None => ret tt
         end;
     ret (Some filtered_results)
     end end end.

Definition process_keyword (keyword : pystr) (config : gmap pystr pyval)
    (now : pystr) (keyword_to_type : gmap pystr pystr)
  : M (option (list dict)) :=
  try_catch (process_keyword_try keyword config now keyword_to_type)
    (fun _ => _ ← log ERROR; ret None).

(** *** [read_keywords], [read_user_urls] and [main] *)

(** The lines of a text file, or [None] when it cannot be opened. *)
Abbreviation text_file := (option (list pystr)) (only parsing).

Definition nonblank (line : pystr) : bool :=
  negb (bool_decide (strip line = [])).

Definition read_keywords (f : text_file) : list pystr :=
  match f with
  | Some lines => List.map strip (List.filter nonblank lines)
  | None => []
  end.

Definition read_user_urls (f : text_file) : list pystr :=
  match f with
  | Some lines =>
      List.map strip
        (List.filter (fun line => nonblank line && negb (startswith [35] line))
           lines)
  | None => []
  end.

(** One (user, keyword) unit: the body of the inner loop of [main]. *)
Definition collect_unit (config : json) (user_url user_id keyword : pystr)
    (all_results : list dict) : M (list dict) :=
  _ ← log INFO;
  try_catch
    (dm ← lift (json_getitem (lit "download_media") config);
     results ← call (ESearchUser user_url keyword 1 dm)
                 (search_user ext user_url keyword 1 dm);
     match results with
     | _ :: _ =>
         let results :=
           List.map (fun result =>
                       Dict.set (lit "keyword") (VStr keyword)
                         (Dict.set (lit "user_id") (VStr user_id) result))
                    results in
         _ ← log INFO;
         ret (all_results ++ results)
     | [] => _ ← log INFO; ret all_results
     end)
    (fun _ => _ ← log ERROR; ret all_results).

(** The loops over users and keywords; [i] is the index of [enumerate]. *)
Definition collect_all (config : json) (user_urls keywords : list pystr)
  : M (list dict) :=
  for_each (combine (seq 1 (length user_urls)) user_urls)
    (fun '(i, user_url) all_results =>
       _ ← log INFO;
       extracted ← silent (extract_user_id ext user_url);
       let user_id :=
         match extracted with
         | Some ((_ :: _) as uid) => uid
         | _ => lit "user_" ++ str_of_int (Z.of_nat i)
         end in
       for_each keywords (collect_unit config user_url user_id) all_results)
    [].

(** The tail of [main]: the aggregated table and the gallery. *)
Definition save_all (all_results : list dict) (now : pystr) : M unit :=
  match all_results with
  | _ :: _ =>
      try_catch
        (let df_all := DF.of_records (maybe_convert_objects ext) all_results in
         let df_all := clean_and_reorder_dataframe df_all in
         df_all ← lift (DF.sort_values (argsort ext)
                          (lit "attitudes_count") false df_all);
         let output_file :=
           lit "results" ++ lit "/" ++ lit "all_results_" ++ now ++ lit ".csv" in
         _ ← call (EWriteCsv output_file df_all) (to_csv ext output_file df_all);
         _ ← log INFO;
         _ ← log INFO;
         try_catch (call EGallery (gallery ext))
           (fun e =>
              match e with
              | ImportError => log WARNING
              | _ => log ERROR
              end))
        (fun _ => log ERROR)
  | [] => log WARNING
  end.

Definition main (keywords_txt user_urls_txt : text_file) : M unit :=
  config ← load_config;
  let keywords := read_keywords keywords_txt in
  match keywords with
  | [] => log ERROR
  | _ :: _ =>
  _ ← log INFO;
  let user_urls := read_user_urls user_urls_txt in
  match user_urls with
  | [] => log ERROR
  | _ :: _ =>
  _ ← log INFO;
  _ ← (fun s => let '(r, w) := new_spider ext (world s) in
                (r, {| world := w; files := files s; trace := trace s |}));
  let result_dir := lit "results" in
  _ ← call (EMakedirs result_dir) (makedirs ext result_dir);
  now ← read (run_timestamp ext);
  all_results ← collect_all config user_urls keywords;
  save_all all_results now
  end end.

End Program.

(** ** Vocabulary of the specification *)

(** An ASCII decimal digit, and the value of a run of them. *)
Definition is_ascii_digit (c : char) : Prop := 48 <= c <= 57.

Definition digits_value (ds : pystr) (acc : Z) : Z :=
  fold_left (fun a c => 10 * a + (c - 48)) ds acc.

(** The normalized publish time of a post, [None] for null. *)
Definition normalized_time (now : DT.datetime) (weibo : dict)
  : option DT.datetime :=
  match parse_weibo_time now
          (Dict.get_default (lit "publish_time") (VStr []) weibo) (Some now) with
  | Ok (Some dt) => Some dt
  | _ => None
  end.

(** At least one image or one video flag is set. *)
Definition has_media (weibo : dict) : bool :=
  truthy (Dict.get_default (lit "has_images") (VBool false) weibo)
  || truthy (Dict.get_default (lit "has_videos") (VBool false) weibo).

(** The post is to survive the recency/media filter. *)
Definition retained (now : DT.datetime) (weibo : dict) : bool :=
  match normalized_time now weibo with
  | Some dt => (now - DT.hours 48 <=? dt) && has_media weibo
  | None => false
  end.

(** The stripped text takes no branch of the [if] chain of
    [parse_weibo_time]: it holds no relative, today or yesterday marker
    anywhere, and either no hyphen or a hyphen in a text that is neither 11
    nor 16 code points long. *)
Definition falls_through (s : pystr) : bool :=
  negb (contains minutes_ago s) && negb (contains hours_ago s)
  && negb (contains today s) && negb (contains yesterday s)
  && (negb (contains hyphen s)
      || (negb (length s =? 11)%nat && negb (length s =? 16)%nat)).

(** The six formats that section 4.1 of the specification recognises, as
    it words them: "N minutes ago" and "N hours ago" for a number [N]
    (a non-empty run of digits before the marker), "Today HH:MM" and
    "Yesterday HH:MM", "MM-DD HH:MM" on exactly 11 characters and
    "YYYY-MM-DD HH:MM" on exactly 16. *)
Definition digit (c : char) : bool := (48 <=? c) && (c <=? 57).

Definition number_before (marker s : pystr) : bool :=
  let n := (length s - length marker)%nat in
  negb (n =? 0)%nat && forallb digit (firstn n s)
  && bool_decide (skipn n s = marker).

(** The text has [n] code points: the given ones at the given places,
    and digits everywhere else. *)
Definition shaped (n : nat) (fixed : list (nat * char)) (s : pystr) : bool :=
  (length s =? n)%nat
  && forallb
       (fun i =>
          match List.find (fun p => (fst p =? i)%nat) fixed with
          | Some p => nth i s 0 =? snd p
          | None => digit (nth i s 0)
          end)
       (seq 0 n).

(** "HH:MM" *)
Definition hour_minute (s : pystr) : bool := shaped 5 [(2%nat, 58)] s.

Fixpoint drop_spaces (s : pystr) : pystr :=
  match s with
  | c :: t => if c =? 32 then drop_spaces t else s
  | [] => []
  end.

(** The marker, then "HH:MM", with any number of spaces between them. *)
Definition day_marker_time (marker s : pystr) : bool :=
  bool_decide (firstn (length marker) s = marker)
  && hour_minute (drop_spaces (skipn (length marker) s)).

(** "MM-DD HH:MM" *)
Definition month_day_time (s : pystr) : bool :=
  shaped 11 [(2%nat, 45); (5%nat, 32); (8%nat, 58)] s.

(** "YYYY-MM-DD HH:MM" *)
Definition year_month_day_time (s : pystr) : bool :=
  shaped 16 [(4%nat, 45); (7%nat, 45); (10%nat, 32); (13%nat, 58)] s.

Definition spec_recognized (s : pystr) : bool :=
  number_before minutes_ago s || number_before hours_ago s
  || day_marker_time today s || day_marker_time yesterday s
  || month_day_time s || year_month_day_time s.

(** A two-column table given by its (keyword, category) rows. *)
Definition table_of (pairs : list (pystr * pystr)) : classification_file :=
  Table (List.map (fun p => [fst p; snd p]) pairs).

(** The category of the first, respectively the last, row for a keyword. *)
Definition first_category (k : pystr) (pairs : list (pystr * pystr))
  : option pystr :=
  snd <$> List.find (fun p => bool_decide (fst p = k)) pairs.

Definition last_category (k : pystr) (pairs : list (pystr * pystr))
  : option pystr :=
  first_category k (rev pairs).

(** The state after the events [evs] have been recorded. *)
Definition record {World : Type} (s : @state World) (evs : list event)
  : @state World :=
  {| world := world s; files := files s; trace := trace s ++ evs |}.

(** Every event that [m] adds to the trace satisfies [P]. *)
Definition adds {World A : Type} (P : event -> Prop) (m : @M World A) : Prop :=
  forall s r s', m s = (r, s') ->
    exists evs, trace s' = trace s ++ evs /\ Forall P evs.

(** [m] returns a value from every state: no exception leaves it. *)
Definition never_raises {World A : Type} (m : @M World A) : Prop :=
  forall s, exists a s', m s = (Ok a, s').

(** The [ESearchUser] events of a trace. *)
Definition searches (evs : list event) : list event :=
  List.filter (fun e => match e with ESearchUser _ _ _ _ => true | _ => false end)
    evs.

(** The records of one unit, tagged as the inner loop of [main] does. *)
Definition tagged (user_id keyword : pystr) (results : list dict) : list dict :=
  List.map (fun result =>
              Dict.set (lit "keyword") (VStr keyword)
                (Dict.set (lit "user_id") (VStr user_id) result))
           results.


(** A call of the scorer passes the thresholds of the configuration:
    ["min_score"] and ["min_likes"] as they stand in it, and
    ["min_comments"] and ["min_forwards"] as they stand or zero. *)
Definition scorer_call_ok (config : gmap (list Z) pyval) (e : event) : Prop :=
  match e with
  | EAnalyze _ min_score min_likes min_comments min_forwards =>
      config !! lit "min_score" = Some min_score
      /\ config !! lit "min_likes" = Some min_likes
      /\ min_comments = default (VInt 0) (config !! lit "min_comments")
      /\ min_forwards = default (VInt 0) (config !! lit "min_forwards")
  | _ => True
  end.

(** An event other than a call of the scorer. *)
Definition not_scorer_call (e : event) : Prop :=
  match e with
  | EAnalyze _ _ _ _ _ => False
  | _ => True
  end.

(** The path of the aggregated table. *)
Definition all_results_csv (now : pystr) : pystr :=
  lit "results" ++ lit "/" ++ lit "all_results_" ++ now ++ lit ".csv".

(** A state over the trivial world with a given configuration file. *)
Definition disk_with (f : config_file) : @state unit :=
  {| world := tt; files := {| config_json := f; writable := true |};
     trace := [] |}.

(** ** A reference sorter and sample collaborators *)

(** The integer keys of a column, if all its cells are integers. *)
Fixpoint int_keys (keys : list pyval) : option (list Z) :=
  match keys with
  | [] => Some []
  | VInt n :: keys' =>
      match int_keys keys' with
      | Some ns => Some (n :: ns)
      | None => None
      end
  | _ :: _ => None
  end.

(** Insertion into a list in ascending key order, before the pairs with
    the same key. *)
Fixpoint insert_asc (p : Z * nat) (l : list (Z * nat)) : list (Z * nat) :=
  match l with
  | [] => [p]
  | q :: l' =>
      if fst q <? fst p then q :: insert_asc p l' else p :: l
  end.

(** An indexer for an ascending sort of an integer column, by insertion. *)
Definition argsort_insertion (keys : list pyval) : result (list nat) :=
  match int_keys keys with
  | Some ns =>
      Ok (List.map snd
            (fold_right insert_asc [] (combine ns (seq 0 (length ns)))))
  | None => Raise TypeError
  end.

(** What the aggregated run relies on from numpy's [argsort]: on integers
    it returns a rearrangement of the positions along which the values do
    not decrease.  Nothing is asked on equal values. *)
Definition argsort_contract (argsort : list pyval -> result (list nat)) : Prop :=
  forall ns : list Z,
  exists order,
    argsort (List.map VInt ns) = Ok order
    /\ Permutation order (seq 0 (length ns))
    /\ StronglySorted Z.le (List.map (fun i => nth i ns 0) order).

(** What it relies on from pandas' dtype inference: a column of integers
    keeps its values. *)
Definition keeps_integers (convert : list pyval -> list pyval) : Prop :=
  forall ns : list Z, convert (List.map VInt ns) = List.map VInt ns.

(** The [attitudes_count] of a row. *)
Definition attitudes (r : dict) : Z :=
  match DF.cell (lit "attitudes_count") r with
  | VInt n => n
  | _ => 0
  end.

(** A recent post with an image, [likes] likes and as many attitudes. *)
Definition sample_post (weibo_id likes : Z) : dict :=
  [ (lit "weibo_id", VInt weibo_id);
    (lit "publish_time", VStr (lit "5" ++ minutes_ago));
    (lit "has_images", VBool true);
    (lit "likes", VInt likes);
    (lit "attitudes_count", VInt likes) ].

(** Collaborators over a trivial world: the fetcher returns [posts] (and
    fails for the keyword ["bad"] in a user search) and extracts no user
    id, the scorer returns [scored], the clock reads 2024-05-23T12:00:00.
    The dtype inference leaves a column as it is, as pandas does for the
    columns of the sample posts, where no record lacks a key and the
    values of a column have one type. *)
Definition sample_ext (posts : list dict) (scored : option analysis)
  : Externals unit :=
  {| search_keyword := fun _ _ _ w => (Ok posts, w);
     search_user := fun _ keyword _ _ w =>
       (if bool_decide (keyword = lit "bad")
        then Raise (ExternalError 1) else Ok posts, w);
     extract_user_id := fun _ w => (Ok None, w);
     download_media := fun _ _ _ w => (Ok None, w);
     analyze_weibos := fun _ _ _ _ _ w => (Ok scored, w);
     clock := fun _ => t_2024_05_23_12_00;
     path_exists := fun _ _ => false;
     encode_jpeg := fun _ _ => Raise (ExternalError 2);
     makedirs := fun _ w => (Ok tt, w);
     to_csv := fun _ _ w => (Ok tt, w);
     dump_json := fun _ _ w => (Ok tt, w);
     argsort := argsort_insertion;
     maybe_convert_objects := fun column => column;
     run_timestamp := fun _ => lit "20240523_120000";
     new_spider := fun w => (Ok tt, w);
     gallery := fun w => (Raise ImportError, w) |}.

(** A configuration with the keys that [process_keyword] indexes. *)
Definition sample_config : gmap (list Z) pyval :=
  list_to_map
    [ (lit "default_pages", VInt 5); (lit "start_page", VInt 1);
      (lit "min_score", VInt 80); (lit "min_likes", VInt 500);
      (lit "download_media", VBool false) ].

Definition fresh_state : @state unit := disk_with Missing.

(** The collaborators [ext] with another extraction of user ids. *)
Definition with_extract_user_id {World : Type}
    (f : pystr -> World -> result (option pystr) * World)
    (ext : Externals World) : Externals World :=
  {| search_keyword := search_keyword ext;
     search_user := search_user ext;
     extract_user_id := f;
     download_media := download_media ext;
     analyze_weibos := analyze_weibos ext;
     clock := clock ext;
     path_exists := path_exists ext;
     encode_jpeg := encode_jpeg ext;
     makedirs := makedirs ext;
     to_csv := to_csv ext;
     dump_json := dump_json ext;
     argsort := argsort ext;
     maybe_convert_objects := maybe_convert_objects ext;
     run_timestamp := run_timestamp ext;
     new_spider := new_spider ext;
     gallery := gallery ext |}.

(** The collaborators [ext] with another downloader, file test and image
    encoder. *)
Definition with_media {World : Type}
    (download : pystr -> pystr -> pyval -> World -> result (option pystr) * World)
    (exists_ : pystr -> World -> bool)
    (encode : pystr -> World -> result pystr)
    (ext : Externals World) : Externals World :=
  {| search_keyword := search_keyword ext;
     search_user := search_user ext;
     extract_user_id := extract_user_id ext;
     download_media := download;
     analyze_weibos := analyze_weibos ext;
     clock := clock ext;
     path_exists := exists_;
     encode_jpeg := encode;
     makedirs := makedirs ext;
     to_csv := to_csv ext;
     dump_json := dump_json ext;
     argsort := argsort ext;
     maybe_convert_objects := maybe_convert_objects ext;
     run_timestamp := run_timestamp ext;
     new_spider := new_spider ext;
     gallery := gallery ext |}.

(** ** Vocabulary of the further properties *)

(** A number below 100, below 10000, written with two, four digits. *)
Definition pad2 (x : Z) : pystr := [48 + x / 10; 48 + x mod 10].
Definition pad4 (y : Z) : pystr :=
  [48 + y / 1000; 48 + (y / 100) mod 10; 48 + (y / 10) mod 10; 48 + y mod 10].

(** "HH:MM", "MM-DD HH:MM" and "YYYY-MM-DD HH:MM" *)
Definition hm_text (h m : Z) : pystr := pad2 h ++ [58] ++ pad2 m.
Definition mdhm_text (mo d h m : Z) : pystr :=
  pad2 mo ++ [45] ++ pad2 d ++ [32] ++ hm_text h m.
Definition ymdhm_text (y mo d h m : Z) : pystr :=
  pad4 y ++ [45] ++ mdhm_text mo d h m.

(** The value of a constructor call, [None] when it raises. *)
Definition value_or_none {A : Type} (r : result A) : option A :=
  match r with
  | Ok a => Some a
  | Raise _ => None
  end.

(** Every white-space code point of [s] is a blank that does not follow
    white space; [after_space] tells that white space comes just before
    [s]. *)
Fixpoint spaced (after_space : bool) (s : pystr) : bool :=
  match s with
  | [] => true
  | c :: s' =>
      if isspace c then (c =? 32) && negb after_space && spaced true s'
      else spaced false s'
  end.

(** The cell that the cleaned frame holds in column [c] for the row [r] of
    the frame [df]. *)
Definition clean_cell (df : DF.DataFrame) (c : pystr) (r : dict) : pyval :=
  if bool_decide (c = lit "content") then
    VStr (strip (collapse_spaces false (py_str (DF.cell c r))))
  else if bool_decide (c = lit "post_link") && negb (DF.has_column c df) then
    VStr (lit "https://weibo.com/detail/" ++ py_str (DF.cell (lit "weibo_id") r))
  else DF.cell c r.

(** What the tail of [main] may add to the trace: log lines, the call of
    the gallery, and a write of the aggregated table at its path. *)
Definition tail_event (now : pystr) (e : event) : Prop :=
  match e with
  | ELog _ | EGallery => True
  | EWriteCsv path _ => path = all_results_csv now
  | _ => False
  end.


(** [key in config] holds for every recognised key. *)
Definition names_key (config : json) (item : pystr * pyval) : bool :=
  match json_contains (fst item) config with
  | Ok true => true
  | _ => false
  end.

Definition names_every_key (config : json) : bool :=
  forallb (names_key config) default_items.

(** An event other than a write of a table or of an analysis file. *)
Definition no_write (e : event) : Prop :=
  match e with
  | EWriteCsv _ _ | EWriteJson _ _ => False
  | _ => True
  end.

(** [m] returns [None] or raises: it never returns a value. *)
Definition yields_nothing {World A : Type} (m : @M World (option A)) : Prop :=
  forall s r s', m s = (r, s') -> r = Ok None \/ exists e, r = Raise e.

(** The record carries one of the keywords, and the id of one of the
    users: an id that the fetcher extracted from the user's URL when it is
    not empty, and [user_<n>] for the [n]-th user (counted from 1) when
    the fetcher extracted none or an empty one. *)
Definition tagged_for {World : Type} (ext : Externals World)
    (user_urls keywords : list pystr) (r : dict) : Prop :=
  exists keyword i user_url user_id w,
    In keyword keywords /\ nth_error user_urls i = Some user_url
    /\ Dict.get (lit "keyword") r = Some (VStr keyword)
    /\ Dict.get (lit "user_id") r = Some (VStr user_id)
    /\ user_id <> []
    /\ match fst (extract_user_id ext user_url w) with
       | Ok (Some []) | Ok None =>
           user_id = lit "user_" ++ str_of_int (Z.of_nat (S i))
       | Ok (Some uid) => user_id = uid
       | Raise _ => False
       end.

(** What [download_filtered_media] may add to the trace for a keyword: a
    download of a non-empty URL under that keyword, and a pause. *)
Definition download_event (keyword : pystr) (e : event) : Prop :=
  match e with
  | EDownload url k _ => url <> [] /\ k = keyword
  | ESleep => True
  | _ => False
  end.

(** The post asks for its images: [has_images] counts as true. *)
Definition wants_images (weibo : dict) : bool :=
  truthy (Dict.get_default (lit "has_images") (VBool false) weibo).

(** The non-empty URLs of [image_urls], in order. *)
Definition image_urls_of (weibo : dict) : list pystr :=
  match Dict.get_default (lit "image_urls") (VStr []) weibo with
  | VStr urls =>
      List.filter (fun url => negb (bool_decide (url = []))) (split 124 urls)
  | _ => []
  end.

(** The local paths that a downloader answering [fetch url weibo_id]
    gives for the post: the non-empty answers, in the order of the URLs. *)
Definition downloaded_paths (fetch : pystr -> pyval -> option pystr)
    (weibo : dict) : list pystr :=
  flat_map
    (fun url =>
       match fetch url (Dict.get_default (lit "weibo_id") VNone weibo) with
       | Some path => if bool_decide (path = []) then [] else [path]
       | None => []
       end)
    (image_urls_of weibo).

(** The post that [download_filtered_media] leaves, the paths it counts
    and the calls it makes for a post. *)
Definition with_paths (fetch : pystr -> pyval -> option pystr) (weibo : dict)
  : dict :=
  if wants_images weibo
  then Dict.set (lit "image_paths")
         (VStr (join [124] (downloaded_paths fetch weibo))) weibo
  else weibo.

Definition counted_paths (fetch : pystr -> pyval -> option pystr) (weibo : dict)
  : list pystr :=
  if wants_images weibo then downloaded_paths fetch weibo else [].

Definition download_calls (keyword : pystr) (weibo : dict) : list event :=
  if wants_images weibo
  then flat_map
         (fun url =>
            [ EDownload url keyword
                (Dict.get_default (lit "weibo_id") VNone weibo);
              ESleep ])
         (image_urls_of weibo)
  else [].

(** A post that [download_filtered_media] can handle: if it asks for its
    images, its [image_urls] is a text or absent, and it has a [weibo_id]
    when one of the URLs is not empty. *)
Definition downloadable (weibo : dict) : Prop :=
  wants_images weibo = true ->
  (exists urls, Dict.get_default (lit "image_urls") (VStr []) weibo = VStr urls)
  /\ (image_urls_of weibo <> [] ->
      exists weibo_id, Dict.get (lit "weibo_id") weibo = Some weibo_id).

(** The post's [image_paths] is absent, a text, or counts as false. *)
Definition text_paths (w : dict) : Prop :=
  match Dict.get_default (lit "image_paths") (VStr []) w with
  | VStr _ => True
  | v => truthy v = false
  end.

(** The data URIs that [add_image_data_to_weibos] makes for a post in the
    world [w]: one for each non-empty path of [image_paths] that exists
    and that the encoder accepts, in the order of the paths. *)
Definition encoded_images {World : Type} (ext : Externals World) (w : World)
    (weibo : dict) : list pystr :=
  match Dict.get_default (lit "image_paths") (VStr []) weibo with
  | VStr paths =>
      flat_map
        (fun path =>
           if negb (bool_decide (path = [])) && path_exists ext path w then
             match encode_jpeg ext path w with
             | Ok b64 => [lit "data:image/jpeg;base64," ++ b64]
             | Raise _ => []
             end
           else [])
        (split 124 paths)
  | _ => []
  end.

(** The post that [add_image_data_to_weibos] leaves. *)
Definition with_images {World : Type} (ext : Externals World) (w : World)
    (weibo : dict) : dict :=
  Dict.set (lit "image_count")
    (VInt (Z.of_nat (length (encoded_images ext w weibo))))
    (Dict.set (lit "image_base64")
       (VStr (join [124] (encoded_images ext w weibo))) weibo).

Definition is_warning (e : event) : Prop := e = ELog WARNING.

(** Sample media collaborators: the downloader has no file for the URL
    ["u2"], the file ["gone.jpg"] does not exist and the encoder rejects
    ["bad.jpg"]. *)
Definition sample_media_ext : Externals unit :=
  with_media
    (fun url _ _ w =>
       (Ok (if bool_decide (url = lit "u2") then None
            else Some (lit "img/" ++ url)), w))
    (fun path _ => negb (bool_decide (path = lit "gone.jpg")))
    (fun path _ => if bool_decide (path = lit "bad.jpg")
                   then Raise (ExternalError 2) else Ok (lit "QUJD"))
    (sample_ext [] None).

Definition sample_media_post : dict :=
  [ (lit "weibo_id", VInt 7);
    (lit "has_images", VBool true);
    (lit "image_urls", VStr (lit "u1||u2|u3"));
    (lit "image_paths", VStr (lit "a.jpg||gone.jpg|bad.jpg|b.jpg")) ].

(** A download is made only under a configuration whose
    ["download_media"] counts as true. *)
Definition download_enabled (config : gmap (list Z) pyval) (e : event) : Prop :=
  match e with
  | EDownload _ _ _ =>
      exists v, config !! lit "download_media" = Some v /\ truthy v = true
  | _ => True
  end.

(** * Properties *)

(** ** Checks of the library models *)

Example lit_ok : lit "-:" = [45; 58].
Proof. reflexivity. Qed.
Example py_int_5 : py_int [0x3000; 43; 0xff15; 95; 0x663; 32] = Ok 53.
Proof. reflexivity. Qed.
Example py_int_bad : py_int [49; 95; 95; 48] = Raise ValueError.
Proof. reflexivity. Qed.
Example decimal_2024 : str_of_int 2024 = lit "2024".
Proof. reflexivity. Qed.
Example decimal_0 : str_of_int 0 = lit "0".
Proof. reflexivity. Qed.
Example replace_ex : replace [97; 97] [] [97; 97; 97] = [97].
Proof. reflexivity. Qed.

Example make_2024 :
  DT.make 2024 5 23 12 0 0 0 = Ok ((739029 - 1) * DT.us_per_day + 12 * DT.us_per_hour).
Proof. reflexivity. Qed.
Example year_2024 :
  DT.year (739028 * DT.us_per_day + 5) = 2024 /\ DT.year 0 = 1
  /\ DT.year (DT.MAXORDINAL * DT.us_per_day - 1) = 9999
  /\ DT.year (365 * DT.us_per_day - 1) = 1 /\ DT.year (365 * DT.us_per_day) = 2.
Proof. repeat split; reflexivity. Qed.
Example strptime_ex1 :
  Strptime.strptime_YmdHM (lit "2024-5- 3  12:34") = DT.make 2024 5 3 12 34 0 0.
Proof. reflexivity. Qed.
Example strptime_ex2 :
  Strptime.strptime_YmdHM (lit "2024-02-30 12:34") = Raise ValueError
  /\ Strptime.strptime_YmdHM (lit "0000-02-20 12:34") = Raise ValueError
  /\ Strptime.strptime_YmdHM (lit "2024-05-2312:34") = Raise ValueError
  /\ Strptime.strptime_HM (lit "12:345") = Raise ValueError
  /\ Strptime.strptime_HM (lit "24:00") = Raise ValueError
  /\ Strptime.strptime_HM (lit "1:5") = DT.make 1900 1 1 1 5 0 0
  /\ Strptime.strptime_HM [49; 0xff12; 58; 51; 52] = DT.make 1900 1 1 12 34 0 0.
Proof. repeat split; reflexivity. Qed.

Example t_2024_05_23_12_00_fields :
  DT.make 2024 5 23 12 0 0 0 = Ok t_2024_05_23_12_00.
Proof. reflexivity. Qed.

Example parse_examples :
  let now := Some t_2024_05_23_12_00 in
  parse_weibo_time 0 (VStr (lit "5" ++ minutes_ago)) now
    = Some <$> DT.make 2024 5 23 11 55 0 0
  /\ parse_weibo_time 0 (VStr (lit " 3" ++ hours_ago ++ lit " ")) now
    = Some <$> DT.make 2024 5 23 9 0 0 0
  /\ parse_weibo_time 0 (VStr (today ++ lit " 08:15")) now
    = Some <$> DT.make 2024 5 23 8 15 0 0
  /\ parse_weibo_time 0 (VStr (yesterday ++ lit "23:59")) now
    = Some <$> DT.make 2024 5 22 23 59 0 0
  /\ parse_weibo_time 0 (VStr (lit "02-29 07:05")) now
    = Some <$> DT.make 2024 2 29 7 5 0 0
  /\ parse_weibo_time 0 (VStr (lit "2023-12-31 07:05")) now
    = Some <$> DT.make 2023 12 31 7 5 0 0
  /\ parse_weibo_time 0 (VStr (lit "2023-02-29 07:05")) now = Ok None
  /\ parse_weibo_time 0 (VStr (lit "x" ++ minutes_ago)) now = Ok None
  /\ parse_weibo_time 0 (VStr (lit "2023-12-31")) now = Ok None
  /\ parse_weibo_time 0 VNone now = Ok None.
Proof. repeat split; reflexivity. Qed.



(** ** Strings and [int] *)

Module StrFacts.

Lemma digit_not_space c : is_ascii_digit c -> isspace c = false.
Proof. unfold is_ascii_digit, isspace. lia. Qed.

Lemma lstrip_head c s : isspace c = false -> lstrip (c :: s) = c :: s.
Proof. intros H. simpl. now rewrite H. Qed.

Lemma rstrip_last (s : pystr) b :
  isspace b = false -> rstrip (s ++ [b]) = s ++ [b].
Proof.
  intros Hb. unfold rstrip. rewrite rev_app_distr. simpl.
  rewrite Hb. simpl. now rewrite rev_involutive.
Qed.

(** A text with no white space at either end is its own [strip]. *)
Lemma strip_no_space (s : pystr) :
  Forall (fun c => isspace c = false) s -> strip s = s.
Proof.
  intros H. unfold strip.
  assert (lstrip s = s) as ->.
  { destruct H as [|a s Ha _]; [reflexivity | now apply lstrip_head]. }
  destruct (rev s) as [|b t] eqn:E.
  - unfold rstrip. rewrite E. simpl.
    apply (f_equal (@rev _)) in E. now rewrite rev_involutive in E.
  - assert (s = rev t ++ [b]) as Hs.
    { apply (f_equal (@rev _)) in E. now rewrite rev_involutive in E. }
    rewrite Hs. apply rstrip_last.
    rewrite Hs in H. apply Forall_app in H as [_ H]. now inversion H.
Qed.

Lemma startswith_head_ne a p c s : a <> c -> startswith (a :: p) (c :: s) = false.
Proof. intros H. simpl. destruct (Z.eqb_spec a c); [contradiction | reflexivity]. Qed.

Lemma startswith_refl_app p s : startswith p (p ++ s) = true.
Proof. induction p as [|a p IH]; simpl; [reflexivity|]. now rewrite Z.eqb_refl. Qed.

(** A marker placed after a prefix is found by [in]. *)
Lemma contains_app_r sub pre post : contains sub (pre ++ sub ++ post) = true.
Proof.
  induction pre as [|c pre IH].
  - simpl app. destruct (sub ++ post) eqn:E; simpl.
    + destruct sub; [reflexivity | discriminate].
    + rewrite <- E, startswith_refl_app. reflexivity.
  - simpl. rewrite IH. apply orb_true_r.
Qed.

(** A marker whose first code point does not occur is not found. *)
Lemma contains_head_absent a sub s :
  Forall (fun c => a <> c) s -> contains (a :: sub) s = false.
Proof.
  induction 1 as [|c s Hc _ IH]; [reflexivity|].
  simpl contains. rewrite IH.
  change (startswith (a :: sub) (c :: s)) with ((a =? c) && startswith sub s).
  destruct (Z.eqb_spec a c); [contradiction | reflexivity].
Qed.

Lemma startswith_refl p : startswith p p = true.
Proof. induction p as [|a p IH]; simpl; [reflexivity|]. now rewrite Z.eqb_refl. Qed.

Lemma replace_go_skip old new (l : pystr) k :
  (length l <= k)%nat -> replace_go old new k l = [].
Proof.
  revert k. induction l as [|x l IH]; intros k Hk; [reflexivity|].
  destruct k; simpl in *; [lia|]. apply IH. lia.
Qed.

(** Removing a marker that follows a prefix free of its first code point. *)
Lemma replace_suffix a sub pre :
  Forall (fun c => a <> c) pre ->
  replace (a :: sub) [] (pre ++ a :: sub) = pre.
Proof.
  intros H. unfold replace.
  induction H as [|c pre Hc _ IH].
  - simpl app. cbn [replace_go].
    rewrite startswith_refl. simpl app.
    apply replace_go_skip. simpl. lia.
  - simpl app. cbn [replace_go].
    rewrite (startswith_head_ne a sub c _ Hc). now rewrite IH.
Qed.

Lemma transform_ascii (s : pystr) :
  Forall (fun c => c < 128) s -> transform_decimal_and_space s = s.
Proof.
  induction 1 as [|c s Hc _ IH]; [reflexivity|].
  simpl. destruct (Z.ltb_spec c 128); [now rewrite IH | lia].
Qed.

Lemma ascii_digit_spec c : is_ascii_digit c -> ascii_digit c = Some (c - 48).
Proof.
  unfold is_ascii_digit, ascii_digit. intros H.
  destruct (Z.leb_spec 48 c), (Z.leb_spec c 57); simpl; try lia. reflexivity.
Qed.

Lemma scan_digits_all (ds : pystr) prev acc k :
  Forall is_ascii_digit ds -> prev <> 95 ->
  scan_digits ds prev acc k
  = Some (digits_value ds acc, (k + length ds)%nat, []).
Proof.
  intros H. revert prev acc k.
  induction H as [|c ds Hc _ IH]; intros prev acc k Hp.
  - simpl. destruct (Z.eqb_spec prev 95); [contradiction|].
    now rewrite Nat.add_0_r.
  - simpl scan_digits. unfold is_ascii_digit in Hc.
    destruct (Z.eqb_spec c 95); [lia|].
    rewrite (ascii_digit_spec c Hc).
    rewrite IH by lia. simpl. do 3 f_equal. lia.
Qed.

Lemma decimal_go_digits fuel n acc :
  0 <= n -> Forall is_ascii_digit acc ->
  Forall is_ascii_digit (decimal_go fuel n acc).
Proof.
  revert n acc. induction fuel as [|fuel IH]; intros n acc Hn Hacc; [assumption|].
  simpl. assert (is_ascii_digit (48 + n mod 10)).
  { unfold is_ascii_digit. pose proof (Z.mod_pos_bound n 10). lia. }
  destruct (n <? 10).
  - now constructor.
  - apply IH; [apply Z.div_pos; lia | now constructor].
Qed.

Lemma decimal_go_length fuel n acc :
  (length acc <= length (decimal_go fuel n acc) <= fuel + length acc)%nat.
Proof.
  revert n acc. induction fuel as [|fuel IH]; intros n acc; simpl; [lia|].
  destruct (n <? 10); simpl; [lia|].
  specialize (IH (n / 10) ((48 + n mod 10) :: acc)). simpl in IH. lia.
Qed.

Lemma decimal_go_nonempty fuel n acc : decimal_go (S fuel) n acc <> [].
Proof.
  simpl. destruct (n <? 10); [discriminate|].
  pose proof (decimal_go_length fuel (n / 10) ((48 + n mod 10) :: acc)) as H.
  intros E. rewrite E in H. simpl in H. lia.
Qed.

Lemma decimal_go_value fuel n acc :
  0 <= n < 10 ^ Z.of_nat fuel ->
  digits_value (decimal_go fuel n acc) 0 = digits_value acc n.
Proof.
  revert n acc. induction fuel as [|fuel IH]; intros n acc Hn.
  - simpl in *. assert (n = 0) as -> by lia. reflexivity.
  - simpl decimal_go.
    destruct (Z.ltb_spec n 10) as [Hlt|Hge].
    + simpl. rewrite Z.mod_small by lia. f_equal. lia.
    + rewrite IH.
      * simpl. f_equal. pose proof (Z.div_mod n 10). lia.
      * rewrite Nat2Z.inj_succ, Z.pow_succ_r in Hn by lia.
        split; [apply Z.div_pos; lia|].
        apply Z.div_lt_upper_bound; lia.
Qed.

Lemma decimal_digits n : 0 <= n -> Forall is_ascii_digit (decimal n).
Proof. intros. now apply decimal_go_digits. Qed.

Lemma decimal_nonempty n : decimal n <> [].
Proof. apply decimal_go_nonempty. Qed.

Lemma decimal_length n : (1 <= length (decimal n))%nat
  /\ Z.of_nat (length (decimal n)) <= 1 + Z.log2 n.
Proof.
  unfold decimal. split.
  - pose proof (decimal_go_nonempty (Z.to_nat (Z.log2 n)) n []) as H.
    destruct (decimal_go _ n []); [contradiction | simpl; lia].
  - pose proof (decimal_go_length (S (Z.to_nat (Z.log2 n))) n []) as [_ H].
    change (length (@nil char)) with 0%nat in H.
    pose proof (Z.log2_nonneg n). lia.
Qed.

Lemma decimal_value n : 0 <= n -> digits_value (decimal n) 0 = n.
Proof.
  intros Hn. unfold decimal. rewrite decimal_go_value; [reflexivity|].
  split; [assumption|].
  destruct (Z.eq_dec n 0) as [->|Hne]; [reflexivity|].
  pose proof (Z.log2_spec n ltac:(lia)) as [_ Hlt].
  pose proof (Z.log2_nonneg n) as Hl.
  rewrite Nat2Z.inj_succ, Z2Nat.id by lia.
  eapply Z.lt_le_trans; [exact Hlt|].
  apply Z.pow_le_mono_l. lia.
Qed.

(** [int] on a run of ASCII digits. *)
Lemma py_int_digits (ds : pystr) :
  Forall is_ascii_digit ds -> ds <> [] ->
  py_int ds = if int_max_str_digits <? Z.of_nat (length ds)
              then Raise ValueError else Ok (digits_value ds 0).
Proof.
  intros H Hne. unfold py_int.
  rewrite transform_ascii
    by (eapply Forall_impl; [exact H|]; unfold is_ascii_digit; simpl; lia).
  unfold parse_long.
  destruct ds as [|c ds]; [contradiction|].
  pose proof H as Hall. apply Forall_cons_iff in H as [Hc _].
  unfold is_ascii_digit in Hc.
  assert (c_isspace c = false) as Hsp by (unfold c_isspace; lia).
  simpl skip_c_space. rewrite Hsp.
  destruct (Z.eqb_spec c 43); [lia|]. destruct (Z.eqb_spec c 45); [lia|].
  rewrite startswith_head_ne by lia.
  rewrite scan_digits_all by (assumption || lia).
  simpl Nat.add. simpl Nat.eqb.
  destruct (int_max_str_digits <? _); [reflexivity|].
  simpl. f_equal. lia.
Qed.

(** [int(str(n)) = n], as long as the digit limit allows. *)
Lemma py_int_decimal n :
  0 <= n ->
  py_int (decimal n) = Ok n \/
  (py_int (decimal n) = Raise ValueError /\ int_max_str_digits <= Z.log2 n).
Proof.
  intros Hn.
  rewrite py_int_digits by (apply decimal_digits || apply decimal_nonempty; lia).
  pose proof (decimal_length n) as [_ Hlen].
  destruct (Z.ltb_spec int_max_str_digits (Z.of_nat (length (decimal n)))).
  - right. split; [reflexivity | lia].
  - left. now rewrite decimal_value.
Qed.

End StrFacts.

(** ** [parse_weibo_time] *)

Module TimeFacts.
Import StrFacts.

Lemma bind_ok {A B : Type} (a : A) (k : A -> result B) : (Ok a ≫= k) = k a.
Proof. reflexivity. Qed.

Lemma bind_raise {A B : Type} (e : exn) (k : A -> result B) :
  (Raise e ≫= k) = Raise e.
Proof. reflexivity. Qed.

(** Whatever the [try] block does, the caller gets a value. *)
Lemma parse_never_raises clock time_str now :
  exists r, parse_weibo_time clock time_str now = Ok r.
Proof.
  unfold parse_weibo_time.
  destruct (_ || _); [now exists None|].
  destruct (parse_weibo_time_try _ _) as [r|e]; simpl; eauto.
Qed.

(** An exception inside the [try] block becomes [None]. *)
Lemma parse_try_raises clock time_str now e :
  parse_weibo_time_try (strip (py_str time_str))
    (match now with Some t => t | None => clock end) = Raise e ->
  parse_weibo_time clock time_str now = Ok None.
Proof.
  intros H. unfold parse_weibo_time.
  destruct (_ || _); [reflexivity|]. now rewrite H.
Qed.

(** The text of a relative offset: digits followed by a marker. *)
Lemma offset_text a sub (ds : pystr) :
  Forall is_ascii_digit ds -> ~ is_ascii_digit a ->
  Forall (fun c => isspace c = false) (a :: sub) ->
  strip (ds ++ a :: sub) = ds ++ a :: sub
  /\ contains (a :: sub) (ds ++ a :: sub) = true
  /\ strip (replace (a :: sub) [] (ds ++ a :: sub)) = ds.
Proof.
  intros Hds Ha Hm.
  assert (Forall (fun c => isspace c = false) ds) as Hsp.
  { eapply Forall_impl; [exact Hds|]. apply digit_not_space. }
  repeat split.
  - apply strip_no_space. apply Forall_app. now split.
  - pose proof (contains_app_r (a :: sub) ds []) as H.
    now rewrite app_nil_r in H.
  - rewrite replace_suffix; [now apply strip_no_space|].
    eapply Forall_impl; [exact Hds|]. intros c Hc ->. contradiction.
Qed.

Lemma far_past (n now : Z) (unit : Z) :
  60000000 <= unit -> DT.in_range now = true ->
  int_max_str_digits <= Z.log2 n ->
  DT.in_range (now - n * unit) = false.
Proof.
  unfold DT.in_range, int_max_str_digits. intros Hu Hnow Hlog.
  assert (0 < n) as Hn.
  { destruct (Z.lt_trichotomy n 0) as [H|[->|H]]; [|simpl in Hlog; lia|lia].
    rewrite Z.log2_nonpos in Hlog; lia. }
  pose proof (Z.log2_spec n Hn) as [Hle _].
  assert (2 ^ 62 <= 2 ^ Z.log2 n) by (apply Z.pow_le_mono_r; lia).
  assert (2 ^ 62 <= n) as Hbig by lia.
  change (2 ^ 62) with 4611686018427387904 in Hbig.
  apply andb_false_iff. left. apply Z.leb_gt.
  apply andb_true_iff in Hnow as [_ Hmax]. apply Z.ltb_lt in Hmax.
  unfold DT.MAXORDINAL, DT.us_per_day, DT.us_per_hour, DT.us_per_minute,
    DT.us_per_second in Hmax.
  nia.
Qed.

(** The two relative branches on a decimal numeral. *)
Lemma relative_minutes clock n now :
  0 <= n -> DT.in_range now = true ->
  parse_weibo_time clock (VStr (decimal n ++ minutes_ago)) (Some now)
  = Ok (if DT.in_range (now - DT.minutes n)
        then Some (now - DT.minutes n) else None).
Proof.
  intros Hn Hnow.
  destruct (offset_text 0x5206 [0x949f; 0x524d] (decimal n))
    as (E1 & E2 & E3);
    [now apply decimal_digits | unfold is_ascii_digit; lia
    | repeat constructor |].
  unfold parse_weibo_time, minutes_ago. cbn [py_str]. rewrite E1.
  pose proof (decimal_digits n Hn) as Hd. pose proof (decimal_nonempty n) as Hne.
  destruct (decimal n) as [|d ds] eqn:Ed; [contradiction|].
  rewrite bool_decide_eq_false_2 by discriminate.
  rewrite bool_decide_eq_false_2.
  2:{ apply Forall_cons_iff in Hd as [Hd _]. unfold is_ascii_digit in Hd.
      unfold unknown_time. intros [= -> _]. lia. }
  cbn [orb]. unfold parse_weibo_time_try, minutes_ago.
  rewrite E2, E3. rewrite <- Ed.
  unfold DT.sub, DT.minutes.
  destruct (py_int_decimal n Hn) as [-> | [-> Hbig]].
  - rewrite bind_ok.
    destruct (DT.in_range (now - n * DT.us_per_minute)); reflexivity.
  - rewrite bind_raise. cbn [try_except].
    rewrite (far_past n now DT.us_per_minute); try assumption; [reflexivity|].
    vm_compute. discriminate.
Qed.

Lemma relative_hours clock n now :
  0 <= n -> DT.in_range now = true ->
  parse_weibo_time clock (VStr (decimal n ++ hours_ago)) (Some now)
  = Ok (if DT.in_range (now - DT.hours n)
        then Some (now - DT.hours n) else None).
Proof.
  intros Hn Hnow.
  destruct (offset_text 0x5c0f [0x65f6; 0x524d] (decimal n))
    as (E1 & E2 & E3);
    [now apply decimal_digits | unfold is_ascii_digit; lia
    | repeat constructor |].
  unfold parse_weibo_time, hours_ago. cbn [py_str]. rewrite E1.
  pose proof (decimal_digits n Hn) as Hd. pose proof (decimal_nonempty n) as Hne.
  assert (contains minutes_ago (decimal n ++ [0x5c0f; 0x65f6; 0x524d]) = false)
    as E0.
  { apply contains_head_absent. apply Forall_app. split.
    - eapply Forall_impl; [exact Hd|]. unfold is_ascii_digit. lia.
    - repeat constructor; lia. }
  destruct (decimal n) as [|d ds] eqn:Ed; [contradiction|].
  rewrite bool_decide_eq_false_2 by discriminate.
  rewrite bool_decide_eq_false_2.
  2:{ apply Forall_cons_iff in Hd as [Hd _]. unfold is_ascii_digit in Hd.
      unfold unknown_time. intros [= -> _]. lia. }
  cbn [orb]. unfold parse_weibo_time_try, hours_ago.
  rewrite E0, E2, E3. rewrite <- Ed.
  unfold DT.sub, DT.hours.
  destruct (py_int_decimal n Hn) as [-> | [-> Hbig]].
  - rewrite bind_ok.
    destruct (DT.in_range (now - n * DT.us_per_hour)); reflexivity.
  - rewrite bind_raise. cbn [try_except].
    rewrite (far_past n now DT.us_per_hour); try assumption; [reflexivity|].
    vm_compute. discriminate.
Qed.

Lemma startswith_In sub (s : pystr) c :
  startswith sub s = true -> In c sub -> In c s.
Proof.
  revert s. induction sub as [|a sub IH]; intros s H Hin; [contradiction|].
  destruct s as [|b s]; [discriminate|]. cbn in H.
  apply andb_prop in H as [Hab H]. apply Z.eqb_eq in Hab. subst b.
  destruct Hin as [->|Hin]; [now left | right; now apply IH].
Qed.

(** A text that contains [sub] holds every code point of [sub]. *)
Lemma contains_In sub (s : pystr) c :
  contains sub s = true -> In c sub -> In c s.
Proof.
  induction s as [|b s IH]; intros H Hin.
  - cbn in H. rewrite orb_false_r in H. exact (startswith_In _ _ _ H Hin).
  - cbn [contains] in H. apply orb_prop in H as [H|H].
    + exact (startswith_In _ _ _ H Hin).
    + right. now apply IH.
Qed.

Lemma contains_prefix sub (post : pystr) : contains sub (sub ++ post) = true.
Proof. apply (contains_app_r sub []). Qed.

Lemma contains_suffix sub (pre : pystr) : contains sub (pre ++ sub) = true.
Proof.
  pose proof (contains_app_r sub pre []) as H. now rewrite app_nil_r in H.
Qed.

Lemma number_before_contains marker (s : pystr) :
  number_before marker s = true -> contains marker s = true.
Proof.
  unfold number_before. intros H.
  apply andb_prop in H as [_ H]. apply bool_decide_eq_true in H.
  rewrite <- (firstn_skipn (length s - length marker) s), H.
  apply contains_suffix.
Qed.

Lemma day_marker_contains marker (s : pystr) :
  day_marker_time marker s = true -> contains marker s = true.
Proof.
  unfold day_marker_time. intros H.
  apply andb_prop in H as [H _]. apply bool_decide_eq_true in H.
  rewrite <- (firstn_skipn (length marker) s), H.
  apply contains_prefix.
Qed.

Lemma nth_contains (s : pystr) i c :
  (i < length s)%nat -> nth i s 0 = c -> contains [c] s = true.
Proof.
  revert i. induction s as [|b s IH]; intros i Hi Hn; [cbn in Hi; lia|].
  destruct i as [|i]; cbn in Hn.
  - subst b. cbn. now rewrite Z.eqb_refl.
  - cbn [contains]. rewrite (IH i) by (cbn in Hi; lia || exact Hn).
    apply orb_true_r.
Qed.

Lemma shaped_length n fixed (s : pystr) : shaped n fixed s = true -> length s = n.
Proof.
  unfold shaped. intros H. apply andb_prop in H as [H _].
  now apply Nat.eqb_eq in H.
Qed.

Lemma shaped_contains n fixed (s : pystr) i c :
  shaped n fixed s = true ->
  (i < n)%nat ->
  List.find (fun p : nat * Z => (fst p =? i)%nat) fixed = Some (i, c) ->
  contains [c] s = true.
Proof.
  intros H Hi Hfind. pose proof (shaped_length _ _ _ H) as Hlen.
  unfold shaped in H. apply andb_prop in H as [_ H].
  rewrite forallb_forall in H.
  specialize (H i ltac:(apply in_seq; lia)). rewrite Hfind in H. cbn in H.
  apply Z.eqb_eq in H. apply (nth_contains s i); [lia | exact H].
Qed.

(** A text without the last code point of the four markers and without a
    hyphen takes no branch. *)
Lemma plain_falls_through (s : pystr) :
  Forall (fun c => c <> 0x524d /\ c <> 0x5929 /\ c <> 45) s ->
  falls_through s = true.
Proof.
  intros H. rewrite List.Forall_forall in H.
  assert (forall sub c, In c sub -> (c = 0x524d \/ c = 0x5929 \/ c = 45) ->
                        contains sub s = false) as Hno.
  { intros sub c Hin Hc. destruct (contains sub s) eqn:E; [|reflexivity].
    pose proof (H c (contains_In _ _ _ E Hin)). lia. }
  unfold falls_through.
  rewrite (Hno minutes_ago 0x524d), (Hno hours_ago 0x524d),
    (Hno today 0x5929), (Hno yesterday 0x5929), (Hno hyphen 45);
    first [reflexivity | cbn; tauto | lia].
Qed.

(** Every text in one of the six formats of the specification takes a
    branch of the [if] chain. *)
Lemma recognized_takes_branch (s : pystr) :
  spec_recognized s = true -> falls_through s = false.
Proof.
  unfold spec_recognized, falls_through, hyphen. intros H.
  repeat (apply orb_prop in H as [H|H]).
  - now rewrite (number_before_contains _ _ H).
  - rewrite (number_before_contains _ _ H). now rewrite andb_false_r.
  - rewrite (day_marker_contains _ _ H). cbn. now rewrite andb_false_r.
  - rewrite (day_marker_contains _ _ H). cbn. now rewrite andb_false_r.
  - rewrite (shaped_contains 11 _ s 2 45 H) by (cbn; lia || reflexivity).
    rewrite (shaped_length _ _ _ H). cbn. now rewrite andb_false_r.
  - rewrite (shaped_contains 16 _ s 4 45 H) by (cbn; lia || reflexivity).
    rewrite (shaped_length _ _ _ H). cbn. now rewrite andb_false_r.
Qed.

End TimeFacts.

(** ** Claims on [parse_weibo_time] and on the filter *)

(** C1. For every batch and every reference instant from which 48 hours can
    be subtracted, the recency/media filter returns exactly the posts whose
    normalized publish time is non-null and not earlier than the reference
    instant minus 48 hours and which carry an image or a video flag, in
    their input order. *)
Theorem recency_media_filter (results : list dict) (now : DT.datetime) :
  DT.days 2 <= now < DT.MAXORDINAL * DT.us_per_day ->
  filter_by_time_and_media results now = Ok (List.filter (retained now) results).
Proof.
  intros Hnow. unfold filter_by_time_and_media, DT.sub.
  assert (DT.in_range (now - DT.days 2) = true) as ->.
  { unfold DT.in_range, DT.days. unfold DT.days in Hnow.
    apply andb_true_iff. split; [apply Z.leb_le | apply Z.ltb_lt];
      unfold DT.us_per_day, DT.us_per_hour, DT.us_per_minute,
        DT.us_per_second in *; lia. }
  rewrite TimeFacts.bind_ok.
  change (List.filter (retained now) results)
    with ([] ++ List.filter (retained now) results).
  generalize (@nil (list (list Z * pyval))) as kept.
  induction results as [|weibo results IH]; intros kept.
  - simpl. now rewrite app_nil_r.
  - cbn [filter_loop List.filter]. unfold retained at 1, normalized_time, has_media.
    destruct (TimeFacts.parse_never_raises now
                (Dict.get_default (lit "publish_time") (VStr []) weibo)
                (Some now)) as [dt ->].
    rewrite TimeFacts.bind_ok.
    destruct dt as [dt|]; [|apply IH].
    replace (now - DT.hours 48) with (now - DT.days 2)
      by (unfold DT.hours, DT.days, DT.us_per_day; lia).
    destruct (_ && _).
    + rewrite IH. now rewrite <- app_assoc.
    + apply IH.
Qed.

Lemma recency_media_filter_witness :
  let now := t_2024_05_23_12_00 in
  let kept := [(lit "publish_time", VStr (lit "5" ++ minutes_ago));
               (lit "has_images", VBool true)] in
  let no_media := [(lit "publish_time", VStr (lit "5" ++ minutes_ago))] in
  let old := [(lit "publish_time", VStr (lit "2024-05-20 08:00"));
              (lit "has_videos", VBool true)] in
  filter_by_time_and_media [no_media; kept; old; kept] now = Ok [kept; kept].
Proof.
  exact (recency_media_filter _ t_2024_05_23_12_00
           ltac:(vm_compute; split; [discriminate | reflexivity])).
Defined.

(** C2 (amended). For a non-negative integer [n] written in decimal and a
    valid reference instant, [parse_weibo_time] on "n分钟前" (on "n小时前")
    returns the reference instant minus exactly [n] minutes ([n] hours)
    whenever that instant is a representable [datetime], and [None]
    otherwise. *)
Theorem relative_offset (clock n now : Z) :
  0 <= n -> DT.in_range now = true ->
  parse_weibo_time clock (VStr (decimal n ++ minutes_ago)) (Some now)
    = Ok (if DT.in_range (now - DT.minutes n)
          then Some (now - DT.minutes n) else None)
  /\ parse_weibo_time clock (VStr (decimal n ++ hours_ago)) (Some now)
    = Ok (if DT.in_range (now - DT.hours n)
          then Some (now - DT.hours n) else None).
Proof.
  intros Hn Hnow. split.
  - now apply TimeFacts.relative_minutes.
  - now apply TimeFacts.relative_hours.
Qed.

(** The scenario of the specification: "5分钟前" at 2024-05-23T12:00:00 is
    2024-05-23T11:55:00. *)
Lemma relative_offset_witness :
  DT.make 2024 5 23 12 0 0 0 = Ok t_2024_05_23_12_00
  /\ parse_weibo_time 0 (VStr (lit "5" ++ minutes_ago)) (Some t_2024_05_23_12_00)
     = Some <$> DT.make 2024 5 23 11 55 0 0.
Proof.
  split; [reflexivity|].
  exact (proj1 (relative_offset 0 5 t_2024_05_23_12_00
                  ltac:(discriminate) ltac:(reflexivity))).
Defined.

(** A numeric offset that reaches before 0001-01-01 yields [None], not an
    instant. *)
Lemma relative_offset_counterexample :
  let n := 99999999999 in
  let now := t_2024_05_23_12_00 in
  decimal n = lit "99999999999"
  /\ py_int (decimal n) = Ok n
  /\ parse_weibo_time 0 (VStr (decimal n ++ minutes_ago)) (Some now) = Ok None
  /\ parse_weibo_time 0 (VStr (decimal n ++ minutes_ago)) (Some now)
     <> Ok (Some (now - DT.minutes n)).
Proof. repeat split; [vm_compute; reflexivity .. | vm_compute; discriminate]. Qed.

(** C3 (amended). [parse_weibo_time] never raises, and it returns [None]
    when the stripped text is empty, is the sentinel "未知时间", holds none
    of the four markers and is not a text of 11 or 16 code points with a
    hyphen, or has a numeric component that [int] rejects (more generally,
    when anything raises inside the [try] block).  In particular a text
    without the code points "前", "天" and "-" gives [None].  Every text in
    one of the six formats of the specification takes a branch; the
    converse fails, since a marker is looked for anywhere in the text. *)
Theorem parse_weibo_time_null (clock : DT.datetime) (time_str : pyval)
    (now : option DT.datetime) :
  let s := strip (py_str time_str) in
  let t := match now with Some t => t | None => clock end in
  (exists r, parse_weibo_time clock time_str now = Ok r)
  /\ (s = [] -> parse_weibo_time clock time_str now = Ok None)
  /\ (s = unknown_time -> parse_weibo_time clock time_str now = Ok None)
  /\ (falls_through s = true ->
      parse_weibo_time clock time_str now = Ok None)
  /\ (forall e, contains minutes_ago s = true ->
      py_int (strip (replace minutes_ago [] s)) = Raise e ->
      parse_weibo_time clock time_str now = Ok None)
  /\ (forall e, contains minutes_ago s = false -> contains hours_ago s = true ->
      py_int (strip (replace hours_ago [] s)) = Raise e ->
      parse_weibo_time clock time_str now = Ok None)
  /\ (forall e, parse_weibo_time_try s t = Raise e ->
      parse_weibo_time clock time_str now = Ok None)
  /\ (Forall (fun c => c <> 0x524d /\ c <> 0x5929 /\ c <> 45) s ->
      parse_weibo_time clock time_str now = Ok None)
  /\ (spec_recognized s = true -> falls_through s = false).
Proof.
  intros s t.
  assert (falls_through s = true ->
          parse_weibo_time clock time_str now = Ok None) as Hfall.
  { unfold parse_weibo_time. fold s t.
    destruct (_ || _); [reflexivity|].
    intros H. unfold falls_through in H. unfold parse_weibo_time_try.
    destruct (contains minutes_ago s); cbn in H; [discriminate|].
    destruct (contains hours_ago s); cbn in H; [discriminate|].
    destruct (contains today s); cbn in H; [discriminate|].
    destruct (contains yesterday s); cbn in H; [discriminate|].
    destruct (contains hyphen s); cbn in H; [|reflexivity].
    destruct (length s =? 11)%nat; cbn in H; [discriminate|].
    destruct (length s =? 16)%nat; cbn in H; [discriminate|].
    reflexivity. }
  split; [apply TimeFacts.parse_never_raises|].
  split; [unfold parse_weibo_time; fold s t; intros ->; reflexivity|].
  split; [unfold parse_weibo_time; fold s t; intros ->; reflexivity|].
  split; [exact Hfall|].
  split.
  { intros e H1 H2. unfold parse_weibo_time. fold s t.
    destruct (_ || _); [reflexivity|].
    unfold parse_weibo_time_try. now rewrite H1, H2. }
  split.
  { intros e H0 H1 H2. unfold parse_weibo_time. fold s t.
    destruct (_ || _); [reflexivity|].
    unfold parse_weibo_time_try. now rewrite H0, H1, H2. }
  split.
  { intros e H. unfold parse_weibo_time. fold s t.
    destruct (_ || _); [reflexivity|]. now rewrite H. }
  split.
  { intros H. apply Hfall. now apply TimeFacts.plain_falls_through. }
  apply TimeFacts.recognized_takes_branch.
Qed.

(** A text in none of the six formats of the specification that holds a
    marker is not rejected: the marker is removed wherever it stands and
    the rest is parsed.  "5分钟前5" is read as 55 minutes ago, and
    "12:34今天", with the marker at the end, as today at 12:34. *)
Lemma unrecognized_text_counterexample :
  let now := t_2024_05_23_12_00 in
  let odd := lit "5" ++ minutes_ago ++ lit "5" in
  let swapped := lit "12:34" ++ today in
  spec_recognized odd = false
  /\ parse_weibo_time 0 (VStr odd) (Some now) = Ok (Some (now - DT.minutes 55))
  /\ spec_recognized swapped = false
  /\ parse_weibo_time 0 (VStr swapped) (Some now)
     = Ok (Some (DT.replace_time now 12 34))
  /\ parse_weibo_time 0 (VStr odd) (Some now) <> Ok None.
Proof.
  cbv zeta. repeat split; try (vm_compute; reflexivity).
  vm_compute. discriminate.
Qed.

Example spec_formats_sample :
  List.map spec_recognized
    [ lit "5" ++ minutes_ago; lit "12" ++ hours_ago;
      today ++ lit " 12:34"; yesterday ++ lit " 08:05";
      lit "05-23 12:34"; lit "2024-05-23 12:34";
      lit "just now"; minutes_ago; lit "2024-05-23"; today ++ lit "12:34" ]
  = [true; true; true; true; true; true; false; false; false; true].
Proof. vm_compute. reflexivity. Qed.

Lemma parse_weibo_time_null_witness :
  parse_weibo_time 0 (VStr []) None = Ok None
  /\ parse_weibo_time 0 (VStr unknown_time) None = Ok None
  /\ parse_weibo_time 0 (VStr (lit "just now")) None = Ok None
  /\ parse_weibo_time 0 (VStr (lit "x" ++ minutes_ago)) None = Ok None.
Proof.
  pose proof (parse_weibo_time_null 0 (VStr []) None) as (_ & H1 & _).
  pose proof (parse_weibo_time_null 0 (VStr unknown_time) None) as (_ & _ & H2 & _).
  pose proof (parse_weibo_time_null 0 (VStr (lit "just now")) None)
    as (_ & _ & _ & H3 & _).
  pose proof (parse_weibo_time_null 0 (VStr (lit "x" ++ minutes_ago)) None)
    as (_ & _ & _ & _ & H4 & _).
  exact (conj (H1 eq_refl) (conj (H2 eq_refl) (conj (H3 eq_refl)
           (H4 ValueError eq_refl eq_refl)))).
Defined.

(** ** Claims on the classification table and on the configuration *)

Lemma first_category_app k ps qs :
  first_category k (ps ++ qs)
  = match first_category k ps with
    | Some c => Some c
    | None => first_category k qs
    end.
Proof.
  unfold first_category. induction ps as [|p ps IH]; [reflexivity|].
  simpl. destruct (bool_decide (p.1 = k)); [reflexivity | exact IH].
Qed.

Lemma classify_rows_lookup (pairs : list (pystr * pystr))
    (m : gmap (list Z) (list Z)) (k : pystr) :
  classify_rows (List.map (fun p => [fst p; snd p]) pairs) m !! k
  = match last_category k pairs with
    | Some c => Some c
    | None => m !! k
    end.
Proof.
  revert m. induction pairs as [|[k0 c0] pairs IH]; intros m; [reflexivity|].
  cbn [List.map classify_rows iloc nth_error fst snd].
  rewrite !TimeFacts.bind_ok, IH.
  unfold last_category. cbn [rev]. rewrite first_category_app.
  destruct (first_category k (rev pairs)); [reflexivity|].
  unfold first_category. cbn [List.find fst snd].
  destruct (decide (k0 = k)) as [->|Hne].
  - rewrite bool_decide_eq_true_2 by reflexivity. apply lookup_insert_eq.
  - rewrite bool_decide_eq_false_2 by assumption. now apply lookup_insert_ne.
Qed.

(** C5 (amended). For every two-column table and every keyword, the mapping
    built by [load_keyword_classifications] gives the keyword the category
    of its last row in the table (a later row overwrites an earlier one);
    a keyword with no row is absent from the mapping. *)
Theorem last_row_wins (pairs : list (pystr * pystr)) (k : pystr) :
  load_keyword_classifications (table_of pairs) !! k = last_category k pairs.
Proof.
  unfold load_keyword_classifications, table_of.
  rewrite classify_rows_lookup.
  destruct (last_category k pairs); [reflexivity | apply lookup_empty].
Qed.

(** A keyword listed twice gets the category of its second row, not of its
    first. *)
Lemma first_row_wins_counterexample :
  let pairs := [(lit "A", lit "tech"); (lit "A", lit "sport")] in
  load_keyword_classifications (table_of pairs) !! lit "A" = Some (lit "sport")
  /\ first_category (lit "A") pairs = Some (lit "tech")
  /\ load_keyword_classifications (table_of pairs) !! lit "A"
     <> first_category (lit "A") pairs.
Proof.
  cbv zeta.
  assert (load_keyword_classifications
            (table_of [(lit "A", lit "tech"); (lit "A", lit "sport")])
          !! lit "A" = Some (lit "sport")) as E.
  { unfold load_keyword_classifications, table_of.
    rewrite classify_rows_lookup. reflexivity. }
  rewrite E. repeat split. discriminate.
Qed.

Lemma fill_defaults_dict (items : list (pystr * pyval))
    (m : gmap (list Z) pyval) :
  fill_defaults items (JDict m) = Ok (JDict (m ∪ list_to_map items)).
Proof.
  revert m. induction items as [|[key value] items IH]; intros m.
  - simpl. now rewrite (right_id_L ∅ (∪)).
  - cbn [fill_defaults json_contains]. rewrite TimeFacts.bind_ok.
    cbn [list_to_map foldr]. 
    destruct (m !! key) as [v|] eqn:E.
    + rewrite bool_decide_eq_true_2 by eauto.
      rewrite TimeFacts.bind_ok, IH. do 2 f_equal.
      apply map_eq. intros k. rewrite !lookup_union.
      destruct (decide (key = k)) as [<-|Hne].
      * rewrite E, lookup_insert_eq.
        destruct (list_to_map items !! key); reflexivity.
      * now rewrite lookup_insert_ne.
    + rewrite bool_decide_eq_false_2 by (intros [? ?]; congruence).
      cbn [json_setitem]. rewrite TimeFacts.bind_ok, IH. do 2 f_equal.
      rewrite <- insert_union_l. now rewrite insert_union_r.
Qed.

(** C7 (amended). [load_config] returns a configuration in which the keys
    missing from an existing JSON object are filled from the defaults, and
    the defaults themselves for a corrupt file; in both cases the file on
    disk is left as it was.  The file is written only when none exists. *)
Theorem load_config_fills_without_saving {World : Type} (s : @state World) :
  (forall m, config_json (files s) = Document (JDict m) ->
     load_config s = (Ok (JDict (m ∪ default_config)), s))
  /\ (config_json (files s) = Malformed ->
      fst (load_config s) = Ok (JDict default_config)
      /\ files (snd (load_config s)) = files s)
  /\ (config_json (files s) = Missing -> writable (files s) = true ->
      fst (load_config s) = Ok (JDict default_config)
      /\ config_json (files (snd (load_config s)))
         = Document (JDict default_config)).
Proof.
  destruct s as [w [cf wr] tr]. cbn [files config_json writable].
  unfold load_config, try_catch, mbind, M_bind, bind, lift.
  cbn beta iota. cbn [files config_json writable].
  split; [|split].
  - intros m ->.
    change default_config with (list_to_map default_items : gmap _ _).
    now rewrite fill_defaults_dict.
  - intros ->. split; reflexivity.
  - intros -> ->. split; reflexivity.
Qed.

Lemma load_config_fills_without_saving_witness :
  load_config (disk_with (Document (JDict {[ lit "min_score" := VInt 60 ]})))
  = (Ok (JDict ({[ lit "min_score" := VInt 60 ]} ∪ default_config)),
     disk_with (Document (JDict {[ lit "min_score" := VInt 60 ]})))
  /\ files (snd (load_config (disk_with Malformed))) = files (disk_with Malformed)
  /\ config_json (files (snd (load_config (disk_with Missing))))
     = Document (JDict default_config).
Proof.
  split; [|split].
  - exact (proj1 (load_config_fills_without_saving
                    (disk_with (Document (JDict {[ lit "min_score" := VInt 60 ]}))))
             _ eq_refl).
  - exact (proj2 (proj1 (proj2 (load_config_fills_without_saving
                                  (disk_with Malformed))) eq_refl)).
  - exact (proj2 (proj2 (proj2 (load_config_fills_without_saving
                                  (disk_with Missing))) eq_refl eq_refl)).
Defined.

(** An existing file that lacks every key, and a corrupt file, are both left
    unrepaired on disk. *)
Lemma load_config_persists_counterexample :
  let incomplete := disk_with (Document (JDict ∅)) in
  let corrupt := disk_with Malformed in
  fst (load_config incomplete) = Ok (JDict default_config)
  /\ config_json (files (snd (load_config incomplete))) = Document (JDict ∅)
  /\ config_json (files (snd (load_config incomplete)))
     <> Document (JDict default_config)
  /\ fst (load_config corrupt) = Ok (JDict default_config)
  /\ config_json (files (snd (load_config corrupt))) = Malformed.
Proof.
  cbv zeta.
  assert (load_config (disk_with (Document (JDict ∅)))
          = (Ok (JDict default_config), disk_with (Document (JDict ∅)))) as E.
  { unfold load_config, try_catch, mbind, M_bind, bind, lift, disk_with.
    cbn beta iota. cbn [files config_json writable].
    change default_config with (list_to_map default_items : gmap _ _).
    rewrite fill_defaults_dict. now rewrite (left_id_L ∅ (∪)). }
  rewrite E. cbn [fst snd files config_json disk_with].
  split; [reflexivity|]. split; [reflexivity|].
  split; [|split; reflexivity].
  intros H.
  apply (f_equal (fun f => match f with
                           | Document (JDict m) => m !! lit "cookie"
                           | _ => None
                           end)) in H.
  vm_compute in H. discriminate.
Qed.

(** ** Claims on the assembled table *)

Module FrameFacts.

Lemma get_select_absent (c : pystr) (f : pystr -> pyval) (cols : list pystr) :
  ~ In c cols -> Dict.get c (List.map (fun c' => (c', f c')) cols) = None.
Proof.
  induction cols as [|c' cols IH]; intros H; [reflexivity|].
  simpl in *. rewrite bool_decide_eq_false_2 by tauto. apply IH. tauto.
Qed.

Lemma get_select_present (c : pystr) (f : pystr -> pyval) (cols : list pystr) :
  In c cols -> Dict.get c (List.map (fun c' => (c', f c')) cols) = Some (f c).
Proof.
  induction cols as [|c' cols IH]; intros H; [contradiction|].
  simpl. destruct (decide (c' = c)) as [->|Hne].
  - now rewrite bool_decide_eq_true_2.
  - rewrite bool_decide_eq_false_2 by assumption. apply IH.
    destruct H; [contradiction | assumption].
Qed.

Lemma inb_In (c : pystr) (cs : list pystr) : DF.inb c cs = true <-> In c cs.
Proof.
  unfold DF.inb. rewrite existsb_exists. split.
  - intros [x [Hx E]]. apply bool_decide_eq_true in E. now subst.
  - intros H. exists c. split; [assumption|]. now apply bool_decide_eq_true.
Qed.

Lemma dropped_not_desired (c : pystr) :
  In c columns_to_drop -> ~ In c desired_columns.
Proof.
  intros H1 H2. vm_compute in H1, H2.
  repeat match goal with
         | H : _ \/ _ |- _ => destruct H
         | H : False |- _ => contradiction
         end; subst; discriminate.
Qed.

(** The labels kept by [clean_and_reorder_dataframe] are desired ones. *)
Lemma clean_columns_desired (df : DF.DataFrame) (c : pystr) :
  In c (DF.columns (clean_and_reorder_dataframe df)) -> In c desired_columns.
Proof.
  unfold clean_and_reorder_dataframe, DF.select. cbn [DF.columns].
  intros H. now apply filter_In in H.
Qed.

(** Every row of the cleaned frame holds exactly the cells of its labels. *)
Lemma clean_rows_shape (df : DF.DataFrame) (r : dict) :
  In r (DF.rows (clean_and_reorder_dataframe df)) ->
  exists f, r = List.map (fun c => (c, f c))
                  (DF.columns (clean_and_reorder_dataframe df)).
Proof.
  unfold clean_and_reorder_dataframe, DF.select at 1 2. cbn [DF.columns DF.rows].
  intros H. apply in_map_iff in H as [r0 [<- _]].
  now exists (fun c => DF.cell c r0).
Qed.

End FrameFacts.

(** C9. For every frame, hence for every batch it is built from, the output
    of [clean_and_reorder_dataframe] has none of the dropped columns
    ([user_id], [image_urls], [local_image_paths], [source]): the label is
    not a column and no row has a cell for it; sorting the cleaned frame
    does not bring one back. *)
Theorem dropped_columns_absent (df : DF.DataFrame) (c : pystr) :
  In c columns_to_drop ->
  ~ In c (DF.columns (clean_and_reorder_dataframe df))
  /\ (forall r, In r (DF.rows (clean_and_reorder_dataframe df)) ->
       Dict.get c r = None)
  /\ (forall sorter by_ ascending sorted,
        DF.sort_values sorter by_ ascending (clean_and_reorder_dataframe df)
        = Ok sorted ->
        ~ In c (DF.columns sorted)
        /\ forall r, In r (DF.rows sorted) -> Dict.get c r = None).
Proof.
  intros Hc.
  assert (~ In c (DF.columns (clean_and_reorder_dataframe df))) as Hcol.
  { intros H. apply FrameFacts.clean_columns_desired in H.
    now apply (FrameFacts.dropped_not_desired c). }
  assert (forall r, In r (DF.rows (clean_and_reorder_dataframe df)) ->
                    Dict.get c r = None) as Hrow.
  { intros r Hr. apply FrameFacts.clean_rows_shape in Hr as [f ->].
    now apply FrameFacts.get_select_absent. }
  generalize dependent (clean_and_reorder_dataframe df). intros out Hcol Hrow.
  split; [exact Hcol|]. split; [exact Hrow|].
  intros sorter by_ ascending sorted H. unfold DF.sort_values in H.
  destruct (DF.has_column by_ out); [|discriminate].
  destruct (DF.nargsort sorter ascending _) as [idx|]; [|discriminate].
  injection H as <-. split; [exact Hcol|].
  intros r Hr. cbn [DF.rows] in Hr.
  apply in_map_iff in Hr as [i [<- _]].
  destruct (nth_in_or_default i (DF.rows out) []) as [Hin|E].
  - now apply Hrow.
  - now rewrite E.
Qed.

Lemma dropped_columns_absent_witness :
  let df := DF.of_records (fun column => column)
              [[(lit "user_id", VStr (lit "u1")); (lit "weibo_id", VInt 7);
                (lit "source", VStr (lit "search")); (lit "content", VStr (lit "a  b "))]] in
  ~ In (lit "user_id") (DF.columns (clean_and_reorder_dataframe df))
  /\ DF.rows (clean_and_reorder_dataframe df)
     = [[(lit "weibo_id", VInt 7); (lit "content", VStr (lit "a b"));
         (lit "post_link", VStr (lit "https://weibo.com/detail/7"))]].
Proof.
  split; [|reflexivity].
  exact (proj1 (dropped_columns_absent _ (lit "user_id")
                  ltac:(left; reflexivity))).
Defined.

(** ** Running the drivers *)

Module RunFacts.
Section Run.
Context {World : Type}.
Implicit Types s : @state World.
Local Abbreviation M := (@M World).
Local Abbreviation adds := (@adds World _).

Lemma record_nil s : record s [] = s.
Proof. destruct s. unfold record. cbn. now rewrite app_nil_r. Qed.

Lemma record_record s evs evs' :
  record (record s evs) evs' = record s (evs ++ evs').
Proof. unfold record. cbn. now rewrite app_assoc. Qed.

Lemma run_bind {A B : Type} (m : M A) (k : A -> M B) s :
  (m ≫= k) s = match m s with
               | (Ok a, s') => k a s'
               | (Raise e, s') => (Raise e, s')
               end.
Proof. reflexivity. Qed.

Lemma bind_emit {B : Type} (e : event) (k : unit -> M B) s :
  (emit e ≫= k) s = k tt (record s [e]).
Proof. reflexivity. Qed.

Lemma bind_log {B : Type} (lv : level) (k : unit -> M B) s :
  (log lv ≫= k) s = k tt (record s [ELog lv]).
Proof. reflexivity. Qed.

Lemma bind_raise_M {A B : Type} (e : exn) (k : A -> M B) s :
  (raise e ≫= k) s = (Raise e, s).
Proof. reflexivity. Qed.

Lemma bind_ret_M {A B : Type} (a : A) (k : A -> M B) s :
  (ret a ≫= k) s = k a s.
Proof. reflexivity. Qed.

Lemma bind_getitem {B : Type} (key : pystr) (config : gmap (list Z) pyval)
    (k : pyval -> M B) s :
  (getitem key config ≫= k) s
  = match config !! key with
    | Some v => k v s
    | None => (Raise KeyError, s)
    end.
Proof. unfold getitem. rewrite run_bind. now destruct (config !! key). Qed.

(** *** Events added to the trace *)

Section Adds.
Context (P : event -> Prop).

Lemma adds_ret {A : Type} (a : A) : adds P (ret a : M A).
Proof. intros s r s' [= <- <-]. exists []. now rewrite app_nil_r. Qed.

Lemma adds_raise {A : Type} (e : exn) : adds P (raise e : M A).
Proof. intros s r s' [= <- <-]. exists []. now rewrite app_nil_r. Qed.

Lemma adds_lift {A : Type} (x : result A) : adds P (lift x : M A).
Proof. intros s r s' [= <- <-]. exists []. now rewrite app_nil_r. Qed.

Lemma adds_read {A : Type} (f : World -> A) : adds P (read f).
Proof. intros s r s' [= <- <-]. exists []. now rewrite app_nil_r. Qed.

Lemma adds_pure {A : Type} (f : @state World -> result A) :
  adds P (fun s => (f s, s)).
Proof. intros s r s' [= <- <-]. exists []. now rewrite app_nil_r. Qed.

Lemma adds_emit (e : event) : P e -> adds P (emit e).
Proof. intros He s r s' [= <- <-]. exists [e]. split; [reflexivity | now constructor]. Qed.

Lemma adds_log (lv : level) : P (ELog lv) -> adds P (log lv).
Proof. apply adds_emit. Qed.

Lemma adds_call {A : Type} (e : event) (f : World -> result A * World) :
  P e -> adds P (call e f).
Proof.
  intros He s r s'. unfold call. destruct (f (world s)) as [r0 w].
  intros [= <- <-]. exists [e]. split; [reflexivity | now constructor].
Qed.

Lemma adds_silent {A : Type} (f : World -> result A * World) :
  adds P (silent f).
Proof.
  intros s r s'. unfold silent. destruct (f (world s)) as [r0 w].
  intros [= <- <-]. exists []. cbn. now rewrite app_nil_r.
Qed.

Lemma adds_bind {A B : Type} (m : M A) (k : A -> M B) :
  adds P m -> (forall a, adds P (k a)) -> adds P (m ≫= k).
Proof.
  intros Hm Hk s r s'. rewrite run_bind.
  destruct (m s) as [[a|e] s1] eqn:E; intros H.
  - destruct (Hm _ _ _ E) as (evs1 & E1 & F1).
    destruct (Hk a _ _ _ H) as (evs2 & E2 & F2).
    exists (evs1 ++ evs2). split.
    + now rewrite E2, E1, app_assoc.
    + now apply Forall_app.
  - injection H as <- <-. exact (Hm _ _ _ E).
Qed.

Lemma adds_bind_getitem {B : Type} (key : pystr)
    (config : gmap (list Z) pyval)
    (k : pyval -> M B) :
  (forall v, config !! key = Some v -> adds P (k v)) ->
  adds P (getitem key config ≫= k).
Proof.
  intros Hk s r s'. rewrite bind_getitem.
  destruct (config !! key) as [v|].
  - now apply Hk.
  - apply (adds_raise KeyError).
Qed.

Lemma adds_try_catch {A : Type} (body : M A) (handler : exn -> M A) :
  adds P body -> (forall e, adds P (handler e)) ->
  adds P (try_catch body handler).
Proof.
  intros Hb Hh s r s'. unfold try_catch.
  destruct (body s) as [[a|e] s1] eqn:E; intros H.
  - injection H as <- <-. exact (Hb _ _ _ E).
  - destruct (Hb _ _ _ E) as (evs1 & E1 & F1).
    destruct (Hh e _ _ _ H) as (evs2 & E2 & F2).
    exists (evs1 ++ evs2). split.
    + now rewrite E2, E1, app_assoc.
    + now apply Forall_app.
Qed.

Lemma adds_for_each {A S : Type} (xs : list A) (body : A -> S -> M S) acc :
  (forall x a, adds P (body x a)) -> adds P (for_each xs body acc).
Proof.
  intros Hb. revert acc. induction xs as [|x xs IH]; intros acc.
  - apply adds_ret.
  - cbn [for_each]. apply adds_bind; [apply Hb | exact IH].
Qed.

End Adds.
End Run.
End RunFacts.

(** ** Claims on [process_keyword] and on the loops of [main] *)

(** C10. ["start_page"] is not among the defaults, so filling a
    configuration that lacks it from the defaults still lacks it; and for
    every configuration lacking it, [process_keyword] raises [KeyError]
    before the fetcher is called: the unit logs the error and returns
    [None], having called no collaborator. *)
Theorem start_page_missing {World : Type} (ext : Externals World)
    (keyword now : pystr) (config : gmap (list Z) pyval)
    (keyword_to_type : gmap (list Z) (list Z)) (s : @state World) :
  default_config !! lit "start_page" = None
  /\ (config !! lit "start_page" = None ->
      (config ∪ default_config) !! lit "start_page" = None
      /\ process_keyword ext keyword config now keyword_to_type s
         = (Ok None, record s [ELog INFO; ELog INFO; ELog ERROR])).
Proof.
  assert (default_config !! lit "start_page" = None) as Hd
    by (vm_compute; reflexivity).
  split; [exact Hd|]. intros Hc. split.
  - rewrite lookup_union, Hc, Hd. reflexivity.
  - unfold process_keyword, try_catch, process_keyword_try.
    rewrite !RunFacts.bind_log, RunFacts.bind_getitem.
    destruct (config !! lit "default_pages").
    + rewrite RunFacts.bind_getitem, Hc.
      rewrite RunFacts.bind_log. unfold ret.
      now rewrite !RunFacts.record_record.
    + rewrite RunFacts.bind_log. unfold ret.
      now rewrite !RunFacts.record_record.
Qed.

Module LoopFacts.
Section Loop.
Context {World : Type} (ext : Externals World).
Implicit Types s : @state World.

Lemma searches_app evs evs' : searches (evs ++ evs') = searches evs ++ searches evs'.
Proof. apply List.filter_app. Qed.

(** One unit: whatever the fetcher does, the unit returns, having made one
    search; a failure leaves the collection as it was. *)
Lemma collect_unit_run config dm user_url user_id keyword acc s :
  json_getitem (lit "download_media") config = Ok dm ->
  exists lv w,
    collect_unit ext config user_url user_id keyword acc s
    = (Ok (match fst (search_user ext user_url keyword 1 dm (world s)) with
           | Ok results => acc ++ tagged user_id keyword results
           | Raise _ => acc
           end),
       {| world := w; files := files s;
          trace := trace s ++ [ELog INFO; ESearchUser user_url keyword 1 dm;
                               ELog lv] |})
    /\ (lv = ERROR <->
        exists e, fst (search_user ext user_url keyword 1 dm (world s)) = Raise e).
Proof.
  intros Hdm. unfold collect_unit.
  rewrite RunFacts.bind_log. unfold try_catch.
  rewrite RunFacts.run_bind. unfold lift at 1. rewrite Hdm.
  rewrite RunFacts.run_bind. unfold call. cbn [world record].
  destruct (search_user ext user_url keyword 1 dm (world s)) as [[rs|e] w].
  - exists INFO, w. cbn [fst]. destruct rs as [|r rs].
    + rewrite RunFacts.bind_log. unfold ret, record. cbn.
      rewrite app_nil_r, <- !app_assoc. split; [reflexivity|].
      split; [discriminate | intros [? ?]; discriminate].
    + rewrite RunFacts.bind_log. unfold ret, record. cbn.
      rewrite <- !app_assoc. split; [reflexivity|].
      split; [discriminate | intros [? ?]; discriminate].
  - exists ERROR, w. cbn [fst]. rewrite RunFacts.bind_log.
    unfold ret, record. cbn. rewrite <- !app_assoc.
    split; [reflexivity|]. split; eauto.
Qed.



Lemma inner_loop_run config dm user_url user_id keywords acc s :
  json_getitem (lit "download_media") config = Ok dm ->
  exists all s' evs,
    for_each keywords (collect_unit ext config user_url user_id) acc s
    = (Ok all, s')
    /\ trace s' = trace s ++ evs
    /\ searches evs
       = List.map (fun k => ESearchUser user_url k 1 dm) keywords.
Proof.
  intros Hdm. revert acc s.
  induction keywords as [|k keywords IH]; intros acc s.
  - exists acc, s, []. cbn. now rewrite app_nil_r.
  - cbn [for_each]. rewrite RunFacts.run_bind.
    destruct (collect_unit_run config dm user_url user_id k acc s Hdm)
      as (lv & w & -> & _).
    match goal with
    | |- context [for_each keywords _ ?a ?s1] =>
        destruct (IH a s1) as (all & s' & evs & E & Et & Es)
    end.
    exists all, s', ([ELog INFO; ESearchUser user_url k 1 dm; ELog lv] ++ evs).
    split; [exact E|]. split.
    + rewrite Et. cbn [trace]. now rewrite <- app_assoc.
    + rewrite searches_app, Es. reflexivity.
Qed.

(** The user loop, when the extraction of user ids returns. *)
Lemma outer_loop_run config dm (ius : list (nat * list Z)) keywords acc s :
  (forall u w, exists o w', extract_user_id ext u w = (Ok o, w')) ->
  json_getitem (lit "download_media") config = Ok dm ->
  exists all s' evs,
    for_each ius
      (fun '(i, user_url) all_results =>
         _ ← log INFO;
         extracted ← silent (extract_user_id ext user_url);
         let user_id :=
           match extracted with
           | Some ((_ :: _) as uid) => uid
           | _ => lit "user_" ++ str_of_int (Z.of_nat i)
           end in
         for_each keywords (collect_unit ext config user_url user_id) all_results)
      acc s
    = (Ok all, s')
    /\ trace s' = trace s ++ evs
    /\ searches evs
       = flat_map (fun iu => List.map (fun k => ESearchUser (snd iu) k 1 dm) keywords)
           ius.
Proof.
  intros Hext Hdm. revert acc s.
  induction ius as [|[i u] ius IH]; intros acc s.
  - exists acc, s, []. cbn. now rewrite app_nil_r.
  - cbn [for_each]. rewrite RunFacts.run_bind, RunFacts.bind_log.
    rewrite RunFacts.run_bind. unfold silent at 1. cbn [record world files trace].
    destruct (Hext u (world s)) as (o & w1 & ->).
    match goal with
    | |- context [for_each keywords (collect_unit ext config u ?uid) acc ?s1] =>
        destruct (inner_loop_run config dm u uid keywords acc s1 Hdm)
          as (all1 & s1' & evs1 & -> & Et1 & Es1)
    end.
    destruct (IH all1 s1') as (all & s' & evs & E & Et & Es).
    exists all, s', (ELog INFO :: evs1 ++ evs).
    split; [exact E|]. split.
    + rewrite Et, Et1. cbn [trace record]. now rewrite <- !app_assoc.
    + change (ELog INFO :: evs1 ++ evs) with ([ELog INFO] ++ evs1 ++ evs).
      rewrite !searches_app, Es1, Es. reflexivity.
Qed.







Lemma flat_map_combine_seq {B : Type} (f : list Z -> list B) (us : list (list Z)) n :
  flat_map (fun iu : nat * list Z => f (snd iu)) (combine (seq n (length us)) us)
  = flat_map f us.
Proof.
  revert n. induction us as [|u us IH]; intros n; [reflexivity|].
  cbn. now rewrite IH.
Qed.

End Loop.
End LoopFacts.


Lemma start_page_missing_witness :
  process_keyword (sample_ext [] None) (lit "k") default_config (lit "t") ∅ fresh_state
  = (Ok None, record fresh_state [ELog INFO; ELog INFO; ELog ERROR]).
Proof.
  exact (proj2 (proj2 (start_page_missing (sample_ext [] None) (lit "k") (lit "t")
                         default_config ∅ fresh_state) eq_refl)).
Defined.



Example collect_all_sample :
  fst (collect_all (sample_ext [sample_post 1 2] None) (JDict sample_config)
         [lit "u1"] [lit "bad"; lit "good"] fresh_state)
  = Ok [sample_post 1 2 ++ [(lit "user_id", VStr (lit "user_1"));
                            (lit "keyword", VStr (lit "good"))]].
Proof. vm_compute. reflexivity. Qed.

Ltac adds_step :=
  lazymatch goal with
  | |- adds _ (mbind _ (getitem _ _)) =>
      apply RunFacts.adds_bind_getitem; intros ? ?
  | |- adds _ (mbind _ _) => apply RunFacts.adds_bind; [| intros ?]
  | |- adds _ (try_catch _ _) => apply RunFacts.adds_try_catch; [| intros ?]
  | |- adds _ (for_each _ _ _) => apply RunFacts.adds_for_each; intros ? ?
  | |- adds _ (ret _) => apply RunFacts.adds_ret
  | |- adds _ (raise _) => apply RunFacts.adds_raise
  | |- adds _ (lift _) => apply RunFacts.adds_lift
  | |- adds _ (read _) => apply RunFacts.adds_read
  | |- adds _ (silent _) => apply RunFacts.adds_silent
  | |- adds _ (log _) => apply RunFacts.adds_log; exact I
  | |- adds _ (emit _) => apply RunFacts.adds_emit; exact I
  | |- adds _ (call _ _) => apply RunFacts.adds_call; exact I
  | |- adds _ (match ?x with _ => _ end) => destruct x
  end.

Module ScorerFacts.
Section Scorer.
Context {World : Type} (ext : Externals World).

Lemma image_to_base64_adds P path :
  P (ELog WARNING) -> adds P (image_to_base64 ext path).
Proof.
  intros HP. unfold image_to_base64.
  apply RunFacts.adds_try_catch.
  - apply RunFacts.adds_bind; [apply RunFacts.adds_read|]. intros [|].
    + apply RunFacts.adds_bind; [apply RunFacts.adds_pure|].
      intros b. apply RunFacts.adds_ret.
    + apply RunFacts.adds_ret.
  - intros e. apply RunFacts.adds_bind; [now apply RunFacts.adds_log|].
    intros _. apply RunFacts.adds_ret.
Qed.

Lemma record_getitem_adds P key (d : dict) :
  adds P (record_getitem (World:=World) key d).
Proof.
  unfold record_getitem. destruct (Dict.get key d);
    [apply RunFacts.adds_ret | apply RunFacts.adds_raise].
Qed.

Lemma process_keyword_adds keyword config now keyword_to_type :
  adds (scorer_call_ok config)
    (process_keyword ext keyword config now keyword_to_type).
Proof.
  unfold process_keyword.
  apply RunFacts.adds_try_catch; [|intros e; repeat adds_step].
  unfold process_keyword_try, add_image_data_to_weibos, download_filtered_media.
  repeat first [ apply image_to_base64_adds; exact I
               | apply record_getitem_adds
               | adds_step ].
  apply RunFacts.adds_call. cbn. auto.
Qed.

Lemma call_bind_trace {A B : Type} (e : event)
    (f : World -> result A * World) (k : A -> @M World B) s :
  (forall a, adds (fun _ => True) (k a)) ->
  exists evs, trace (snd ((call e f ≫= k) s)) = trace s ++ e :: evs.
Proof.
  intros Hk. rewrite RunFacts.run_bind. unfold call.
  destruct (f (world s)) as [[a|x] w].
  - match goal with
    | |- context [k a ?s1] =>
        destruct (Hk a s1 _ _ (surjective_pairing _)) as (evs & Et & _)
    end.
    exists evs. rewrite Et. cbn [trace]. now rewrite <- app_assoc.
  - exists []. reflexivity.
Qed.

(** When the fetch returns posts of which some pass the filter, and the
    configuration has the two thresholds that are indexed, the body calls
    the scorer, with the thresholds of the configuration and zero for an
    absent one. *)
Lemma scorer_reached keyword config now keyword_to_type s
    pages start_page results w posts min_score min_likes :
  config !! lit "default_pages" = Some pages ->
  config !! lit "start_page" = Some start_page ->
  search_keyword ext keyword pages start_page (world s) = (Ok results, w) ->
  filter_by_time_and_media results (clock ext w) = Ok posts ->
  posts <> [] ->
  config !! lit "min_score" = Some min_score ->
  config !! lit "min_likes" = Some min_likes ->
  exists evs,
    trace (snd (process_keyword_try ext keyword config now keyword_to_type s))
    = trace s
      ++ [ ELog INFO; ELog INFO; ESearchKeyword keyword pages start_page;
           ELog INFO; ELog INFO; ELog INFO ]
      ++ EAnalyze posts min_score min_likes
           (default (VInt 0) (config !! lit "min_comments"))
           (default (VInt 0) (config !! lit "min_forwards")) :: evs.
Proof.
  intros Hp Hsp Hsearch Hfilter Hposts Hms Hml.
  unfold process_keyword_try.
  rewrite !RunFacts.bind_log, RunFacts.bind_getitem, Hp.
  rewrite RunFacts.bind_getitem, Hsp.
  rewrite RunFacts.run_bind. unfold call at 1. cbn [record world files trace].
  rewrite Hsearch.
  destruct results as [|r0 rs].
  { unfold filter_by_time_and_media in Hfilter.
    destruct (DT.sub _ _); cbn in Hfilter; [|discriminate].
    injection Hfilter as <-. contradiction. }
  rewrite RunFacts.bind_log, RunFacts.run_bind. unfold read at 1.
  cbn [record world files trace].
  rewrite RunFacts.run_bind. unfold lift at 1. rewrite Hfilter.
  rewrite RunFacts.bind_log.
  destruct posts as [|p0 ps]; [contradiction|].
  rewrite RunFacts.bind_log, RunFacts.bind_getitem, Hms.
  rewrite RunFacts.bind_getitem, Hml.
  match goal with
  | |- context [mbind ?k (call ?e ?f) ?s1] =>
      destruct (call_bind_trace e f k s1) as (evs & Et)
  end.
  { intros a. unfold add_image_data_to_weibos, download_filtered_media.
    repeat first [ apply image_to_base64_adds; exact I
                 | apply record_getitem_adds
                 | adds_step ]. }
  exists evs. rewrite Et. cbn [record trace].
  rewrite <- !app_assoc. cbn [app].
  now destruct (config !! lit "min_comments"), (config !! lit "min_forwards").
Qed.

(** A configuration without one of the two indexed thresholds never gets
    as far as the scorer. *)
Lemma scorer_not_reached keyword config now keyword_to_type :
  config !! lit "min_score" = None \/ config !! lit "min_likes" = None ->
  adds not_scorer_call (process_keyword ext keyword config now keyword_to_type).
Proof.
  intros H. unfold process_keyword.
  apply RunFacts.adds_try_catch; [|intros e; repeat adds_step].
  unfold process_keyword_try, add_image_data_to_weibos, download_filtered_media.
  destruct H as [H|H];
    repeat first
      [ lazymatch goal with
        | |- adds _ (mbind _ (getitem _ _)) =>
            apply RunFacts.adds_bind_getitem; intros ? ?; try congruence
        end
      | apply image_to_base64_adds; exact I
      | apply record_getitem_adds
      | adds_step ].
Qed.

End Scorer.
End ScorerFacts.

(** C6 (amended). When the fetch returns posts of which some pass the
    filter, and the configuration has ["min_score"] and ["min_likes"],
    [process_keyword] calls the scorer on the retained posts with these
    two thresholds and with zero for an absent ["min_comments"] or
    ["min_forwards"].  Whenever it calls the scorer, the thresholds are
    passed in that way.  A configuration without ["min_score"] or
    ["min_likes"] never gets the scorer called, with zero or otherwise:
    [load_config] fills them with 80 and 500, and leaves
    ["min_comments"] and ["min_forwards"] absent. *)
Theorem scorer_thresholds {World : Type} (ext : Externals World)
    (keyword now : pystr) (config : gmap (list Z) pyval)
    (keyword_to_type : gmap (list Z) (list Z)) (s : @state World) :
  (exists evs,
     trace (snd (process_keyword ext keyword config now keyword_to_type s))
     = trace s ++ evs
     /\ Forall (scorer_call_ok config) evs)
  /\ (forall pages start_page results w posts min_score min_likes,
        config !! lit "default_pages" = Some pages ->
        config !! lit "start_page" = Some start_page ->
        search_keyword ext keyword pages start_page (world s) = (Ok results, w) ->
        filter_by_time_and_media results (clock ext w) = Ok posts ->
        posts <> [] ->
        config !! lit "min_score" = Some min_score ->
        config !! lit "min_likes" = Some min_likes ->
        exists evs,
          trace (snd (process_keyword ext keyword config now keyword_to_type s))
          = trace s
            ++ [ ELog INFO; ELog INFO; ESearchKeyword keyword pages start_page;
                 ELog INFO; ELog INFO; ELog INFO ]
            ++ EAnalyze posts min_score min_likes
                 (default (VInt 0) (config !! lit "min_comments"))
                 (default (VInt 0) (config !! lit "min_forwards")) :: evs)
  /\ (config !! lit "min_score" = None \/ config !! lit "min_likes" = None ->
      exists evs,
        trace (snd (process_keyword ext keyword config now keyword_to_type s))
        = trace s ++ evs
        /\ Forall not_scorer_call evs)
  /\ (config ∪ default_config) !! lit "min_score"
     = Some (default (VInt 80) (config !! lit "min_score"))
  /\ (config ∪ default_config) !! lit "min_likes"
     = Some (default (VInt 500) (config !! lit "min_likes"))
  /\ (config ∪ default_config) !! lit "min_comments"
     = config !! lit "min_comments"
  /\ (config ∪ default_config) !! lit "min_forwards"
     = config !! lit "min_forwards".
Proof.
  split; [|split; [|split]].
  - apply (ScorerFacts.process_keyword_adds ext keyword config now
             keyword_to_type s
             (fst (process_keyword ext keyword config now keyword_to_type s))).
    apply surjective_pairing.
  - intros pages start_page results w posts min_score min_likes
      Hp Hsp Hsearch Hfilter Hposts Hms Hml.
    destruct (ScorerFacts.scorer_reached ext keyword config now keyword_to_type s
                pages start_page results w posts min_score min_likes
                Hp Hsp Hsearch Hfilter Hposts Hms Hml) as (evs & Et).
    unfold process_keyword, try_catch.
    destruct (process_keyword_try ext keyword config now keyword_to_type s)
      as [[r|e] s1]; cbn [snd] in *.
    + now exists evs.
    + rewrite RunFacts.bind_log. unfold ret. cbn [snd record trace].
      exists (evs ++ [ELog ERROR]). rewrite Et.
      rewrite <- !app_assoc. reflexivity.
  - intros H.
    apply (ScorerFacts.scorer_not_reached ext keyword config now
             keyword_to_type H s
             (fst (process_keyword ext keyword config now keyword_to_type s))).
    apply surjective_pairing.
  - rewrite !lookup_union.
    assert (default_config !! lit "min_score" = Some (VInt 80)) as ->
      by (vm_compute; reflexivity).
    assert (default_config !! lit "min_likes" = Some (VInt 500)) as ->
      by (vm_compute; reflexivity).
    assert (default_config !! lit "min_comments" = None) as ->
      by (vm_compute; reflexivity).
    assert (default_config !! lit "min_forwards" = None) as ->
      by (vm_compute; reflexivity).
    repeat split.
    + now destruct (config !! lit "min_score").
    + now destruct (config !! lit "min_likes").
    + now destruct (config !! lit "min_comments").
    + now destruct (config !! lit "min_forwards").
Qed.

(** With ["min_comments"] and ["min_forwards"] absent the scorer is called
    with zero for both, and with the configured score and likes. *)
Example scorer_call_sample :
  trace (snd (process_keyword (sample_ext [sample_post 1 2] None) (lit "k")
                sample_config (lit "t") ∅ fresh_state))
  = [ ELog INFO; ELog INFO; ESearchKeyword (lit "k") (VInt 5) (VInt 1);
      ELog INFO; ELog INFO; ELog INFO;
      EAnalyze [sample_post 1 2] (VInt 80) (VInt 500) (VInt 0) (VInt 0);
      ELog WARNING ].
Proof. vm_compute. reflexivity. Qed.

(** With ["min_score"] absent the scorer is not called with zero: it is not
    called at all, the unit ends in the handler. *)
Lemma scorer_thresholds_counterexample :
  let config := delete (lit "min_score") sample_config in
  config !! lit "min_score" = None
  /\ process_keyword (sample_ext [sample_post 1 2] None) (lit "k")
       config (lit "t") ∅ fresh_state
     = (Ok None,
        record fresh_state
          [ ELog INFO; ELog INFO; ESearchKeyword (lit "k") (VInt 5) (VInt 1);
            ELog INFO; ELog INFO; ELog INFO; ELog ERROR ]).
Proof. split; vm_compute; reflexivity. Qed.

(** *** Cells that survive the cleaning, and the sorter *)

Module SortFacts.

Lemma get_set_ne k c v (r : dict) :
  k <> c -> Dict.get c (Dict.set k v r) = Dict.get c r.
Proof.
  intros Hne. induction r as [|[k' v'] r IH]; simpl.
  - now rewrite bool_decide_eq_false_2.
  - destruct (decide (k' = k)) as [->|Hk].
    + rewrite bool_decide_eq_true_2 by reflexivity. simpl.
      now rewrite !bool_decide_eq_false_2.
    + rewrite (bool_decide_eq_false_2 (k' = k)) by assumption. simpl.
      now rewrite IH.
Qed.

Lemma cell_set_ne k c v (r : dict) :
  k <> c -> DF.cell c (Dict.set k v r) = DF.cell c r.
Proof. intros H. unfold DF.cell, Dict.get_default. now rewrite get_set_ne. Qed.

Lemma cell_select c (f : pystr -> pyval) (cols : list pystr) :
  In c cols -> DF.cell c (List.map (fun c' => (c', f c')) cols) = f c.
Proof.
  intros H. unfold DF.cell, Dict.get_default.
  now rewrite FrameFacts.get_select_present.
Qed.

Lemma select_keeps cols df c :
  In c cols ->
  List.map (DF.cell c) (DF.rows (DF.select cols df))
  = List.map (DF.cell c) (DF.rows df).
Proof.
  intros H. unfold DF.select. cbn [DF.rows]. rewrite List.map_map.
  apply List.map_ext. intros r. now apply cell_select.
Qed.

Lemma set_column_keeps k f df c :
  k <> c -> In c (DF.columns df) ->
  In c (DF.columns (DF.set_column k f df))
  /\ List.map (DF.cell c) (DF.rows (DF.set_column k f df))
     = List.map (DF.cell c) (DF.rows df).
Proof.
  intros Hne Hc. unfold DF.set_column. cbn [DF.columns DF.rows]. split.
  - destruct (DF.has_column k df); [assumption|]. apply in_or_app. now left.
  - rewrite List.map_map. apply List.map_ext. intros r. now apply cell_set_ne.
Qed.

Lemma get_some_key c (r : dict) v : Dict.get c r = Some v -> In c (Dict.keys r).
Proof.
  induction r as [|[k' v'] r IH]; [discriminate|]. simpl.
  destruct (decide (k' = c)) as [->|Hne].
  - now left.
  - rewrite bool_decide_eq_false_2 by assumption. intros H. right. now apply IH.
Qed.

Lemma add_keys_in c (ks acc : list pystr) :
  In c acc \/ In c ks ->
  In c (fold_left (fun acc k => if DF.inb k acc then acc else acc ++ [k]) ks acc).
Proof.
  revert acc. induction ks as [|k ks IH]; intros acc H; simpl.
  - destruct H; [assumption | contradiction].
  - apply IH. destruct H as [H|[->|H]].
    + left. destruct (DF.inb k acc); [assumption | apply in_or_app; now left].
    + left. destruct (DF.inb c acc) eqn:E.
      * now apply FrameFacts.inb_In.
      * apply in_or_app. right. now left.
    + now right.
Qed.

Lemma union_keys_in c (recs : list dict) seen :
  In c seen \/ (exists r, In r recs /\ In c (Dict.keys r)) ->
  In c (DF.union_keys seen recs).
Proof.
  revert seen. induction recs as [|r recs IH]; intros seen H; simpl.
  - destruct H as [H|[r [[] _]]]. assumption.
  - apply IH. destruct H as [H|[r' [[<-|Hr] Hk]]].
    + left. apply add_keys_in. now left.
    + left. apply add_keys_in. now right.
    + right. eauto.
Qed.

(** A desired column other than the two rewritten ones goes through
    [clean_and_reorder_dataframe] unchanged. *)
Lemma clean_keeps df c :
  In c desired_columns -> ~ In c columns_to_drop ->
  lit "post_link" <> c -> lit "content" <> c ->
  In c (DF.columns df) ->
  DF.has_column c (clean_and_reorder_dataframe df) = true
  /\ List.map (DF.cell c) (DF.rows (clean_and_reorder_dataframe df))
     = List.map (DF.cell c) (DF.rows df).
Proof.
  intros Hdes Hdrop Hpl Hct Hc. unfold clean_and_reorder_dataframe.
  set (df1 := DF.drop columns_to_drop df).
  assert (In c (DF.columns df1)
          /\ List.map (DF.cell c) (DF.rows df1) = List.map (DF.cell c) (DF.rows df))
    as [Hc1 Hr1].
  { assert (In c (List.filter (fun c0 => negb (DF.inb c0 columns_to_drop))
                    (DF.columns df))) as Hin.
    { apply filter_In. split; [assumption|].
      destruct (DF.inb c columns_to_drop) eqn:E; [|reflexivity].
      apply FrameFacts.inb_In in E. contradiction. }
    split; [exact Hin|]. unfold df1, DF.drop. now apply select_keeps. }
  match goal with
  | |- context [DF.select _ (if ?b3 then DF.set_column ?k3 ?f3 ?d2 else ?d2)] =>
      set (df2 := d2);
      assert (In c (DF.columns df2)
              /\ List.map (DF.cell c) (DF.rows df2)
                 = List.map (DF.cell c) (DF.rows df1)) as [Hc2 Hr2];
      [ subst df2; destruct (_ && _);
        [ destruct (set_column_keeps (lit "post_link")
                      (fun r => VStr (lit "https://weibo.com/detail/"
                                  ++ py_str (DF.cell (lit "weibo_id") r)))
                      df1 c Hpl Hc1) as [? ->]; now split
        | now split ]
      | set (df3 := if b3 then DF.set_column k3 f3 df2 else df2);
        assert (In c (DF.columns df3)
                /\ List.map (DF.cell c) (DF.rows df3)
                   = List.map (DF.cell c) (DF.rows df2)) as [Hc3 Hr3];
        [ subst df3; destruct b3;
          [ destruct (set_column_keeps k3 f3 df2 c Hct Hc2) as [? ->]; now split
          | now split ]
        | ] ]
  end.
  assert (In c (List.filter (fun c0 => DF.has_column c0 df3) desired_columns))
    as Hex.
  { apply filter_In. split; [assumption|]. now apply FrameFacts.inb_In. }
  split.
  - unfold DF.has_column, DF.select. cbn [DF.columns].
    now apply FrameFacts.inb_In.
  - rewrite select_keeps by assumption.
    exact (eq_trans Hr3 (eq_trans Hr2 Hr1)).
Qed.

Lemma map_nth_seq {A : Type} (l : list A) d :
  List.map (fun i => nth i l d) (seq 0 (length l)) = l.
Proof.
  induction l as [|x l IH]; [reflexivity|].
  cbn [length seq List.map nth]. f_equal.
  rewrite <- seq_shift, List.map_map. exact IH.
Qed.

Lemma reindex_permutation {A : Type} (l : list A) d (indexer : list nat) :
  Permutation indexer (seq 0 (length l)) ->
  Permutation (List.map (fun i => nth i l d) indexer) l.
Proof.
  intros H.
  apply (Permutation_map (fun i => nth i l d)) in H.
  now rewrite map_nth_seq in H.
Qed.

Lemma sorted_map_inv {A : Type} (f : A -> Z) (l : list A) :
  StronglySorted Z.ge (List.map f l) ->
  StronglySorted (fun a b => f a >= f b) l.
Proof.
  induction l as [|x l IH]; intros H; [constructor|].
  cbn in H. apply StronglySorted_inv in H as [Hs Hf].
  constructor; [now apply IH|].
  rewrite List.Forall_map in Hf. exact Hf.
Qed.

(** The cells of a column that the dtype inference leaves as it is. *)
Lemma of_records_keeps convert (recs : list dict) c :
  (exists r, In r recs /\ In c (Dict.keys r)) ->
  convert (List.map (DF.cell c) recs) = List.map (DF.cell c) recs ->
  In c (DF.columns (DF.of_records convert recs))
  /\ List.map (DF.cell c) (DF.rows (DF.of_records convert recs))
     = List.map (DF.cell c) recs.
Proof.
  intros H Hconv. unfold DF.of_records. cbn [DF.columns DF.rows].
  assert (In c (DF.union_keys [] recs)) as Hc by (apply union_keys_in; now right).
  split; [exact Hc|]. rewrite List.map_map.
  erewrite List.map_ext.
  2:{ intros i.
      apply (cell_select c
               (fun c' => nth i (convert (List.map (DF.cell c') recs)) NaN)).
      exact Hc. }
  cbn beta. rewrite Hconv.
  rewrite <- (List.length_map (DF.cell c) recs). apply map_nth_seq.
Qed.

(** *** From numpy's ascending [argsort] to the descending indexer *)

Lemma filter_all {A : Type} (f : A -> bool) (l : list A) :
  Forall (fun x => f x = true) l -> List.filter f l = l.
Proof.
  induction 1 as [|x l Hx _ IH]; [reflexivity|]. simpl. now rewrite Hx, IH.
Qed.

Lemma filter_none {A : Type} (f : A -> bool) (l : list A) :
  Forall (fun x => f x = false) l -> List.filter f l = [].
Proof.
  induction 1 as [|x l Hx _ IH]; [reflexivity|]. simpl. now rewrite Hx, IH.
Qed.

Lemma map_fst_combine_seq (vs : list pyval) a :
  List.map fst (combine (seq a (length vs)) vs) = seq a (length vs).
Proof.
  revert a. induction vs as [|v vs IH]; intros a; [reflexivity|].
  cbn. now rewrite IH.
Qed.

Lemma map_snd_combine_idx (vs : list pyval) a :
  List.map snd (combine (seq a (length vs)) vs) = vs.
Proof.
  revert a. induction vs as [|v vs IH]; intros a; [reflexivity|].
  cbn. now rewrite IH.
Qed.

Lemma sorted_snoc (l : list Z) x :
  StronglySorted Z.ge l -> Forall (fun y => y >= x) l ->
  StronglySorted Z.ge (l ++ [x]).
Proof.
  induction 1 as [|y l Hs IH Hf]; intros Hx; cbn.
  - repeat constructor.
  - apply List.Forall_cons_iff in Hx as [Hy Hx].
    constructor; [now apply IH|].
    apply List.Forall_app. split; [exact Hf | now constructor].
Qed.

Lemma sorted_rev (l : list Z) :
  StronglySorted Z.le l -> StronglySorted Z.ge (rev l).
Proof.
  induction 1 as [|x l Hs IH Hf]; [constructor|]. cbn.
  apply sorted_snoc; [exact IH|].
  apply List.Forall_rev. eapply List.Forall_impl; [|exact Hf].
  cbn. intros; lia.
Qed.

(** With [ascending=False], [nargsort] turns an ascending [argsort] into
    an indexer along which integer keys do not increase. *)
Lemma nargsort_descending argsort (ns : list Z) :
  argsort_contract argsort ->
  exists indexer,
    DF.nargsort argsort false (List.map VInt ns) = Ok indexer
    /\ Permutation indexer (seq 0 (length ns))
    /\ StronglySorted Z.ge (List.map (fun i => nth i ns 0) indexer).
Proof.
  intros Hsort. unfold DF.nargsort.
  set (idx := combine (seq 0 (length (List.map VInt ns))) (List.map VInt ns)).
  assert (Forall (fun p : nat * pyval => DF.isna (snd p) = false) idx) as Hna.
  { apply List.Forall_forall. intros [i v] Hin.
    apply in_combine_r, in_map_iff in Hin as (n & <- & _). reflexivity. }
  rewrite (filter_all (fun p => negb (DF.isna (snd p))) idx)
    by (eapply List.Forall_impl; [|exact Hna]; cbn; now intros p ->).
  rewrite (filter_none (fun p => DF.isna (snd p)) idx) by exact Hna.
  cbn [List.map]. rewrite !List.map_rev.
  unfold idx. rewrite map_snd_combine_idx, map_fst_combine_seq.
  rewrite <- List.map_rev, List.length_map.
  destruct (Hsort (rev ns)) as (order & -> & Hperm & Hs).
  rewrite TimeFacts.bind_ok, app_nil_r, List.length_rev in *.
  set (n := length ns) in *.
  assert (forall j, In j order -> (j < n)%nat) as Hlt.
  { intros j Hj. apply (Permutation_in _ Hperm), in_seq in Hj. lia. }
  assert (forall j, (j < n)%nat ->
                    nth j (rev (seq 0 n)) 0%nat = (n - S j)%nat) as Hg.
  { intros j Hj. rewrite rev_nth, List.length_seq by (now rewrite List.length_seq).
    rewrite seq_nth by lia. lia. }
  eexists. split; [reflexivity|]. split.
  - etransitivity; [apply Permutation_sym, Permutation_rev|].
    etransitivity; [apply Permutation_map, Hperm|].
    pose proof (map_nth_seq (rev (seq 0 n)) 0%nat) as E.
    rewrite List.length_rev, List.length_seq in E. rewrite E.
    apply Permutation_sym, Permutation_rev.
  - rewrite List.map_rev. apply sorted_rev.
    rewrite List.map_map.
    erewrite List.map_ext_in; [exact Hs|].
    intros j Hj. cbn beta. rewrite (Hg j (Hlt j Hj)).
    rewrite rev_nth by (now apply Hlt). reflexivity.
Qed.

(** *** The reference sorter meets the contract *)

Lemma int_keys_ints ns : int_keys (List.map VInt ns) = Some ns.
Proof. induction ns as [|n ns IH]; [reflexivity|]. simpl. now rewrite IH. Qed.

Lemma insert_asc_perm p l : Permutation (insert_asc p l) (p :: l).
Proof.
  induction l as [|q l IH]; [reflexivity|]. simpl.
  destruct (fst q <? fst p); [|reflexivity].
  rewrite IH. apply perm_swap.
Qed.

Lemma isort_perm l : Permutation (fold_right insert_asc [] l) l.
Proof.
  induction l as [|p l IH]; [reflexivity|]. simpl.
  rewrite insert_asc_perm. now constructor.
Qed.

Lemma insert_asc_sorted p l :
  StronglySorted (fun a b => fst a <= fst b) l ->
  StronglySorted (fun a b => fst a <= fst b) (insert_asc p l).
Proof.
  induction l as [|q l IH]; intros H; simpl.
  - repeat constructor.
  - apply StronglySorted_inv in H as [Hs Hf].
    destruct (Z.ltb_spec (fst q) (fst p)) as [Hlt|Hge].
    + constructor; [now apply IH|].
      rewrite (insert_asc_perm p l). constructor; [lia | exact Hf].
    + constructor; [now constructor|].
      constructor; [lia|].
      eapply List.Forall_impl; [|exact Hf]. intros a Ha. cbn in Ha. lia.
Qed.

Lemma isort_sorted l :
  StronglySorted (fun a b => fst a <= fst b) (fold_right insert_asc [] l).
Proof.
  induction l as [|p l IH]; [constructor|]. simpl. now apply insert_asc_sorted.
Qed.

Lemma combine_seq_nth (ns : list Z) a x i :
  In (x, i) (combine ns (seq a (length ns))) ->
  (a <= i)%nat /\ nth (i - a) ns 0 = x.
Proof.
  revert a. induction ns as [|n ns IH]; intros a H; [contradiction|].
  cbn in H. destruct H as [[= -> ->]|H].
  - split; [lia|]. now rewrite Nat.sub_diag.
  - apply IH in H as [Hle Hn]. split; [lia|].
    replace (i - a)%nat with (S (i - S a)) by lia. exact Hn.
Qed.

Lemma map_snd_combine_seq (ns : list Z) a :
  List.map snd (combine ns (seq a (length ns))) = seq a (length ns).
Proof.
  revert a. induction ns as [|n ns IH]; intros a; [reflexivity|].
  cbn. now rewrite IH.
Qed.

Lemma argsort_insertion_contract : argsort_contract argsort_insertion.
Proof.
  intros ns. unfold argsort_insertion. rewrite int_keys_ints.
  set (ps := combine ns (seq 0 (length ns))).
  exists (List.map snd (fold_right insert_asc [] ps)).
  split; [reflexivity|]. split.
  - rewrite (isort_perm ps). unfold ps. now rewrite map_snd_combine_seq.
  - rewrite List.map_map.
    assert (List.map (fun p : Z * nat => nth (snd p) ns 0)
              (fold_right insert_asc [] ps)
            = List.map fst (fold_right insert_asc [] ps)) as ->.
    { apply List.map_ext_in. intros [x i] Hin.
      rewrite (isort_perm ps) in Hin. unfold ps in Hin.
      apply combine_seq_nth in Hin as [_ Hn].
      cbn. now rewrite Nat.sub_0_r in Hn. }
    pose proof (isort_sorted ps) as Hs.
    induction Hs as [|p l _ IH Hf]; [constructor|].
    cbn. constructor; [exact IH|]. now rewrite List.Forall_map.
Qed.

End SortFacts.

Module SaveFacts.
Section Save.
Context {World : Type} (ext : Externals World).

(** The sorted frame of the aggregated run. *)
Lemma sort_by_attitudes (all_results : list dict) :
  all_results <> [] ->
  (forall r, In r all_results ->
     exists n, Dict.get (lit "attitudes_count") r = Some (VInt n)) ->
  argsort_contract (argsort ext) ->
  keeps_integers (maybe_convert_objects ext) ->
  exists df,
    DF.sort_values (argsort ext) (lit "attitudes_count") false
      (clean_and_reorder_dataframe
         (DF.of_records (maybe_convert_objects ext) all_results)) = Ok df
    /\ DF.columns df
       = DF.columns (clean_and_reorder_dataframe
                       (DF.of_records (maybe_convert_objects ext) all_results))
    /\ Permutation (DF.rows df)
         (DF.rows (clean_and_reorder_dataframe
                     (DF.of_records (maybe_convert_objects ext) all_results)))
    /\ StronglySorted (fun r1 r2 => attitudes r1 >= attitudes r2) (DF.rows df).
Proof.
  intros Hne Hint Hsort Hconv.
  assert (List.map (DF.cell (lit "attitudes_count")) all_results
          = List.map VInt (List.map attitudes all_results)) as Hcells.
  { rewrite List.map_map. apply List.map_ext_in. intros r Hin.
    destruct (Hint r Hin) as [n Hn]. unfold attitudes, DF.cell, Dict.get_default.
    now rewrite Hn. }
  destruct (SortFacts.of_records_keeps (maybe_convert_objects ext) all_results
              (lit "attitudes_count")) as [Hc0 Hr0].
  { destruct all_results as [|r rs]; [contradiction|]. exists r.
    split; [now left|]. destruct (Hint r (or_introl eq_refl)) as [n Hn].
    now apply SortFacts.get_some_key in Hn. }
  { rewrite Hcells. apply Hconv. }
  assert (In (lit "attitudes_count") desired_columns) as Hdes
    by (vm_compute; intuition discriminate).
  assert (~ In (lit "attitudes_count") columns_to_drop) as Hdrop
    by (vm_compute; intuition discriminate).
  assert (lit "post_link" <> (lit "attitudes_count")) as Hpl by (vm_compute; discriminate).
  assert (lit "content" <> (lit "attitudes_count")) as Hct by (vm_compute; discriminate).
  destruct (SortFacts.clean_keeps
              (DF.of_records (maybe_convert_objects ext) all_results)
              (lit "attitudes_count") Hdes Hdrop Hpl Hct Hc0) as [Hhas Hr].
  set (cleaned := clean_and_reorder_dataframe
                    (DF.of_records (maybe_convert_objects ext) all_results)) in *.
  assert (List.map (DF.cell (lit "attitudes_count")) (DF.rows cleaned)
          = List.map VInt (List.map attitudes all_results)) as Hkeys.
  { now rewrite Hr, Hr0. }
  assert (List.map attitudes (DF.rows cleaned) = List.map attitudes all_results)
    as Hatt.
  { apply (f_equal (List.map (fun v => match v with VInt n => n | _ => 0 end)))
      in Hkeys.
    rewrite !List.map_map in Hkeys. exact Hkeys. }
  destruct (SortFacts.nargsort_descending (argsort ext)
              (List.map attitudes all_results) Hsort)
    as (idx & Hidx & Hperm & Hs).
  exists {| DF.columns := DF.columns cleaned;
            DF.rows := List.map (fun i => nth i (DF.rows cleaned) []) idx |}.
  assert (length (DF.rows cleaned) = length (List.map attitudes all_results))
    as Hlen by (now rewrite <- Hatt, List.length_map).
  split; [|split; [reflexivity|split]].
  - unfold DF.sort_values. rewrite Hhas. now rewrite Hkeys, Hidx.
  - cbn [DF.rows]. apply SortFacts.reindex_permutation. now rewrite Hlen.
  - cbn [DF.rows]. apply SortFacts.sorted_map_inv.
    rewrite List.map_map. rewrite <- Hatt in Hs.
    erewrite List.map_ext; [exact Hs|].
    intros i. cbn beta. now rewrite <- (List.map_nth attitudes).
Qed.

(** What follows the write of the table only adds events. *)
Lemma save_all_run (all_results : list dict) now df (s : @state World) :
  all_results <> [] ->
  DF.sort_values (argsort ext) (lit "attitudes_count") false
    (clean_and_reorder_dataframe
       (DF.of_records (maybe_convert_objects ext) all_results)) = Ok df ->
  exists evs,
    trace (snd (save_all ext all_results now s))
    = trace s ++ EWriteCsv (all_results_csv now) df :: evs.
Proof.
  intros Hne Hsort. unfold save_all.
  destruct all_results as [|r0 rs]; [contradiction|].
  unfold try_catch at 1. rewrite RunFacts.run_bind. unfold lift at 1.
  rewrite Hsort. rewrite RunFacts.run_bind. unfold call at 1.
  fold (all_results_csv now).
  destruct (to_csv ext (all_results_csv now) df (world s)) as [[[]|e] w].
  - match goal with
    | |- context [mbind ?k ?m ?s1] =>
        destruct (mbind k m s1) as [[[]|e] s2] eqn:E;
        assert (adds (fun _ => True) (mbind k m)) as Hadds
          by (repeat adds_step)
    end.
    + destruct (Hadds _ _ _ E) as (evs & Et & _). cbn [snd].
      rewrite Et. cbn [trace]. exists evs. now rewrite <- app_assoc.
    + destruct (Hadds _ _ _ E) as (evs & Et & _). cbn [snd log emit trace].
      exists (evs ++ [ELog ERROR]). rewrite Et. cbn [trace].
      now rewrite <- !app_assoc.
  - cbn [snd log emit trace]. exists [ELog ERROR]. now rewrite <- app_assoc.
Qed.

End Save.
End SaveFacts.

(** X22.  In the aggregated run, when every collected post has an
    integer [attitudes_count], numpy's [argsort] sorts integers in
    ascending order and the dtype inference keeps a column of integers,
    the table written to [all_results_<now>.csv] has the columns of the
    cleaned frame, its rows are a rearrangement of the cleaned rows, and
    they are in descending order of [attitudes_count]: the direction comes
    from [ascending=False].  Nothing is stated on rows with equal
    counts. *)
Theorem aggregated_rows_sorted {World : Type} (ext : Externals World)
    (all_results : list dict) (now : pystr) (s : @state World) :
  all_results <> [] ->
  (forall r, In r all_results ->
     exists n, Dict.get (lit "attitudes_count") r = Some (VInt n)) ->
  argsort_contract (argsort ext) ->
  keeps_integers (maybe_convert_objects ext) ->
  exists df evs,
    trace (snd (save_all ext all_results now s))
    = trace s ++ EWriteCsv (all_results_csv now) df :: evs
    /\ DF.columns df
       = DF.columns (clean_and_reorder_dataframe
                       (DF.of_records (maybe_convert_objects ext) all_results))
    /\ Permutation (DF.rows df)
         (DF.rows (clean_and_reorder_dataframe
                     (DF.of_records (maybe_convert_objects ext) all_results)))
    /\ StronglySorted (fun r1 r2 => attitudes r1 >= attitudes r2) (DF.rows df).
Proof.
  intros Hne Hint Hsort Hconv.
  destruct (SaveFacts.sort_by_attitudes ext all_results Hne Hint Hsort Hconv)
    as (df & Hdf & Hcols & Hperm & Hsorted).
  destruct (SaveFacts.save_all_run ext all_results now df s Hne Hdf) as [evs He].
  exists df, evs. auto.
Qed.

Lemma aggregated_rows_sorted_witness :
  let posts := [sample_post 1 2; sample_post 2 9; sample_post 3 5] in
  exists df evs,
    trace (snd (save_all (sample_ext [] None) posts (lit "t") fresh_state))
    = trace fresh_state ++ EWriteCsv (all_results_csv (lit "t")) df :: evs
    /\ DF.columns df
       = DF.columns (clean_and_reorder_dataframe
                       (DF.of_records (fun column => column) posts))
    /\ Permutation (DF.rows df)
         (DF.rows (clean_and_reorder_dataframe
                     (DF.of_records (fun column => column) posts)))
    /\ StronglySorted (fun r1 r2 => attitudes r1 >= attitudes r2) (DF.rows df).
Proof.
  refine (aggregated_rows_sorted (sample_ext [] None)
            [sample_post 1 2; sample_post 2 9; sample_post 3 5] (lit "t") fresh_state
            _ _ SortFacts.argsort_insertion_contract _).
  - discriminate.
  - intros r [<-|[<-|[<-|[]]]]; eexists; reflexivity.
  - intros ns. reflexivity.
Defined.

Example aggregated_sample :
  trace (snd (save_all (sample_ext [] None)
                [sample_post 1 2; sample_post 2 9; sample_post 3 5]
                (lit "t") fresh_state))
  = [ EWriteCsv (all_results_csv (lit "t"))
        {| DF.columns := [lit "weibo_id"; lit "publish_time";
                          lit "attitudes_count"; lit "post_link"];
           DF.rows :=
             List.map (fun p : Z * Z =>
                         [ (lit "weibo_id", VInt (fst p));
                           (lit "publish_time", VStr (lit "5" ++ minutes_ago));
                           (lit "attitudes_count", VInt (snd p));
                           (lit "post_link",
                            VStr (lit "https://weibo.com/detail/"
                                  ++ str_of_int (fst p))) ])
               [(2, 9); (3, 5); (1, 2)] |};
      ELog INFO; ELog INFO; EGallery; ELog WARNING ].
Proof. vm_compute. reflexivity. Qed.

(** C4.  The single-keyword run at a batch of two scored posts with 2
    and 9 likes: the rows are to be written in descending order of
    [likes], and the code sorts by that column, but the cleaned frame no
    longer has it.  [sort_values] raises [KeyError], the handler logs the
    error, and the unit returns [None]: no table is written, sorted or
    not. *)
Theorem single_keyword_sort_fails :
  let posts := [sample_post 1 2; sample_post 2 9] in
  let scored := Some {| filtered_weibos := Some posts; trending_topics := None |} in
  Forall (fun p => exists n, Dict.get (lit "likes") p = Some (VInt n)) posts
  /\ DF.has_column (lit "likes") (DF.of_records (fun column => column) posts)
     = true
  /\ DF.sort_values argsort_insertion (lit "likes") false
       (clean_and_reorder_dataframe (DF.of_records (fun column => column) posts))
     = Raise KeyError
  /\ process_keyword (sample_ext posts scored) (lit "k") sample_config (lit "t")
       ∅ fresh_state
     = (Ok None,
        record fresh_state
          [ ELog INFO; ELog INFO; ESearchKeyword (lit "k") (VInt 5) (VInt 1);
            ELog INFO; ELog INFO; ELog INFO;
            EAnalyze posts (VInt 80) (VInt 500) (VInt 0) (VInt 0);
            ELog INFO; EMakedirs (lit "results"); ELog ERROR ]).
Proof.
  cbv zeta. split; [|split; [|split]].
  - repeat constructor; eexists; reflexivity.
  - vm_compute. reflexivity.
  - vm_compute. reflexivity.
  - vm_compute. reflexivity.
Qed.

Lemma scorer_thresholds_witness :
  exists evs,
    trace (snd (process_keyword (sample_ext [sample_post 1 2] None) (lit "k")
                  sample_config (lit "t") ∅ fresh_state))
    = trace fresh_state
      ++ [ ELog INFO; ELog INFO; ESearchKeyword (lit "k") (VInt 5) (VInt 1);
           ELog INFO; ELog INFO; ELog INFO ]
      ++ EAnalyze [sample_post 1 2] (VInt 80) (VInt 500)
           (default (VInt 0) (sample_config !! lit "min_comments"))
           (default (VInt 0) (sample_config !! lit "min_forwards")) :: evs.
Proof.
  apply (proj1 (proj2 (scorer_thresholds (sample_ext [sample_post 1 2] None)
                         (lit "k") (lit "t") sample_config ∅ fresh_state))
           (VInt 5) (VInt 1) [sample_post 1 2] tt [sample_post 1 2]
           (VInt 80) (VInt 500)).
  - reflexivity.
  - reflexivity.
  - reflexivity.
  - vm_compute. reflexivity.
  - discriminate.
  - reflexivity.
  - reflexivity.
Defined.

(** * Further properties *)

(** ** Absolute and day-relative timestamps *)

Module ParseFacts.
Import StrFacts.

Lemma strip_ends (s : pystr) a b :
  isspace a = false -> isspace b = false ->
  strip (a :: s ++ [b]) = a :: s ++ [b].
Proof.
  intros Ha Hb. unfold strip. rewrite (lstrip_head _ _ Ha).
  change (a :: s ++ [b]) with ((a :: s) ++ [b]). now apply rstrip_last.
Qed.

Lemma lstrip_spaces (sep s : pystr) :
  Forall (fun c => isspace c = true) sep -> lstrip (sep ++ s) = lstrip s.
Proof. induction 1 as [|c sep Hc _ IH]; [reflexivity|]. simpl. now rewrite Hc. Qed.

Lemma replace_go_absent a sub new (s : pystr) :
  Forall (fun c => a <> c) s -> replace_go (a :: sub) new 0 s = s.
Proof.
  induction 1 as [|c s Hc _ IH]; [reflexivity|].
  cbn [replace_go]. rewrite (startswith_head_ne a sub c s Hc). now rewrite IH.
Qed.

(** Removing a marker that stands in front of a text free of its first
    code point. *)
Lemma replace_prefix a b (s : pystr) :
  Forall (fun c => a <> c) s -> replace [a; b] [] ([a; b] ++ s) = s.
Proof.
  intros H. unfold replace. cbn [replace_go app].
  pose proof (startswith_refl_app [a; b] s) as E. cbn [app] in E. rewrite E.
  cbn [app length Nat.sub replace_go]. now apply replace_go_absent.
Qed.

Lemma isdecimal_ascii c : is_ascii_digit c -> isdecimal c = true.
Proof.
  unfold is_ascii_digit, isdecimal, unicode_decimal, decimal_zeros.
  intros H. cbn [List.find].
  destruct (Z.leb_spec 48 c), (Z.ltb_spec c (48 + 10)); try lia. reflexivity.
Qed.

Lemma pad2_digits x : 0 <= x <= 99 -> Forall is_ascii_digit (pad2 x).
Proof.
  intros H. unfold pad2, is_ascii_digit.
  repeat constructor; Z.div_mod_to_equations; lia.
Qed.

Lemma pad4_digits y : 0 <= y <= 9999 -> Forall is_ascii_digit (pad4 y).
Proof.
  intros H. unfold pad4, is_ascii_digit.
  repeat constructor; Z.div_mod_to_equations; lia.
Qed.

Lemma py_int_pad2 x : 0 <= x <= 99 -> py_int (pad2 x) = Ok x.
Proof.
  intros H. rewrite py_int_digits; [|now apply pad2_digits|discriminate].
  cbn [length]. unfold int_max_str_digits. cbn [Z.of_nat Z.ltb Z.compare].
  unfold pad2, digits_value. cbn [fold_left]. f_equal.
  Z.div_mod_to_equations. lia.
Qed.

Lemma py_int_pad4 y : 0 <= y <= 9999 -> py_int (pad4 y) = Ok y.
Proof.
  intros H. rewrite py_int_digits; [|now apply pad4_digits|discriminate].
  cbn [length]. unfold int_max_str_digits.
  change (4300 <? Z.of_nat 4) with false. cbv iota.
  unfold pad4, digits_value. cbn [fold_left]. f_equal.
  Z.div_mod_to_equations. lia.
Qed.

(** [x] is one of the [n] integers from [lo] on: one case for each. *)
Ltac enum x lo n :=
  let H := fresh "Henum" in
  assert (In x (List.map Z.of_nat (seq lo n))) as H
    by (apply in_map_iff; exists (Z.to_nat x);
        split; [lia | apply in_seq; lia]);
  vm_compute in H;
  repeat (destruct H as [<-|H]); [..|contradiction].

Ltac run_group H :=
  match goal with
  | |- context [pad2 ?k] =>
      let v := eval vm_compute in (pad2 k) in
      change (pad2 k) with v in H |- *
  end;
  cbn in H |- *;
  repeat match goal with
         | |- context [Strptime.digit ?c] =>
             let v := eval vm_compute in (Strptime.digit c) in
             change (Strptime.digit c) with v
         end;
  cbn; rewrite H; reflexivity.

(** A two-digit token is taken whole by the group of its directive. *)
Lemma run_H items caps h rest r :
  0 <= h <= 23 ->
  Strptime.run items (pad2 h :: caps) rest = Some r ->
  Strptime.run (Strptime.re_H :: items) caps (pad2 h ++ rest) = Some r.
Proof. intros Hh H. enum h 0%nat 24%nat; run_group H. Qed.

Lemma run_M items caps m rest r :
  0 <= m <= 59 ->
  Strptime.run items (pad2 m :: caps) rest = Some r ->
  Strptime.run (Strptime.re_M :: items) caps (pad2 m ++ rest) = Some r.
Proof. intros Hm H. enum m 0%nat 60%nat; run_group H. Qed.

Lemma run_m items caps mo rest r :
  1 <= mo <= 12 ->
  Strptime.run items (pad2 mo :: caps) rest = Some r ->
  Strptime.run (Strptime.re_m :: items) caps (pad2 mo ++ rest) = Some r.
Proof. intros Hm H. enum mo 1%nat 12%nat; run_group H. Qed.

Lemma run_d items caps d rest r :
  1 <= d <= 31 ->
  Strptime.run items (pad2 d :: caps) rest = Some r ->
  Strptime.run (Strptime.re_d :: items) caps (pad2 d ++ rest) = Some r.
Proof. intros Hd H. enum d 1%nat 31%nat; run_group H. Qed.

Lemma run_Y items caps y rest r :
  0 <= y <= 9999 ->
  Strptime.run items (pad4 y :: caps) rest = Some r ->
  Strptime.run (Strptime.re_Y :: items) caps (pad4 y ++ rest) = Some r.
Proof.
  intros Hy H. pose proof (pad4_digits y Hy) as Hd. unfold pad4 in *.
  unfold Strptime.re_Y. cbn [Strptime.run Strptime.first_alt app].
  cbn [Strptime.match_classes]. unfold Strptime.digit.
  repeat match goal with
         | Hd : Forall is_ascii_digit (?c :: _) |- _ =>
             apply Forall_cons_iff in Hd as [?%isdecimal_ascii Hd]
         end.
  repeat match goal with E : isdecimal _ = true |- _ => rewrite E; clear E end.
  now rewrite H.
Qed.

Lemma run_lit items caps c rest :
  Strptime.run (Strptime.Lit c :: items) caps (c :: rest)
  = Strptime.run items caps rest.
Proof. cbn [Strptime.run]. now rewrite Z.eqb_refl. Qed.

(** One blank before a two-digit token is all that [\s+] takes. *)
Lemma run_space items caps x rest :
  0 <= x <= 99 ->
  Strptime.run (Strptime.Spaces :: items) caps (32 :: pad2 x ++ rest)
  = Strptime.run items caps (pad2 x ++ rest).
Proof.
  intros Hx. cbn [Strptime.run Strptime.plus_space app pad2].
  change (isspace 32) with true. cbv iota.
  assert (isspace (48 + x / 10) = false) as ->
    by (apply digit_not_space; unfold is_ascii_digit;
        Z.div_mod_to_equations; lia).
  reflexivity.
Qed.

Lemma groups_HM h m :
  0 <= h <= 23 -> 0 <= m <= 59 ->
  Strptime.groups Strptime.format_HM (hm_text h m) = Ok [pad2 h; pad2 m].
Proof.
  intros Hh Hm.
  assert (Strptime.run Strptime.format_HM [] (hm_text h m)
          = Some ([pad2 h; pad2 m], [])) as E.
  { unfold Strptime.format_HM, hm_text.
    apply run_H; [assumption|].
    cbn [app]. rewrite run_lit. rewrite <- (app_nil_r (pad2 m)).
    apply run_M; [assumption | reflexivity]. }
  unfold Strptime.groups. now rewrite E.
Qed.

Lemma groups_YmdHM y mo d h m :
  0 <= y <= 9999 -> 1 <= mo <= 12 -> 1 <= d <= 31 ->
  0 <= h <= 23 -> 0 <= m <= 59 ->
  Strptime.groups Strptime.format_YmdHM (ymdhm_text y mo d h m)
  = Ok [pad4 y; pad2 mo; pad2 d; pad2 h; pad2 m].
Proof.
  intros Hy Hmo Hd Hh Hm.
  assert (Strptime.run Strptime.format_YmdHM [] (ymdhm_text y mo d h m)
          = Some ([pad4 y; pad2 mo; pad2 d; pad2 h; pad2 m], [])) as E.
  { unfold Strptime.format_YmdHM, ymdhm_text, mdhm_text, hm_text.
    apply run_Y; [assumption|].
    cbn [app]. rewrite run_lit.
    apply run_m; [assumption|]. cbn [app]. rewrite run_lit.
    apply run_d; [assumption|]. cbn [app].
    rewrite run_space by lia.
    apply run_H; [assumption|]. cbn [app]. rewrite run_lit.
    rewrite <- (app_nil_r (pad2 m)). apply run_M; [assumption | reflexivity]. }
  unfold Strptime.groups. now rewrite E.
Qed.

Lemma strptime_HM_text h m :
  0 <= h <= 23 -> 0 <= m <= 59 ->
  Strptime.strptime_HM (hm_text h m) = DT.make 1900 1 1 h m 0 0.
Proof.
  intros Hh Hm. unfold Strptime.strptime_HM.
  rewrite groups_HM by assumption. rewrite TimeFacts.bind_ok.
  rewrite !py_int_pad2 by lia. reflexivity.
Qed.

Lemma strptime_YmdHM_text y mo d h m :
  0 <= y <= 9999 -> 1 <= mo <= 12 -> 1 <= d <= 31 ->
  0 <= h <= 23 -> 0 <= m <= 59 ->
  Strptime.strptime_YmdHM (ymdhm_text y mo d h m) = DT.make y mo d h m 0 0.
Proof.
  intros Hy Hmo Hd Hh Hm. unfold Strptime.strptime_YmdHM.
  rewrite groups_YmdHM by assumption. rewrite TimeFacts.bind_ok.
  rewrite py_int_pad4 by lia. rewrite !py_int_pad2 by lia. reflexivity.
Qed.

Lemma pad2_ascii x : 0 <= x <= 99 -> Forall (fun c => 32 <= c < 128) (pad2 x).
Proof.
  intros H. eapply Forall_impl; [now apply pad2_digits|].
  unfold is_ascii_digit. intros; lia.
Qed.

Lemma hm_ascii h m :
  0 <= h <= 23 -> 0 <= m <= 59 -> Forall (fun c => 32 <= c < 128) (hm_text h m).
Proof.
  intros Hh Hm. unfold hm_text.
  repeat (apply Forall_app; split); try (apply pad2_ascii; lia).
  repeat constructor; lia.
Qed.

Lemma mdhm_ascii mo d h m :
  1 <= mo <= 12 -> 1 <= d <= 31 -> 0 <= h <= 23 -> 0 <= m <= 59 ->
  Forall (fun c => 32 <= c < 128) (mdhm_text mo d h m).
Proof.
  intros Hmo Hd Hh Hm. unfold mdhm_text.
  repeat (apply Forall_app; split);
    try (apply pad2_ascii; lia); try (now apply hm_ascii).
  all: repeat constructor; lia.
Qed.

Lemma ymdhm_ascii y mo d h m :
  0 <= y <= 9999 -> 1 <= mo <= 12 -> 1 <= d <= 31 ->
  0 <= h <= 23 -> 0 <= m <= 59 ->
  Forall (fun c => 32 <= c < 128) (ymdhm_text y mo d h m).
Proof.
  intros Hy Hmo Hd Hh Hm. unfold ymdhm_text.
  apply Forall_app; split; [|apply Forall_app; split].
  - eapply Forall_impl; [now apply pad4_digits|].
    unfold is_ascii_digit. intros; lia.
  - repeat constructor; lia.
  - now apply mdhm_ascii.
Qed.

(** No marker of [parse_weibo_time] other than the hyphen occurs in an
    ASCII text. *)
Lemma ascii_no_marker (s : pystr) :
  Forall (fun c => 32 <= c < 128) s ->
  contains minutes_ago s = false /\ contains hours_ago s = false
  /\ contains today s = false /\ contains yesterday s = false.
Proof.
  intros H. repeat split; apply contains_head_absent;
    (eapply Forall_impl; [exact H|]); cbn; intros; lia.
Qed.

Lemma hm_strip h m : 0 <= h <= 23 -> 0 <= m <= 59 -> strip (hm_text h m) = hm_text h m.
Proof.
  intros Hh Hm. apply strip_no_space. unfold hm_text.
  repeat (apply Forall_app; split);
    try (eapply Forall_impl; [apply pad2_digits; lia|]; apply digit_not_space).
  repeat constructor.
Qed.

Lemma mdhm_strip mo d h m :
  1 <= mo <= 12 -> 0 <= m <= 59 ->
  strip (mdhm_text mo d h m) = mdhm_text mo d h m.
Proof.
  intros Hmo Hm. unfold mdhm_text, hm_text, pad2. cbn [app].
  change [48 + mo / 10; 48 + mo mod 10; 45; 48 + d / 10; 48 + d mod 10; 32;
          48 + h / 10; 48 + h mod 10; 58; 48 + m / 10; 48 + m mod 10]
    with ((48 + mo / 10)
          :: [48 + mo mod 10; 45; 48 + d / 10; 48 + d mod 10; 32;
              48 + h / 10; 48 + h mod 10; 58; 48 + m / 10]
             ++ [48 + m mod 10]).
  apply strip_ends; apply digit_not_space; unfold is_ascii_digit;
    Z.div_mod_to_equations; lia.
Qed.

Lemma ymdhm_strip y mo d h m :
  0 <= y <= 9999 -> 0 <= m <= 59 ->
  strip (ymdhm_text y mo d h m) = ymdhm_text y mo d h m.
Proof.
  intros Hy Hm. unfold ymdhm_text, mdhm_text, hm_text, pad2, pad4. cbn [app].
  change [48 + y / 1000; 48 + (y / 100) mod 10; 48 + (y / 10) mod 10;
          48 + y mod 10; 45; 48 + mo / 10; 48 + mo mod 10; 45; 48 + d / 10;
          48 + d mod 10; 32; 48 + h / 10; 48 + h mod 10; 58; 48 + m / 10;
          48 + m mod 10]
    with ((48 + y / 1000)
          :: [48 + (y / 100) mod 10; 48 + (y / 10) mod 10; 48 + y mod 10; 45;
              48 + mo / 10; 48 + mo mod 10; 45; 48 + d / 10; 48 + d mod 10; 32;
              48 + h / 10; 48 + h mod 10; 58; 48 + m / 10]
             ++ [48 + m mod 10]).
  apply strip_ends; apply digit_not_space; unfold is_ascii_digit;
    Z.div_mod_to_equations; lia.
Qed.

(** The [if] chain of [parse_weibo_time] on a stripped text that is
    neither empty nor the sentinel. *)
Lemma parse_stripped clock (s : pystr) now :
  strip s = s -> s <> [] -> s <> unknown_time ->
  parse_weibo_time clock (VStr s) now
  = try_except
      (parse_weibo_time_try s (match now with Some t => t | None => clock end))
      (fun _ => Ok None).
Proof.
  intros Hs Hne Hu. unfold parse_weibo_time. cbn [py_str]. rewrite Hs.
  now rewrite !bool_decide_eq_false_2.
Qed.

Lemma year_numeral_check :
  forallb (fun i => bool_decide (str_of_int (1000 + Z.of_nat i)
                                 = pad4 (1000 + Z.of_nat i)))
    (seq 0 (Z.to_nat 9000)) = true.
Proof. vm_compute. reflexivity. Qed.

(** A year of four digits is written with its four digits. *)
Lemma year_numeral y : 1000 <= y <= 9999 -> str_of_int y = pad4 y.
Proof.
  intros H. pose proof year_numeral_check as C.
  rewrite forallb_forall in C.
  specialize (C (Z.to_nat (y - 1000)) ltac:(apply in_seq; lia)).
  apply bool_decide_eq_true in C.
  now replace (1000 + Z.of_nat (Z.to_nat (y - 1000))) with y in C by lia.
Qed.

Lemma make_1900 h m :
  0 <= h <= 23 -> 0 <= m <= 59 ->
  DT.make 1900 1 1 h m 0 0
  = Ok (693595 * DT.us_per_day + h * DT.us_per_hour + m * DT.us_per_minute).
Proof.
  intros Hh Hm. unfold DT.make.
  match goal with
  | |- (if ?c then _ else _) = _ => assert (c = true) as ->
  end.
  { repeat (apply andb_true_intro; split);
      first [reflexivity | apply Z.leb_le; lia]. }
  f_equal. change (DT.ymd2ord 1900 1 1 - 1) with 693595.
  unfold DT.us_per_second. lia.
Qed.

Lemma hour_minute_1900 h m :
  0 <= h <= 23 -> 0 <= m <= 59 ->
  let t := 693595 * DT.us_per_day + h * DT.us_per_hour + m * DT.us_per_minute in
  DT.hour t = h /\ DT.minute t = m.
Proof.
  intros Hh Hm. unfold DT.hour, DT.minute, DT.us_per_day, DT.us_per_hour,
    DT.us_per_minute, DT.us_per_second. cbv zeta.
  split; Z.div_mod_to_equations; lia.
Qed.

(** The fields of [t.replace(hour=h, minute=m, second=0, microsecond=0)]. *)
Lemma replace_time_fields t h m :
  0 <= h <= 23 -> 0 <= m <= 59 ->
  DT.replace_time t h m / DT.us_per_day = t / DT.us_per_day
  /\ DT.hour (DT.replace_time t h m) = h
  /\ DT.minute (DT.replace_time t h m) = m
  /\ DT.replace_time t h m mod DT.us_per_minute = 0.
Proof.
  intros Hh Hm. unfold DT.replace_time, DT.hour, DT.minute, DT.us_per_day,
    DT.us_per_hour, DT.us_per_minute, DT.us_per_second.
  repeat split; Z.div_mod_to_equations; lia.
Qed.

(** Texts [<marker><spaces>HH:MM] for a two-character day marker whose
    second character is U+5929. *)
Lemma day_text_absent x a (sep : pystr) h m :
  x <> a -> x <> 0x5929 -> isspace x = false -> 128 <= x ->
  Forall (fun c => isspace c = true) sep ->
  0 <= h <= 23 -> 0 <= m <= 59 ->
  Forall (fun c => x <> c) ([a; 0x5929] ++ sep ++ hm_text h m).
Proof.
  intros Ha Hb Hx Hx' Hsep Hh Hm.
  apply Forall_app; split; [|apply Forall_app; split].
  - repeat constructor; assumption.
  - eapply Forall_impl; [exact Hsep|]. cbn. intros c Hc ->. congruence.
  - eapply Forall_impl; [now apply hm_ascii|]. cbn. intros; lia.
Qed.

Lemma day_text_strip a (sep : pystr) h m :
  isspace a = false -> 0 <= h <= 23 -> 0 <= m <= 59 ->
  strip ([a; 0x5929] ++ sep ++ hm_text h m) = [a; 0x5929] ++ sep ++ hm_text h m.
Proof.
  intros Ha Hh Hm.
  assert ([a; 0x5929] ++ sep ++ hm_text h m
          = a :: (0x5929 :: sep ++ pad2 h ++ [58; 48 + m / 10]) ++ [48 + m mod 10])
    as ->.
  { unfold hm_text, pad2. cbn [app]. rewrite <- app_assoc. reflexivity. }
  apply strip_ends; [exact Ha|].
  apply digit_not_space. unfold is_ascii_digit. Z.div_mod_to_equations; lia.
Qed.

Lemma day_text_time a (sep : pystr) h m :
  isspace a = false -> 128 <= a ->
  Forall (fun c => isspace c = true) sep ->
  0 <= h <= 23 -> 0 <= m <= 59 ->
  strip (replace [a; 0x5929] [] ([a; 0x5929] ++ sep ++ hm_text h m)) = hm_text h m.
Proof.
  intros Ha Ha' Hsep Hh Hm. rewrite replace_prefix.
  - unfold strip. rewrite (lstrip_spaces _ _ Hsep). now apply hm_strip.
  - apply Forall_app; split.
    + eapply Forall_impl; [exact Hsep|]. cbn. intros c Hc ->. congruence.
    + eapply Forall_impl; [now apply hm_ascii|]. cbn. intros; lia.
Qed.

Lemma day_text_not_sentinel a (s : pystr) :
  a <> 0x672a -> [a; 0x5929] ++ s <> [] /\ [a; 0x5929] ++ s <> unknown_time.
Proof. intros Ha. split; [discriminate | intros [= E]; contradiction]. Qed.

(** The time of day read by [strptime(t, '%H:%M')]. *)
Lemma strptime_HM_fields h m :
  0 <= h <= 23 -> 0 <= m <= 59 ->
  exists dt, Strptime.strptime_HM (hm_text h m) = Ok dt
             /\ DT.hour dt = h /\ DT.minute dt = m.
Proof.
  intros Hh Hm. rewrite strptime_HM_text, make_1900 by assumption.
  eexists; split; [reflexivity|]. now apply hour_minute_1900.
Qed.

End ParseFacts.

(** X1.  A sixteen-character text [YYYY-MM-DD HH:MM] with fields in range
    is read as that civil date and time, whatever the reference instant;
    when the day does not exist in that month (or the year is 0000) the
    result is [None]. *)
Theorem absolute_timestamp clock now y mo d h m :
  0 <= y <= 9999 -> 1 <= mo <= 12 -> 1 <= d <= 31 ->
  0 <= h <= 23 -> 0 <= m <= 59 ->
  parse_weibo_time clock (VStr (ymdhm_text y mo d h m)) now
  = Ok (value_or_none (DT.make y mo d h m 0 0)).
Proof.
  intros Hy Hmo Hd Hh Hm.
  rewrite ParseFacts.parse_stripped;
    [|now apply ParseFacts.ymdhm_strip|discriminate|discriminate].
  unfold parse_weibo_time_try.
  destruct (ParseFacts.ascii_no_marker _ (ParseFacts.ymdhm_ascii y mo d h m Hy Hmo Hd Hh Hm))
    as (-> & -> & -> & ->).
  assert (contains hyphen (ymdhm_text y mo d h m) = true) as ->
    by apply StrFacts.contains_app_r.
  change (length (ymdhm_text y mo d h m)) with 16%nat. cbn [Nat.eqb].
  rewrite ParseFacts.strptime_YmdHM_text by assumption.
  now destruct (DT.make y mo d h m 0 0).
Qed.

Lemma absolute_timestamp_witness :
  parse_weibo_time 0 (VStr (ymdhm_text 2024 2 30 12 34)) None
  = Ok (value_or_none (DT.make 2024 2 30 12 34 0 0)).
Proof. apply absolute_timestamp; lia. Defined.

(** X2.  An eleven-character text [MM-DD HH:MM] with fields in range is
    read as that month, day and time in the year of the reference instant,
    provided that year has four digits; when the day does not exist in
    that month of that year the result is [None]. *)
Theorem month_day_timestamp clock now mo d h m :
  1000 <= DT.year now <= 9999 ->
  1 <= mo <= 12 -> 1 <= d <= 31 -> 0 <= h <= 23 -> 0 <= m <= 59 ->
  parse_weibo_time clock (VStr (mdhm_text mo d h m)) (Some now)
  = Ok (value_or_none (DT.make (DT.year now) mo d h m 0 0)).
Proof.
  intros Hy Hmo Hd Hh Hm.
  rewrite ParseFacts.parse_stripped;
    [|now apply ParseFacts.mdhm_strip|discriminate|discriminate].
  unfold parse_weibo_time_try.
  destruct (ParseFacts.ascii_no_marker _ (ParseFacts.mdhm_ascii mo d h m Hmo Hd Hh Hm))
    as (-> & -> & -> & ->).
  assert (contains hyphen (mdhm_text mo d h m) = true) as ->
    by apply StrFacts.contains_app_r.
  change (length (mdhm_text mo d h m)) with 11%nat. cbn [Nat.eqb].
  rewrite ParseFacts.year_numeral by assumption.
  change (pad4 (DT.year now) ++ hyphen ++ mdhm_text mo d h m)
    with (ymdhm_text (DT.year now) mo d h m).
  rewrite ParseFacts.strptime_YmdHM_text by lia.
  now destruct (DT.make (DT.year now) mo d h m 0 0).
Qed.

Lemma month_day_timestamp_witness :
  parse_weibo_time 0 (VStr (mdhm_text 5 23 12 34)) (Some t_2024_05_23_12_00)
  = Ok (value_or_none (DT.make (DT.year t_2024_05_23_12_00) 5 23 12 34 0 0)).
Proof.
  apply month_day_timestamp; try lia.
  vm_compute. split; discriminate.
Defined.

(** X3.  A text made of the marker for today, any run of whitespace and a
    time [HH:MM] in range is read as the reference instant's day at that
    hour and minute, with seconds and microseconds zero. *)
Theorem today_timestamp clock now (sep : pystr) h m :
  Forall (fun c => isspace c = true) sep ->
  0 <= h <= 23 -> 0 <= m <= 59 ->
  exists r,
    parse_weibo_time clock (VStr (today ++ sep ++ hm_text h m)) (Some now)
    = Ok (Some r)
    /\ r / DT.us_per_day = now / DT.us_per_day
    /\ DT.hour r = h /\ DT.minute r = m /\ r mod DT.us_per_minute = 0.
Proof.
  intros Hsep Hh Hm. exists (DT.replace_time now h m).
  split; [|now apply ParseFacts.replace_time_fields].
  rewrite ParseFacts.parse_stripped;
    [|now apply ParseFacts.day_text_strip
     |apply ParseFacts.day_text_not_sentinel; lia
     |apply ParseFacts.day_text_not_sentinel; lia].
  unfold parse_weibo_time_try, minutes_ago, hours_ago.
  rewrite (StrFacts.contains_head_absent 0x5206), (StrFacts.contains_head_absent 0x5c0f)
    by (apply ParseFacts.day_text_absent; (reflexivity || lia || assumption)).
  assert (contains today (today ++ sep ++ hm_text h m) = true) as ->
    by apply (StrFacts.contains_app_r today []).
  cbv zeta. unfold today at 1 2.
  rewrite ParseFacts.day_text_time by (reflexivity || lia || assumption).
  destruct (ParseFacts.strptime_HM_fields h m Hh Hm) as (dt & -> & Eh & Em).
  rewrite TimeFacts.bind_ok, Eh, Em.
  reflexivity.
Qed.

Lemma today_timestamp_witness :
  exists r,
    parse_weibo_time 0 (VStr (today ++ [32] ++ hm_text 12 34))
      (Some t_2024_05_23_12_00) = Ok (Some r)
    /\ r / DT.us_per_day = t_2024_05_23_12_00 / DT.us_per_day
    /\ DT.hour r = 12 /\ DT.minute r = 34 /\ r mod DT.us_per_minute = 0.
Proof.
  apply today_timestamp; [repeat constructor | lia | lia].
Defined.

(** X4.  A text made of the marker for yesterday, any run of whitespace
    and a time [HH:MM] in range is read as the day before the reference
    instant's day at that hour and minute, with seconds and microseconds
    zero; when the reference instant lies on the first representable day
    there is no day before and the result is [None]. *)
Theorem yesterday_timestamp clock now (sep : pystr) h m :
  DT.in_range now = true ->
  Forall (fun c => isspace c = true) sep ->
  0 <= h <= 23 -> 0 <= m <= 59 ->
  (DT.us_per_day <= now ->
   exists r,
     parse_weibo_time clock (VStr (yesterday ++ sep ++ hm_text h m)) (Some now)
     = Ok (Some r)
     /\ r / DT.us_per_day = now / DT.us_per_day - 1
     /\ DT.hour r = h /\ DT.minute r = m /\ r mod DT.us_per_minute = 0)
  /\ (now < DT.us_per_day ->
      parse_weibo_time clock (VStr (yesterday ++ sep ++ hm_text h m)) (Some now)
      = Ok None).
Proof.
  intros Hnow Hsep Hh Hm.
  assert (parse_weibo_time clock (VStr (yesterday ++ sep ++ hm_text h m)) (Some now)
          = try_except
              (dt ← DT.sub (DT.replace_time now h m) (DT.days 1); Ok (Some dt))
              (fun _ => Ok None)) as ->.
  { rewrite ParseFacts.parse_stripped;
      [|now apply ParseFacts.day_text_strip
       |apply ParseFacts.day_text_not_sentinel; lia
       |apply ParseFacts.day_text_not_sentinel; lia].
    unfold parse_weibo_time_try, minutes_ago, hours_ago, today.
    rewrite (StrFacts.contains_head_absent 0x5206),
      (StrFacts.contains_head_absent 0x5c0f), (StrFacts.contains_head_absent 0x4eca)
      by (apply ParseFacts.day_text_absent; (reflexivity || lia || assumption)).
    assert (contains yesterday (yesterday ++ sep ++ hm_text h m) = true) as ->
      by apply (StrFacts.contains_app_r yesterday []).
    cbv zeta. unfold yesterday at 1 2.
    rewrite ParseFacts.day_text_time by (reflexivity || lia || assumption).
    destruct (ParseFacts.strptime_HM_fields h m Hh Hm) as (dt & -> & Eh & Em).
  rewrite TimeFacts.bind_ok, Eh, Em.
    reflexivity. }
  unfold DT.in_range, DT.MAXORDINAL in Hnow.
  apply andb_prop in Hnow as [H0 H1].
  apply Z.leb_le in H0. apply Z.ltb_lt in H1.
  unfold DT.sub, DT.in_range, DT.MAXORDINAL, DT.days, DT.replace_time, DT.hour,
    DT.minute, DT.us_per_day, DT.us_per_hour, DT.us_per_minute,
    DT.us_per_second in *.
  split; intros Hday.
  - eexists. split.
    + match goal with
      | |- context [if ?c then _ else _] => assert (c = true) as ->
      end.
      { apply andb_true_intro; split;
          [apply Z.leb_le | apply Z.ltb_lt]; Z.div_mod_to_equations; lia. }
      reflexivity.
    + repeat split; Z.div_mod_to_equations; lia.
  - match goal with
    | |- context [if ?c then _ else _] => assert (c = false) as ->
    end.
    { apply andb_false_intro1. apply Z.leb_gt. Z.div_mod_to_equations; lia. }
    reflexivity.
Qed.

Lemma yesterday_timestamp_witness :
  exists r,
    parse_weibo_time 0 (VStr (yesterday ++ [32] ++ hm_text 23 59))
      (Some t_2024_05_23_12_00) = Ok (Some r)
    /\ r / DT.us_per_day = t_2024_05_23_12_00 / DT.us_per_day - 1
    /\ DT.hour r = 23 /\ DT.minute r = 59 /\ r mod DT.us_per_minute = 0.
Proof.
  apply (proj1 (yesterday_timestamp 0 t_2024_05_23_12_00 [32] 23 59
                  eq_refl ltac:(repeat constructor) ltac:(lia) ltac:(lia))).
  vm_compute. discriminate.
Defined.

(** ** The keyword and user lists *)

Module ReadFacts.
Import StrFacts.

Lemma lstrip_suffix (s : pystr) : exists t, s = t ++ lstrip s.
Proof.
  induction s as [|c s [t IH]]; [now exists []|]. simpl.
  destruct (isspace c).
  - exists (c :: t). simpl. now f_equal.
  - now exists [].
Qed.

Lemma lstrip_starts (s : pystr) c t : lstrip s = c :: t -> isspace c = false.
Proof.
  induction s as [|a s IH]; [discriminate|]. simpl.
  destruct (isspace a) eqn:E; [exact IH|]. now intros [= <- <-].
Qed.

Lemma lstrip_fixed (s : pystr) :
  (forall c t, s = c :: t -> isspace c = false) -> lstrip s = s.
Proof. destruct s as [|c s]; [reflexivity|]. intros H. simpl. now rewrite (H c s). Qed.

Lemma lstrip_idempotent (s : pystr) : lstrip (lstrip s) = lstrip s.
Proof. apply lstrip_fixed. intros c t E. exact (lstrip_starts _ _ _ E). Qed.

Lemma rstrip_prefix (s : pystr) : exists t, s = rstrip s ++ t.
Proof.
  unfold rstrip. destruct (lstrip_suffix (rev s)) as [t E].
  exists (rev t). rewrite <- rev_app_distr, <- E. now rewrite rev_involutive.
Qed.

Lemma rstrip_idempotent (s : pystr) : rstrip (rstrip s) = rstrip s.
Proof. unfold rstrip. now rewrite rev_involutive, lstrip_idempotent. Qed.

(** [strip] leaves nothing to strip. *)
Lemma strip_idempotent (s : pystr) : strip (strip s) = strip s.
Proof.
  unfold strip.
  assert (lstrip (rstrip (lstrip s)) = rstrip (lstrip s)) as ->.
  { apply lstrip_fixed. intros c t E.
    destruct (rstrip_prefix (lstrip s)) as [u Hu].
    rewrite E in Hu. exact (lstrip_starts _ _ _ Hu). }
  apply rstrip_idempotent.
Qed.

Lemma stripped_entries (keep : pystr -> bool) (lines : list pystr) :
  (forall line, keep line = true -> strip line <> []) ->
  Forall (fun k => k <> [] /\ strip k = k) (List.map strip (List.filter keep lines)).
Proof.
  intros Hkeep. apply Forall_forall. intros k Hk.
  apply list_elem_of_In, in_map_iff in Hk as (line & <- & Hin).
  apply filter_In in Hin as [_ Hl].
  split; [now apply Hkeep | apply strip_idempotent].
Qed.

Lemma nonblank_strip line : nonblank line = true -> strip line <> [].
Proof.
  unfold nonblank. intros H E. now rewrite E, bool_decide_eq_true_2 in H.
Qed.

End ReadFacts.

(** X5.  Whatever the files hold, every keyword and every user URL that
    is read is a non-empty text without white space at either end. *)
Theorem read_entries_stripped (f : option (list (list Z))) :
  Forall (fun k => k <> [] /\ strip k = k) (read_keywords f)
  /\ Forall (fun u => u <> [] /\ strip u = u) (read_user_urls f).
Proof.
  destruct f as [lines|]; cbn [read_keywords read_user_urls].
  - split.
    + apply ReadFacts.stripped_entries, ReadFacts.nonblank_strip.
    + apply ReadFacts.stripped_entries. intros line H.
      apply andb_prop in H as [H _]. now apply ReadFacts.nonblank_strip.
  - split; constructor.
Qed.

(** X6.  The comment test of [read_user_urls] looks at the line as it
    stands in the file: a line that is indented before its [#] is not
    taken for a comment, and its stripped text, which begins with [#], is
    returned among the user URLs. *)
Theorem indented_comment_kept (lines : list (list Z)) (line : list Z) :
  In line lines ->
  startswith [35] line = false ->
  startswith [35] (strip line) = true ->
  In (strip line) (read_user_urls (Some lines)).
Proof.
  intros Hin Hraw Hstripped. cbn [read_user_urls].
  apply in_map, filter_In. split; [exact Hin|].
  rewrite Hraw. unfold nonblank.
  destruct (strip line); [discriminate|].
  now rewrite bool_decide_eq_false_2.
Qed.

Lemma indented_comment_kept_witness :
  In (strip (lit " # not a user"))
    (read_user_urls (Some [lit "https://weibo.com/u/1"; lit " # not a user"])).
Proof.
  apply indented_comment_kept; [right; left; reflexivity | reflexivity | reflexivity].
Defined.

(** ** The cleaned frame *)

Module CleanFacts.
Import FrameFacts SortFacts.

Lemma inb_filter c (p : list Z -> bool) (l : list (list Z)) :
  DF.inb c (List.filter p l) = DF.inb c l && p c.
Proof.
  apply Bool.eq_iff_eq_true.
  rewrite andb_true_iff, !inb_In, filter_In. reflexivity.
Qed.

Lemma inb_snoc c (l : list (list Z)) k :
  DF.inb c (l ++ [k]) = DF.inb c l || bool_decide (k = c).
Proof. unfold DF.inb. rewrite existsb_app. cbn. now rewrite orb_false_r. Qed.

Lemma has_drop c cols df :
  DF.has_column c (DF.drop cols df) = DF.has_column c df && negb (DF.inb c cols).
Proof. unfold DF.has_column, DF.drop, DF.select. cbn [DF.columns]. apply inb_filter. Qed.

Lemma has_set_column c k f df :
  DF.has_column c (DF.set_column k f df)
  = DF.has_column c df || bool_decide (k = c).
Proof.
  unfold DF.set_column. cbn [DF.columns DF.has_column]. unfold DF.has_column.
  destruct (DF.inb k (DF.columns df)) eqn:E; [|apply inb_snoc].
  destruct (decide (k = c)) as [<-|Hne].
  - now rewrite E.
  - now rewrite bool_decide_eq_false_2, orb_false_r.
Qed.

Lemma desired_not_dropped c :
  In c desired_columns -> DF.inb c columns_to_drop = false.
Proof.
  intros H. destruct (DF.inb c columns_to_drop) eqn:E; [|reflexivity].
  apply inb_In in E. now destruct (dropped_not_desired c).
Qed.

(** Which desired labels the frame has before the final selection. *)
Lemma has_before_selection df c :
  In c desired_columns ->
  let df1 := DF.drop columns_to_drop df in
  let df2 :=
    if negb (DF.has_column (lit "post_link") df1)
       && DF.has_column (lit "weibo_id") df1
    then DF.set_column (lit "post_link")
           (fun r => VStr (lit "https://weibo.com/detail/"
                           ++ py_str (DF.cell (lit "weibo_id") r))) df1
    else df1 in
  let df3 :=
    if DF.has_column (lit "content") df2
    then DF.set_column (lit "content")
           (fun r => VStr (strip (collapse_spaces false
                                    (py_str (DF.cell (lit "content") r))))) df2
    else df2 in
  DF.has_column c df3
  = DF.has_column c df
    || (bool_decide (c = lit "post_link") && DF.has_column (lit "weibo_id") df).
Proof.
  intros Hc df1 df2 df3.
  assert (DF.has_column c df3 = DF.has_column c df2) as ->.
  { subst df3. destruct (DF.has_column (lit "content") df2) eqn:E; [|reflexivity].
    rewrite has_set_column. destruct (decide (lit "content" = c)) as [<-|Hne].
    - now rewrite E.
    - now rewrite bool_decide_eq_false_2, orb_false_r. }
  assert (forall x, In x desired_columns ->
                    DF.has_column x df1 = DF.has_column x df) as H1.
  { intros x Hx. subst df1.
    now rewrite has_drop, (desired_not_dropped x Hx), andb_true_r. }
  assert (In (lit "post_link") desired_columns) as Hpl
    by (vm_compute; tauto).
  assert (In (lit "weibo_id") desired_columns) as Hwid
    by (vm_compute; tauto).
  subst df2. rewrite (H1 _ Hpl), (H1 _ Hwid).
  destruct (decide (c = lit "post_link")) as [->|Hne].
  - rewrite bool_decide_eq_true_2 by reflexivity.
    destruct (DF.has_column (lit "post_link") df) eqn:E1,
             (DF.has_column (lit "weibo_id") df) eqn:E2; cbn [negb andb orb].
    + now rewrite (H1 _ Hpl).
    + now rewrite (H1 _ Hpl).
    + rewrite has_set_column. now rewrite bool_decide_eq_true_2, orb_true_r.
    + now rewrite (H1 _ Hpl).
  - rewrite bool_decide_eq_false_2 by assumption. cbn [andb]. rewrite orb_false_r.
    destruct (negb (DF.has_column (lit "post_link") df)
              && DF.has_column (lit "weibo_id") df).
    + rewrite has_set_column, (H1 _ Hc).
      rewrite bool_decide_eq_false_2 by congruence. now rewrite orb_false_r.
    + now apply H1.
Qed.

Lemma clean_columns_closed df :
  DF.columns (clean_and_reorder_dataframe df)
  = List.filter
      (fun c => DF.has_column c df
                || (bool_decide (c = lit "post_link")
                    && DF.has_column (lit "weibo_id") df))
      desired_columns.
Proof.
  unfold clean_and_reorder_dataframe, DF.select. cbn [DF.columns].
  apply filter_ext_in. intros c Hc. now apply has_before_selection.
Qed.

Lemma get_set_eq k v (r : dict) : Dict.get k (Dict.set k v r) = Some v.
Proof.
  induction r as [|[k' v'] r IH]; simpl.
  - now rewrite bool_decide_eq_true_2.
  - destruct (decide (k' = k)) as [->|Hne].
    + rewrite bool_decide_eq_true_2 by reflexivity. simpl.
      now rewrite bool_decide_eq_true_2.
    + rewrite bool_decide_eq_false_2 by assumption. simpl.
      now rewrite bool_decide_eq_false_2.
Qed.

Lemma cell_set c k v (r : dict) :
  DF.cell c (Dict.set k v r) = if bool_decide (k = c) then v else DF.cell c r.
Proof.
  destruct (decide (k = c)) as [<-|Hne].
  - rewrite bool_decide_eq_true_2 by reflexivity.
    unfold DF.cell, Dict.get_default. now rewrite get_set_eq.
  - rewrite bool_decide_eq_false_2 by assumption. now apply cell_set_ne.
Qed.

Lemma cell_in_dropped df c r :
  In c desired_columns -> DF.has_column c df = true ->
  DF.cell c (List.map (fun c' => (c', DF.cell c' r))
               (List.filter (fun c' => negb (DF.inb c' columns_to_drop))
                  (DF.columns df)))
  = DF.cell c r.
Proof.
  intros Hc Hhas. apply (cell_select c (fun c' => DF.cell c' r)).
  apply filter_In. split; [now apply inb_In|].
  now rewrite (desired_not_dropped c Hc).
Qed.

Lemma clean_rows_closed df :
  DF.rows (clean_and_reorder_dataframe df)
  = List.map
      (fun r => List.map (fun c => (c, clean_cell df c r))
                  (DF.columns (clean_and_reorder_dataframe df)))
      (DF.rows df).
Proof.
  assert (In (lit "post_link") desired_columns) as Hpl by (vm_compute; tauto).
  assert (In (lit "weibo_id") desired_columns) as Hwid by (vm_compute; tauto).
  assert (In (lit "content") desired_columns) as Hct by (vm_compute; tauto).
  assert (forall c, In c (DF.columns (clean_and_reorder_dataframe df)) ->
                    In c desired_columns
                    /\ DF.has_column c df
                       || (bool_decide (c = lit "post_link")
                           && DF.has_column (lit "weibo_id") df) = true) as Hin.
  { intros c. rewrite clean_columns_closed. apply filter_In. }
  revert Hin.
  unfold clean_and_reorder_dataframe. cbv zeta.
  rewrite !has_drop, (desired_not_dropped _ Hpl), (desired_not_dropped _ Hwid).
  cbn [negb]. rewrite !andb_true_r.
  set (cols := List.filter _ desired_columns).
  unfold DF.select at 1 2. cbn [DF.rows DF.columns]. intros Hin.
  destruct (DF.has_column (lit "post_link") df) eqn:E1; cbn [negb andb].
  - (* the frame has its own links *)
    assert (DF.has_column (lit "content") (DF.drop columns_to_drop df)
            = DF.has_column (lit "content") df) as ->
      by now rewrite has_drop, (desired_not_dropped _ Hct), andb_true_r.
    destruct (DF.has_column (lit "content") df) eqn:E3;
      unfold DF.set_column, DF.drop, DF.select; cbn [DF.rows DF.columns];
      rewrite ?List.map_map; apply List.map_ext; intros r;
      apply List.map_ext_in; intros c Hc;
      destruct (Hin c Hc) as [Hd Hh]; f_equal; unfold clean_cell.
    + rewrite cell_set. destruct (decide (lit "content" = c)) as [<-|Hne].
      * rewrite !bool_decide_eq_true_2 by reflexivity.
        now rewrite cell_in_dropped.
      * rewrite !(bool_decide_eq_false_2 (_ = _)) by congruence.
        destruct (decide (c = lit "post_link")) as [->|Hne'].
        -- rewrite E1. cbn [negb]. rewrite andb_false_r.
           now apply cell_in_dropped.
        -- rewrite bool_decide_eq_false_2 in Hh |- * by assumption.
           cbn [andb] in Hh |- *. rewrite orb_false_r in Hh.
           now apply cell_in_dropped.
    + destruct (decide (c = lit "content")) as [->|Hne];
        [rewrite E3 in Hh; vm_compute in Hh; discriminate|].
      rewrite (bool_decide_eq_false_2 (c = lit "content")) by assumption.
      destruct (decide (c = lit "post_link")) as [->|Hne'].
      * rewrite E1. cbn [negb]. rewrite andb_false_r.
        now apply cell_in_dropped.
      * rewrite bool_decide_eq_false_2 in Hh |- * by assumption.
        cbn [andb] in Hh |- *. rewrite orb_false_r in Hh.
        now apply cell_in_dropped.
  - destruct (DF.has_column (lit "weibo_id") df) eqn:E2.
    + (* the links are derived from the identifiers *)
      rewrite has_set_column, has_drop, (desired_not_dropped _ Hct), andb_true_r.
      rewrite (bool_decide_eq_false_2 (lit "post_link" = lit "content"))
        by discriminate.
      rewrite orb_false_r.
      destruct (DF.has_column (lit "content") df) eqn:E3;
        unfold DF.set_column, DF.drop, DF.select; cbn [DF.rows DF.columns];
        rewrite ?List.map_map; apply List.map_ext; intros r;
        apply List.map_ext_in; intros c Hc;
        destruct (Hin c Hc) as [Hd Hh]; f_equal; unfold clean_cell.
      * rewrite !cell_set.
        rewrite (bool_decide_eq_false_2 (lit "post_link" = lit "content"))
          by discriminate.
        destruct (decide (lit "content" = c)) as [<-|Hne].
        -- rewrite !bool_decide_eq_true_2 by reflexivity.
           now rewrite cell_in_dropped.
        -- rewrite !(bool_decide_eq_false_2 (_ = c)) by congruence.
           rewrite (bool_decide_eq_false_2 (c = lit "content")) by congruence.
           destruct (decide (c = lit "post_link")) as [->|Hne'].
           ++ rewrite !bool_decide_eq_true_2 by reflexivity. rewrite E1.
              cbn [negb andb]. now rewrite cell_in_dropped.
           ++ rewrite (bool_decide_eq_false_2 (lit "post_link" = c)) by congruence.
              rewrite bool_decide_eq_false_2 in Hh |- * by assumption.
              cbn [andb] in Hh |- *. rewrite orb_false_r in Hh.
              now apply cell_in_dropped.
      * rewrite cell_set.
        destruct (decide (c = lit "content")) as [->|Hne].
        { rewrite E3 in Hh. vm_compute in Hh. discriminate. }
        rewrite (bool_decide_eq_false_2 (c = lit "content")) by assumption.
        destruct (decide (c = lit "post_link")) as [->|Hne'].
        -- rewrite !bool_decide_eq_true_2 by reflexivity. rewrite E1.
           cbn [negb andb]. now rewrite cell_in_dropped.
        -- rewrite (bool_decide_eq_false_2 (lit "post_link" = c)) by congruence.
           rewrite bool_decide_eq_false_2 in Hh |- * by assumption.
           cbn [andb] in Hh |- *. rewrite orb_false_r in Hh.
           now apply cell_in_dropped.
    + (* no links and no identifiers *)
      assert (DF.has_column (lit "content") (DF.drop columns_to_drop df)
              = DF.has_column (lit "content") df) as ->
        by now rewrite has_drop, (desired_not_dropped _ Hct), andb_true_r.
      destruct (DF.has_column (lit "content") df) eqn:E3;
        unfold DF.set_column, DF.drop, DF.select; cbn [DF.rows DF.columns];
        rewrite ?List.map_map; apply List.map_ext; intros r;
        apply List.map_ext_in; intros c Hc;
        destruct (Hin c Hc) as [Hd Hh]; f_equal; unfold clean_cell;
        rewrite andb_false_r, orb_false_r in Hh.
      * rewrite cell_set. destruct (decide (lit "content" = c)) as [<-|Hne].
        -- rewrite !bool_decide_eq_true_2 by reflexivity.
           now rewrite cell_in_dropped.
        -- rewrite !(bool_decide_eq_false_2 (_ = _)) by congruence.
           destruct (decide (c = lit "post_link")) as [->|Hne']; [congruence|].
           rewrite ?bool_decide_eq_false_2 by assumption.
           now apply cell_in_dropped.
      * destruct (decide (c = lit "content")) as [->|Hne];
        [rewrite E3 in Hh; vm_compute in Hh; discriminate|].
        rewrite (bool_decide_eq_false_2 (c = lit "content")) by assumption.
        destruct (decide (c = lit "post_link")) as [->|Hne']; [congruence|].
        rewrite bool_decide_eq_false_2 by assumption.
        now apply cell_in_dropped.
Qed.

(** *** The normalised text of a content cell *)

Lemma collapse_spaced b (s : pystr) : spaced b (collapse_spaces b s) = true.
Proof.
  revert b. induction s as [|c s IH]; intros b; [reflexivity|].
  cbn [collapse_spaces]. destruct (isspace c) eqn:E.
  - destruct b; [apply IH|]. cbn [spaced].
    change (isspace 32) with true. cbn. apply IH.
  - cbn [spaced]. rewrite E. apply IH.
Qed.

Lemma lstrip_spaced b b' (s : pystr) : spaced b s = true -> spaced b' (lstrip s) = true.
Proof.
  revert b. induction s as [|c s IH]; intros b H; [reflexivity|].
  cbn [lstrip spaced] in *. destruct (isspace c) eqn:E.
  - apply andb_prop in H as [_ H]. exact (IH _ H).
  - cbn [spaced]. now rewrite E.
Qed.

Lemma spaced_prefix b (s t : pystr) : spaced b (s ++ t) = true -> spaced b s = true.
Proof.
  revert b. induction s as [|c s IH]; intros b H; [reflexivity|].
  cbn [app spaced] in *. destruct (isspace c).
  - apply andb_prop in H as [H1 H]. rewrite H1. exact (IH _ H).
  - exact (IH _ H).
Qed.

Lemma rstrip_spaced b (s : pystr) : spaced b s = true -> spaced b (rstrip s) = true.
Proof.
  intros H. destruct (ReadFacts.rstrip_prefix s) as [t E].
  rewrite E in H. exact (spaced_prefix _ _ _ H).
Qed.

Lemma normalised_text (s : pystr) :
  let t := strip (collapse_spaces false s) in
  strip t = t /\ spaced true t = true.
Proof.
  cbv zeta. split; [apply ReadFacts.strip_idempotent|].
  unfold strip. apply rstrip_spaced, (lstrip_spaced false), collapse_spaced.
Qed.

Lemma clean_row_inv df r :
  In r (DF.rows (clean_and_reorder_dataframe df)) ->
  exists r0, In r0 (DF.rows df)
             /\ forall c, In c (DF.columns (clean_and_reorder_dataframe df)) ->
                          DF.cell c r = clean_cell df c r0.
Proof.
  rewrite clean_rows_closed. intros H.
  apply in_map_iff in H as (r0 & <- & Hr0).
  exists r0. split; [exact Hr0|]. intros c Hc.
  now apply (cell_select c (fun c' => clean_cell df c' r0)).
Qed.

End CleanFacts.

(** X7.  The columns of the cleaned frame are the desired columns that
    the input frame has, in the desired order, together with [post_link]
    when the input has a [weibo_id] column. *)
Theorem clean_columns (df : DF.DataFrame) :
  DF.columns (clean_and_reorder_dataframe df)
  = List.filter
      (fun c => DF.has_column c df
                || (bool_decide (c = lit "post_link")
                    && DF.has_column (lit "weibo_id") df))
      desired_columns.
Proof. apply CleanFacts.clean_columns_closed. Qed.

(** X8.  The cleaned frame has one row for each row of the input, in the
    same order, and each cell is a function of that row alone: the content
    with its white space normalised, the link derived from the identifier
    when the input has no link column, and the input's own cell in every
    other column. *)
Theorem clean_cells (df : DF.DataFrame) :
  DF.rows (clean_and_reorder_dataframe df)
  = List.map
      (fun r => List.map (fun c => (c, clean_cell df c r))
                  (DF.columns (clean_and_reorder_dataframe df)))
      (DF.rows df).
Proof. apply CleanFacts.clean_rows_closed. Qed.

(** X9.  When the input has a content column, every content cell of the
    cleaned frame is a text with no white space at either end in which
    every run of white space has become one blank. *)
Theorem clean_content_normalized (df : DF.DataFrame) (r : list (list Z * pyval)) :
  DF.has_column (lit "content") df = true ->
  In r (DF.rows (clean_and_reorder_dataframe df)) ->
  exists t, DF.cell (lit "content") r = VStr t
            /\ strip t = t /\ spaced true t = true.
Proof.
  intros Hhas Hr.
  destruct (CleanFacts.clean_row_inv df r Hr) as (r0 & _ & Hcell).
  rewrite Hcell.
  - unfold clean_cell. rewrite bool_decide_eq_true_2 by reflexivity.
    eexists. split; [reflexivity|]. apply CleanFacts.normalised_text.
  - rewrite CleanFacts.clean_columns_closed. apply filter_In.
    split; [vm_compute; tauto|]. now rewrite Hhas.
Qed.

Lemma clean_content_normalized_witness :
  exists t,
    DF.cell (lit "content")
      [(lit "content", VStr (lit "a b"))] = VStr t
    /\ strip t = t /\ spaced true t = true.
Proof.
  apply (clean_content_normalized
           (DF.of_records (fun column => column)
              [[(lit "content", VStr (lit "  a   b "))]]));
    [reflexivity | left; reflexivity].
Defined.

(** ** The tail of [main] and its set-up *)

Module TailFacts.
Section Tail.
Context {World : Type} (ext : Externals World).
Implicit Types s : @state World.

Lemma add_keys_inv c (ks acc : list (list Z)) :
  In c (fold_left (fun acc k => if DF.inb k acc then acc else acc ++ [k]) ks acc) ->
  In c acc \/ In c ks.
Proof.
  revert acc. induction ks as [|k ks IH]; intros acc H; simpl in *; [now left|].
  apply IH in H as [H|H]; [|tauto].
  destruct (DF.inb k acc); [tauto|].
  apply in_app_or in H as [H|[<-|[]]]; tauto.
Qed.

Lemma union_keys_inv c (recs : list (list (list Z * pyval))) seen :
  In c (DF.union_keys seen recs) ->
  In c seen \/ exists r, In r recs /\ In c (Dict.keys r).
Proof.
  revert seen. induction recs as [|r recs IH]; intros seen H; simpl in *; [now left|].
  apply IH in H as [H|(r' & Hr' & Hk)].
  - apply add_keys_inv in H as [H|H]; [now left|]. right. exists r. tauto.
  - right. exists r'. tauto.
Qed.

Lemma get_none_keys c (r : list (list Z * pyval)) :
  Dict.get c r = None -> ~ In c (Dict.keys r).
Proof.
  induction r as [|[k v] r IH]; simpl; [tauto|].
  destruct (decide (k = c)) as [->|Hne].
  - now rewrite bool_decide_eq_true_2.
  - rewrite bool_decide_eq_false_2 by assumption. intros H [E|Hin]; [congruence|].
    now apply IH.
Qed.

(** A key that no record has is not a column of the frame of the records,
    nor, unless it is the link, of the cleaned frame. *)
Lemma no_key_no_column convert c (recs : list (list (list Z * pyval))) :
  Forall (fun r => Dict.get c r = None) recs ->
  DF.has_column c (DF.of_records convert recs) = false.
Proof.
  intros H.
  destruct (DF.has_column c (DF.of_records convert recs)) eqn:E; [|reflexivity].
  apply FrameFacts.inb_In in E. unfold DF.of_records in E.
  cbn [DF.columns] in E.
  apply union_keys_inv in E as [[]|(r & Hr & Hk)].
  rewrite Forall_forall in H. apply list_elem_of_In in Hr.
  now destruct (get_none_keys c r (H r Hr)).
Qed.

Lemma clean_no_column c df :
  c <> lit "post_link" -> DF.has_column c df = false ->
  DF.has_column c (clean_and_reorder_dataframe df) = false.
Proof.
  intros Hne H. unfold DF.has_column at 1.
  rewrite CleanFacts.clean_columns_closed, CleanFacts.inb_filter.
  fold (DF.has_column c df). rewrite H, bool_decide_eq_false_2 by assumption.
  apply andb_false_r.
Qed.

Lemma save_all_never_raises (all_results : list (list (list Z * pyval))) now :
  never_raises (save_all ext all_results now).
Proof.
  intros s. unfold save_all. destruct all_results as [|r rs].
  - unfold log, emit. eauto.
  - unfold try_catch at 1.
    match goal with
    | |- context [mbind ?k ?m s] => destruct (mbind k m s) as [[[]|e] s1]
    end.
    + eauto.
    + unfold log, emit. eauto.
Qed.

Lemma save_all_adds (all_results : list (list (list Z * pyval))) now :
  adds (tail_event now) (save_all ext all_results now).
Proof.
  unfold save_all. destruct all_results as [|r rs]; [adds_step|].
  adds_step; [|adds_step]. cbv zeta.
  adds_step; [adds_step|].
  adds_step; [apply RunFacts.adds_call; reflexivity|].
  repeat adds_step.
Qed.



End Tail.
End TailFacts.

(** X10.  The tail of [main] returns whatever happens while the
    aggregated table is built, written and shown; it adds nothing to the
    trace but log lines, the call of the gallery and a write of the table
    at [results/all_results_<now>.csv]. *)
Theorem save_all_contained {World : Type} (ext : Externals World)
    (all_results : list (list (list Z * pyval))) (now : list Z) :
  never_raises (save_all ext all_results now)
  /\ adds (tail_event now) (save_all ext all_results now).
Proof.
  split; [apply TailFacts.save_all_never_raises | apply TailFacts.save_all_adds].
Qed.

(** X11.  When no collected record has an [attitudes_count], sorting the
    cleaned frame raises [KeyError]: the tail of [main] logs one error and
    writes no table. *)
Theorem save_all_without_attitudes {World : Type} (ext : Externals World)
    (all_results : list (list (list Z * pyval))) (now : list Z)
    (s : @state World) :
  all_results <> [] ->
  Forall (fun r => Dict.get (lit "attitudes_count") r = None) all_results ->
  save_all ext all_results now s = (Ok tt, record s [ELog ERROR]).
Proof.
  intros Hne Hnone. unfold save_all.
  destruct all_results as [|r rs]; [contradiction|].
  unfold try_catch at 1. cbv zeta. rewrite RunFacts.run_bind. unfold lift at 1.
  unfold DF.sort_values.
  rewrite TailFacts.clean_no_column;
    [reflexivity | discriminate | now apply TailFacts.no_key_no_column].
Qed.

Lemma save_all_without_attitudes_witness :
  save_all (sample_ext [] None) [[(lit "weibo_id", VInt 7)]] (lit "t") fresh_state
  = (Ok tt, record fresh_state [ELog ERROR]).
Proof.
  apply save_all_without_attitudes; [discriminate | repeat constructor].
Defined.





(** ** The configuration file *)

Module ConfigFacts.

(** On a document that is not an object the loop over the defaults cannot
    store a key: it ends well only if it finds every key. *)
Lemma fill_defaults_other (items : list (list Z * pyval)) (j : json) :
  (forall m, j <> JDict m) ->
  fill_defaults items j
  = if forallb (names_key j) items then Ok j else Raise TypeError.
Proof.
  intros Hj. induction items as [|[key value] items IH]; [reflexivity|].
  cbn [fill_defaults forallb]. unfold names_key at 1. cbn [fst].
  destruct j as [m|l|v]; [now destruct (Hj m)| |].
  - cbn [json_contains]. rewrite TimeFacts.bind_ok.
    destruct (existsb _ l); [now rewrite TimeFacts.bind_ok|reflexivity].
  - destruct v as [| | | |t]; try reflexivity.
    cbn [json_contains]. rewrite TimeFacts.bind_ok.
    destruct (contains key t); [now rewrite TimeFacts.bind_ok|reflexivity].
Qed.

Lemma defaults_absorbed (m : gmap (list Z) pyval) :
  (forall k, is_Some (default_config !! k) -> is_Some (m !! k)) ->
  m ∪ default_config = m.
Proof.
  intros H. apply map_eq. intros k. rewrite lookup_union.
  destruct (m !! k) as [v|] eqn:E.
  - now destruct (default_config !! k).
  - destruct (default_config !! k) as [d|] eqn:Ed; [|reflexivity].
    destruct (H k) as [v Hv]; [eauto | congruence].
Qed.

Lemma load_config_object {World : Type} (s : @state World)
    (m : gmap (list Z) pyval) :
  config_json (files s) = Document (JDict m) ->
  load_config s = (Ok (JDict (m ∪ default_config)), s).
Proof.
  destruct s as [w [cf wr] tr]. cbn [files config_json]. intros ->.
  unfold load_config, try_catch, mbind, M_bind, bind, lift.
  cbn beta iota. cbn [files config_json].
  change default_config with (list_to_map default_items : gmap _ _).
  now rewrite fill_defaults_dict.
Qed.

End ConfigFacts.

(** X14.  When the configuration file holds a JSON document that is not
    an object, [load_config] returns the defaults and logs an error,
    unless the document is an array or a text in which every recognised
    key name occurs: that document is returned as it is.  The file is left
    unchanged. *)
Theorem load_config_non_object {World : Type} (s : @state World) (j : json) :
  config_json (files s) = Document j ->
  (forall m, j <> JDict m) ->
  load_config s
  = if names_every_key j then (Ok j, s)
    else (Ok (JDict default_config), record s [ELog ERROR]).
Proof.
  intros Hfile Hj. destruct s as [w [cf wr] tr].
  cbn [files config_json] in Hfile. subst cf.
  unfold load_config, try_catch, mbind, M_bind, bind, lift.
  cbn beta iota. cbn [files config_json].
  rewrite (ConfigFacts.fill_defaults_other _ _ Hj).
  fold (names_every_key j). now destruct (names_every_key j).
Qed.

Lemma load_config_non_object_witness :
  load_config (disk_with (Document (JList [VStr (lit "cookie")])))
  = (Ok (JDict default_config),
     record (disk_with (Document (JList [VStr (lit "cookie")]))) [ELog ERROR]).
Proof.
  exact (load_config_non_object
           (disk_with (Document (JList [VStr (lit "cookie")])))
           (JList [VStr (lit "cookie")]) eq_refl ltac:(discriminate)).
Defined.

(** X15.  Saving a configuration and loading it again: on a writable
    disk [load_config] after [save_config] returns the saved object with
    the missing keys filled from the defaults, hence the saved object
    itself when it has every recognised key, and nothing is logged; when
    the file cannot be opened for writing [save_config] logs an error,
    returns and leaves the disk as it was. *)
Theorem save_then_load {World : Type} (s : @state World)
    (m : gmap (list Z) pyval) :
  (writable (files s) = true ->
   exists s1,
     save_config (JDict m) s = (Ok tt, s1)
     /\ trace s1 = trace s
     /\ load_config s1 = (Ok (JDict (m ∪ default_config)), s1)
     /\ ((forall k, is_Some (default_config !! k) -> is_Some (m !! k)) ->
         load_config s1 = (Ok (JDict m), s1)))
  /\ (writable (files s) = false ->
      save_config (JDict m) s = (Ok tt, record s [ELog ERROR])).
Proof.
  destruct s as [w [cf wr] tr]. cbn [files writable].
  unfold save_config, try_catch, write_config. cbn [files writable world trace].
  split; intros ->; [|reflexivity].
  eexists. split; [reflexivity|]. split; [reflexivity|].
  split; [now apply ConfigFacts.load_config_object|].
  intros Hall. rewrite (ConfigFacts.load_config_object _ m) by reflexivity.
  now rewrite (ConfigFacts.defaults_absorbed m Hall).
Qed.

Lemma save_then_load_witness :
  exists s1,
    save_config (JDict default_config) (disk_with Malformed) = (Ok tt, s1)
    /\ trace s1 = trace (disk_with Malformed)
    /\ load_config s1 = (Ok (JDict (default_config ∪ default_config)), s1)
    /\ ((forall k, is_Some (default_config !! k) -> is_Some (default_config !! k)) ->
        load_config s1 = (Ok (JDict default_config), s1)).
Proof.
  exact (proj1 (save_then_load (disk_with Malformed) default_config) eq_refl).
Defined.

(** ** The single-keyword unit *)

Module UnitFacts.
Section Unit.
Context {World : Type} (ext : Externals World).
Implicit Types s : @state World.

Lemma yields_bind {A B : Type} (m : @M World A) (k : A -> @M World (option B)) :
  (forall a, yields_nothing (k a)) -> yields_nothing (m ≫= k).
Proof.
  intros Hk s r s'. rewrite RunFacts.run_bind.
  destruct (m s) as [[a|e] s1].
  - apply Hk.
  - intros [= <- <-]. right. eauto.
Qed.

Lemma yields_ret_none {B : Type} : yields_nothing (ret None : @M World (option B)).
Proof. intros s r s' [= <- <-]. now left. Qed.

Lemma yields_raise_bind {A B : Type} e (k : A -> @M World (option B)) :
  yields_nothing (lift (Raise e) ≫= k).
Proof. intros s r s' [= <- <-]. right. eauto. Qed.

Lemma adds_raise_bind {A B : Type} P e (k : A -> @M World B) :
  adds P (lift (Raise e) ≫= k).
Proof. intros s r s' [= <- <-]. exists []. now rewrite app_nil_r. Qed.

(** The cleaned frame has no [likes] column. *)
Lemma sort_by_likes sorter ascending df :
  DF.sort_values sorter (lit "likes") ascending (clean_and_reorder_dataframe df)
  = Raise KeyError.
Proof.
  unfold DF.sort_values.
  destruct (DF.has_column (lit "likes") (clean_and_reorder_dataframe df)) eqn:E;
    [|reflexivity].
  apply FrameFacts.inb_In, FrameFacts.clean_columns_desired in E.
  vm_compute in E. intuition discriminate.
Qed.

Lemma process_keyword_try_yields keyword config now keyword_to_type :
  yields_nothing (process_keyword_try ext keyword config now keyword_to_type).
Proof.
  unfold process_keyword_try. cbv zeta.
  repeat lazymatch goal with
         | |- yields_nothing (mbind _ (lift (DF.sort_values _ _ _ _))) =>
             rewrite sort_by_likes; apply yields_raise_bind
         | |- yields_nothing (mbind _ _) => apply yields_bind; intros ?
         | |- yields_nothing (ret None) => apply yields_ret_none
         | |- yields_nothing (match ?x with _ => _ end) => destruct x
         end.
Qed.

Lemma process_keyword_no_write keyword config now keyword_to_type :
  adds no_write (process_keyword ext keyword config now keyword_to_type).
Proof.
  unfold process_keyword.
  apply RunFacts.adds_try_catch; [|intros e; repeat adds_step].
  unfold process_keyword_try, add_image_data_to_weibos, download_filtered_media.
  cbv zeta.
  repeat first
    [ lazymatch goal with
      | |- adds _ (mbind _ (lift (DF.sort_values _ _ _ _))) =>
          rewrite sort_by_likes; apply adds_raise_bind
      end
    | apply ScorerFacts.image_to_base64_adds; exact I
    | apply ScorerFacts.record_getitem_adds
    | adds_step ].
Qed.

End Unit.
End UnitFacts.

(** X16.  [process_keyword] returns [None] on every input and writes no
    file: whenever it gets as far as its table, sorting the cleaned frame
    by [likes] raises [KeyError], since the cleaning keeps no column of
    that name, and the handler turns the exception into [None]. *)
Theorem process_keyword_never_succeeds {World : Type} (ext : Externals World)
    (keyword now : list Z) (config : gmap (list Z) pyval)
    (keyword_to_type : gmap (list Z) (list Z)) (s : @state World) :
  exists s' evs,
    process_keyword ext keyword config now keyword_to_type s = (Ok None, s')
    /\ trace s' = trace s ++ evs
    /\ Forall no_write evs.
Proof.
  pose proof (UnitFacts.process_keyword_no_write ext keyword config now
                keyword_to_type s) as Hadds.
  pose proof (UnitFacts.process_keyword_try_yields ext keyword config now
                keyword_to_type s) as Hy.
  unfold process_keyword, try_catch in *.
  destruct (process_keyword_try ext keyword config now keyword_to_type s)
    as [[r|e] s1].
  - destruct (Hy _ _ eq_refl) as [->|[e [=]]].
    destruct (Hadds _ _ eq_refl) as (evs & Ht & Hf). eauto.
  - rewrite RunFacts.bind_log in *. unfold ret in *.
    destruct (Hadds _ _ eq_refl) as (evs & Ht & Hf). eauto.
Qed.

(** ** The records collected by [main] *)

Module TagFacts.
Section Tag.
Context {World : Type} (ext : Externals World).
Implicit Types s : @state World.

Lemma for_each_invariant {A S : Type} (I : S -> Prop) (xs : list A)
    (body : A -> S -> @M World S) acc s r s' :
  (forall x a s r s', In x xs -> I a -> body x a s = (Ok r, s') -> I r) ->
  I acc -> for_each xs body acc s = (Ok r, s') -> I r.
Proof.
  revert acc s. induction xs as [|x xs IH]; intros acc s Hb Hacc.
  - now intros [= <- <-].
  - cbn [for_each]. rewrite RunFacts.run_bind.
    destruct (body x acc s) as [[a|e] s1] eqn:E; [|discriminate].
    apply IH.
    + intros x' a' s0 r0 s0' Hin. apply Hb. now right.
    + apply (Hb x acc s a s1); [now left | assumption | assumption].
Qed.

(** A unit returns the collection as it was, or with its tagged records
    added at the end. *)
Lemma collect_unit_result config user_url user_id keyword acc s r s' :
  collect_unit ext config user_url user_id keyword acc s = (Ok r, s') ->
  r = acc \/ exists results, r = acc ++ tagged user_id keyword results.
Proof.
  unfold collect_unit. rewrite RunFacts.bind_log. unfold try_catch.
  rewrite RunFacts.run_bind. unfold lift at 1.
  destruct (json_getitem (lit "download_media") config) as [dm|e].
  - rewrite RunFacts.run_bind. unfold call at 1.
    destruct (search_user ext user_url keyword 1 dm _) as [[[|r0 rs]|e] w].
    + rewrite RunFacts.bind_log. unfold ret. intros [= <- <-]. now left.
    + rewrite RunFacts.bind_log. unfold ret. intros [= <- <-]. right.
      now exists (r0 :: rs).
    + rewrite RunFacts.bind_log. unfold ret. intros [= <- <-]. now left.
  - rewrite RunFacts.bind_log. unfold ret. intros [= <- <-]. now left.
Qed.

Lemma enumerate_in {A : Type} (us : list A) (a i : nat) (u : A) :
  In (i, u) (combine (seq a (length us)) us) ->
  exists j, i = (a + j)%nat /\ nth_error us j = Some u.
Proof.
  revert a. induction us as [|u0 us IH]; intros a H; [contradiction|].
  cbn [length seq combine] in H. destruct H as [[= <- <-]|H].
  - exists 0%nat. split; [lia | reflexivity].
  - destruct (IH _ H) as (j & -> & Hj). exists (S j). split; [lia | exact Hj].
Qed.

Lemma fallback_id_nonempty (i : Z) : lit "user_" ++ str_of_int i <> [].
Proof. change (lit "user_") with (117 :: lit "ser_"). discriminate. Qed.

End Tag.
End TagFacts.

(** X17.  Whenever the loops of [main] return, every record of the
    collection carries, under [keyword], a keyword of the list and, under
    [user_id], the id of a user of the list: the id that the fetcher
    extracted from the user's URL or, when it extracted none or an empty
    one, [user_<n>] for the [n]-th user.  Whatever the fetcher returned
    under these two keys is overwritten. *)
Theorem collected_records_tagged {World : Type} (ext : Externals World)
    (config : json) (user_urls keywords : list (list Z)) (s s' : @state World)
    (all_results : list (list (list Z * pyval))) :
  collect_all ext config user_urls keywords s = (Ok all_results, s') ->
  Forall (tagged_for ext user_urls keywords) all_results.
Proof.
  intros E. unfold collect_all in E.
  apply (TagFacts.for_each_invariant
           (Forall (tagged_for ext user_urls keywords)) _ _ _ _ _ _)
    in E; [exact E| |constructor].
  intros [i u] acc s0 r s0' Hin Hacc.
  rewrite RunFacts.bind_log, RunFacts.run_bind. unfold silent at 1.
  cbn [record world files trace].
  destruct (extract_user_id ext u (world s0)) as [[o|e] w1] eqn:Ex;
    [|discriminate].
  apply TagFacts.enumerate_in in Hin as (j & -> & Hj).
  apply TagFacts.for_each_invariant; [|exact Hacc].
  intros k a s1 r1 s1' Hk Ha Hrun.
  apply TagFacts.collect_unit_result in Hrun as [->|[results ->]]; [exact Ha|].
  apply Forall_app. split; [exact Ha|].
  unfold tagged. apply Forall_map, Forall_forall. intros result _.
  eexists k, j, u, _, (world s0). split; [exact Hk|]. split; [exact Hj|].
  split; [apply CleanFacts.get_set_eq|].
  split; [rewrite SortFacts.get_set_ne by discriminate;
          apply CleanFacts.get_set_eq|].
  rewrite Ex. cbn [fst]. change (1 + j)%nat with (S j).
  destruct o as [[|c uid]|];
    (split; [first [discriminate | apply TagFacts.fallback_id_nonempty]
            | reflexivity]).
Qed.

Lemma collected_records_tagged_witness :
  Forall (tagged_for
            (with_extract_user_id
               (fun u w => (Ok (if bool_decide (u = lit "u1")
                                then Some (lit "1001") else None), w))
               (sample_ext [sample_post 1 2] None))
            [lit "u1"; lit "u2"] [lit "k"])
    (tagged (lit "1001") (lit "k") [sample_post 1 2]
     ++ tagged (lit "user_2") (lit "k") [sample_post 1 2]).
Proof.
  apply (collected_records_tagged
           (with_extract_user_id
              (fun u w => (Ok (if bool_decide (u = lit "u1")
                               then Some (lit "1001") else None), w))
              (sample_ext [sample_post 1 2] None))
           (JDict sample_config) [lit "u1"; lit "u2"] [lit "k"]
           fresh_state
           (snd (collect_all
                   (with_extract_user_id
                      (fun u w => (Ok (if bool_decide (u = lit "u1")
                                       then Some (lit "1001") else None), w))
                      (sample_ext [sample_post 1 2] None))
                   (JDict sample_config) [lit "u1"; lit "u2"] [lit "k"]
                   fresh_state))).
  vm_compute. reflexivity.
Defined.

(** ** Media of the retained posts *)

Module MediaFacts.
Section Media.
Context {World : Type} (ext : Externals World).
Implicit Types s : @state World.

Lemma download_adds (filtered_weibos : list (list (list Z * pyval))) keyword :
  adds (download_event keyword)
    (download_filtered_media ext filtered_weibos keyword).
Proof.
  unfold download_filtered_media.
  apply RunFacts.adds_for_each. intros weibo [done cnt]. cbv beta iota.
  destruct (truthy _); [|apply RunFacts.adds_ret].
  destruct (Dict.get_default (lit "image_urls") (VStr []) weibo);
    try apply RunFacts.adds_raise.
  apply RunFacts.adds_bind; [|intros [paths c]; apply RunFacts.adds_ret].
  apply RunFacts.adds_for_each. intros url [paths c]. cbv beta iota.
  case_bool_decide as Hurl; [apply RunFacts.adds_ret|].
  apply RunFacts.adds_bind; [apply ScorerFacts.record_getitem_adds|intros wid].
  apply RunFacts.adds_bind;
    [apply RunFacts.adds_call; split; [exact Hurl | reflexivity]|intros lp].
  apply RunFacts.adds_bind; [apply RunFacts.adds_emit; exact I|intros _].
  apply RunFacts.adds_ret.
Qed.

(** The loop over the URLs of one post, under a downloader whose answer
    is a function of the URL and the post's identifier. *)
Lemma download_urls_run fetch keyword (weibo : list (list Z * pyval)) wid
    (urls : list (list Z)) paths cnt s :
  (forall url w,
     fst (download_media ext url keyword wid w) = Ok (fetch url wid)) ->
  Dict.get (lit "weibo_id") weibo = Some wid ->
  exists s',
    for_each urls
      (fun url '(image_paths, downloaded_count) =>
         if bool_decide (url = []) then
           ret (image_paths, downloaded_count)
         else
           weibo_id ← record_getitem (lit "weibo_id") weibo;
           local_path ← call (EDownload url keyword weibo_id)
                          (download_media ext url keyword weibo_id);
           let r :=
             match local_path with
             | Some p =>
                 if bool_decide (p = [])
                 then (image_paths, downloaded_count)
                 else (image_paths ++ [p], downloaded_count + 1)
             | None => (image_paths, downloaded_count)
             end in
           _ ← emit ESleep;
           ret r)
      (paths, cnt) s
    = (Ok (paths
           ++ flat_map
                (fun url => match fetch url wid with
                            | Some path =>
                                if bool_decide (path = []) then [] else [path]
                            | None => []
                            end)
                (List.filter (fun url => negb (bool_decide (url = []))) urls),
           cnt
           + Z.of_nat
               (length
                  (flat_map
                     (fun url => match fetch url wid with
                                 | Some path =>
                                     if bool_decide (path = []) then [] else [path]
                                 | None => []
                                 end)
                     (List.filter (fun url => negb (bool_decide (url = [])))
                        urls)))),
       s')
    /\ files s' = files s
    /\ trace s'
       = trace s
         ++ flat_map (fun url => [EDownload url keyword wid; ESleep])
              (List.filter (fun url => negb (bool_decide (url = []))) urls).
Proof.
  intros Hfetch Hwid.
  assert (forall (B : Type) (k : pyval -> M B) s0,
            (record_getitem (lit "weibo_id") weibo ≫= k) s0 = k wid s0)
    as Hget.
  { intros B k s0. rewrite RunFacts.run_bind. unfold record_getitem.
    now rewrite Hwid. }
  revert paths cnt s.
  induction urls as [|url urls IH]; intros paths cnt s.
  - exists s. cbn. rewrite !app_nil_r, Z.add_0_r. auto.
  - cbn [for_each List.filter]. rewrite RunFacts.run_bind.
    case_bool_decide as Hurl; cbn [negb].
    + unfold ret at 1. apply IH.
    + rewrite Hget. rewrite RunFacts.run_bind. unfold call at 1.
      pose proof (Hfetch url (world s)) as Hf.
      destruct (download_media ext url keyword wid (world s)) as [r w1].
      cbn [fst] in Hf. subst r.
      rewrite RunFacts.bind_emit. unfold ret at 1.
      cbn [flat_map]. 
      match goal with
      | |- context [for_each urls _ ?acc ?s1] =>
          destruct acc as [paths1 cnt1] eqn:Eacc;
          destruct (IH paths1 cnt1 s1) as (s' & E & Hfiles & Htrace)
      end.
      exists s'. cbn [record files trace] in *.
      split; [|split; [exact Hfiles|]].
      * etransitivity; [exact E|].
        destruct (fetch url wid) as [path|]; [case_bool_decide|];
          injection Eacc as <- <-; cbn [app length];
          f_equal; f_equal; apply f_equal2;
          first [now rewrite <- ?app_assoc | lia].
      * rewrite Htrace, <- !app_assoc. reflexivity.
Qed.

(** Without a non-empty URL the loop does nothing. *)
Lemma download_urls_idle keyword (weibo : list (list Z * pyval))
    (urls : list (list Z)) (acc : list (list Z) * Z) s :
  List.filter (fun url => negb (bool_decide (url = []))) urls = [] ->
  for_each urls
    (fun url '(image_paths, downloaded_count) =>
       if bool_decide (url = []) then
         ret (image_paths, downloaded_count)
       else
         weibo_id ← record_getitem (lit "weibo_id") weibo;
         local_path ← call (EDownload url keyword weibo_id)
                        (download_media ext url keyword weibo_id);
         let r :=
           match local_path with
           | Some p =>
               if bool_decide (p = [])
               then (image_paths, downloaded_count)
               else (image_paths ++ [p], downloaded_count + 1)
           | None => (image_paths, downloaded_count)
           end in
         _ ← emit ESleep;
         ret r)
    acc s
  = (Ok acc, s).
Proof.
  induction urls as [|url urls IH]; intros H; [reflexivity|].
  cbn [for_each List.filter] in *. rewrite RunFacts.run_bind.
  destruct acc as [paths cnt].
  case_bool_decide as Hurl; cbn [negb] in H; [|discriminate].
  unfold ret at 1. now apply IH.
Qed.

Lemma download_run fetch keyword (weibos : list (list (list Z * pyval))) :
  Forall downloadable weibos ->
  (forall url wid w,
     fst (download_media ext url keyword wid w) = Ok (fetch url wid)) ->
  forall done cnt s,
  exists s',
    for_each weibos
      (fun weibo '(done, downloaded_count) =>
         if truthy (Dict.get_default (lit "has_images") (VBool false) weibo) then
           match Dict.get_default (lit "image_urls") (VStr []) weibo with
           | VStr urls =>
               '(image_paths, downloaded_count) ←
                 for_each (split 124 urls)
                   (fun url '(image_paths, downloaded_count) =>
                      if bool_decide (url = []) then
                        ret (image_paths, downloaded_count)
                      else
                        weibo_id ← record_getitem (lit "weibo_id") weibo;
                        local_path ← call (EDownload url keyword weibo_id)
                                       (download_media ext url keyword weibo_id);
                        let r :=
                          match local_path with
                          | Some p =>
                              if bool_decide (p = [])
                              then (image_paths, downloaded_count)
                              else (image_paths ++ [p], downloaded_count + 1)
                          | None => (image_paths, downloaded_count)
                          end in
                        _ ← emit ESleep;
                        ret r)
                   ([], downloaded_count);
               ret (done ++ [Dict.set (lit "image_paths")
                               (VStr (join [124] image_paths)) weibo],
                    downloaded_count)
           | _ => raise AttributeError
           end
         else ret (done ++ [weibo], downloaded_count))
      (done, cnt) s
    = (Ok (done ++ List.map (with_paths fetch) weibos,
           cnt + Z.of_nat (length (flat_map (counted_paths fetch) weibos))), s')
    /\ files s' = files s
    /\ trace s' = trace s ++ flat_map (download_calls keyword) weibos.
Proof.
  intros Hall Hfetch.
  induction Hall as [|weibo weibos Hw _ IH]; intros done cnt s.
  - exists s. cbn. rewrite !app_nil_r, Z.add_0_r. auto.
  - cbn [for_each List.map flat_map]. rewrite RunFacts.run_bind.
    unfold with_paths at 1, counted_paths at 1, download_calls at 1.
    unfold downloadable in Hw. unfold wants_images in *.
    destruct (truthy (Dict.get_default (lit "has_images") (VBool false) weibo)).
    + destruct (Hw eq_refl) as ([urls Hurls] & Hid).
      unfold downloaded_paths. unfold image_urls_of in *. rewrite Hurls in *.
      rewrite RunFacts.run_bind.
      destruct (Dict.get (lit "weibo_id") weibo) as [wid|] eqn:Hwid.
      * destruct (download_urls_run fetch keyword weibo wid (split 124 urls)
                    [] cnt s (fun url w => Hfetch url wid w) Hwid)
          as (s1 & E1 & Hf1 & Ht1).
        match goal with
        | |- context [for_each (split 124 urls) ?body ?acc s] =>
            destruct (for_each (split 124 urls) body acc s) as [r0 s0] eqn:E0
        end.
        injection E1 as -> ->. clear E0.
        cbn [app]. unfold ret at 1.
        assert (Dict.get_default (lit "weibo_id") VNone weibo = wid) as ->
          by (unfold Dict.get_default; now rewrite Hwid).
        match goal with
        | |- context [for_each weibos _ (?d, ?c) s1] =>
            destruct (IH d c s1) as (s' & E & Hf & Ht)
        end.
        exists s'. split; [|split].
        -- etransitivity; [exact E|]. rewrite <- app_assoc, length_app.
           cbn [app]. f_equal; f_equal; apply f_equal2; [reflexivity | lia].
        -- now rewrite Hf.
        -- rewrite Ht, Ht1, <- app_assoc. reflexivity.
      * assert (List.filter (fun url => negb (bool_decide (url = [])))
                  (split 124 urls) = []) as Hnone.
        { destruct (List.filter _ (split 124 urls)) eqn:E; [reflexivity|].
          destruct Hid as [wid' Hwid']; [discriminate | discriminate]. }
        pose proof (download_urls_idle keyword weibo (split 124 urls)
                      ([], cnt) s Hnone) as E1.
        match goal with
        | |- context [for_each (split 124 urls) ?body ?acc s] =>
            destruct (for_each (split 124 urls) body acc s) as [r0 s0] eqn:E0
        end.
        injection E1 as -> ->. clear E0.
        rewrite Hnone. cbn [flat_map app length]. unfold ret at 1.
        match goal with
        | |- context [for_each weibos _ (?d, ?c) s] =>
            destruct (IH d c s) as (s' & E & Hf & Ht)
        end.
        exists s'. split; [|split; assumption].
        etransitivity; [exact E|]. rewrite <- app_assoc. reflexivity.
    + unfold ret at 1.
      match goal with
      | |- context [for_each weibos _ (?d, ?c) s] =>
          destruct (IH d c s) as (s' & E & Hf & Ht)
      end.
      exists s'. split; [|split; assumption].
      etransitivity; [exact E|]. rewrite <- app_assoc. reflexivity.
Qed.

(** [image_to_base64] by cases: no file, a file that the encoder accepts,
    a file on which it raises. *)
Lemma image_to_base64_run path s :
  image_to_base64 ext path s
  = if path_exists ext path (world s) then
      match encode_jpeg ext path (world s) with
      | Ok b64 => (Ok (lit "data:image/jpeg;base64," ++ b64), s)
      | Raise _ => (Ok [], record s [ELog WARNING])
      end
    else (Ok [], s).
Proof.
  unfold image_to_base64, try_catch. rewrite RunFacts.run_bind. unfold read at 1.
  destruct (path_exists ext path (world s)); [|reflexivity].
  rewrite RunFacts.run_bind.
  destruct (encode_jpeg ext path (world s)) as [b64|e]; [reflexivity|].
  now rewrite RunFacts.bind_log.
Qed.

Lemma data_uri_nonempty (b64 : list Z) :
  lit "data:image/jpeg;base64," ++ b64 <> [].
Proof.
  change (lit "data:image/jpeg;base64,") with (100 :: lit "ata:image/jpeg;base64,").
  discriminate.
Qed.

Lemma encode_paths_run (paths : list (list Z)) (acc : list (list Z)) s :
  exists evs,
    for_each paths
      (fun path acc =>
         e ← read (path_exists ext path);
         if negb (bool_decide (path = [])) && (e : bool) then
           base64_data ← image_to_base64 ext path;
           ret (if bool_decide (base64_data = []) then acc
                else acc ++ [base64_data])
         else ret acc)
      acc s
    = (Ok (acc
           ++ flat_map
                (fun path =>
                   if negb (bool_decide (path = []))
                      && path_exists ext path (world s)
                   then
                     match encode_jpeg ext path (world s) with
                     | Ok b64 => [lit "data:image/jpeg;base64," ++ b64]
                     | Raise _ => []
                     end
                   else [])
                paths),
       record s evs)
    /\ Forall is_warning evs.
Proof.
  revert acc s. induction paths as [|path paths IH]; intros acc s.
  - exists []. cbn. rewrite app_nil_r, RunFacts.record_nil. now split.
  - cbn [for_each flat_map]. rewrite RunFacts.run_bind, RunFacts.run_bind.
    unfold read at 1.
    destruct (negb (bool_decide (path = [])) && path_exists ext path (world s))
      eqn:Hc.
    + apply andb_prop in Hc as [_ Hex].
      rewrite RunFacts.run_bind, image_to_base64_run, Hex.
      destruct (encode_jpeg ext path (world s)) as [b64|e].
      * unfold ret at 1.
        rewrite bool_decide_eq_false_2 by apply data_uri_nonempty.
        destruct (IH (acc ++ [lit "data:image/jpeg;base64," ++ b64]) s)
          as (evs & E & Hevs).
        exists evs. split; [|exact Hevs].
        etransitivity; [exact E|]. now rewrite <- app_assoc.
      * unfold ret at 1. rewrite bool_decide_eq_true_2 by reflexivity.
        destruct (IH acc (record s [ELog WARNING])) as (evs & E & Hevs).
        exists (ELog WARNING :: evs). split; [|now constructor].
        etransitivity; [exact E|]. now rewrite RunFacts.record_record.
    + unfold ret at 1. destruct (IH acc s) as (evs & E & Hevs).
      exists evs. now split.
Qed.

Lemma add_image_data_run (weibos : list (list (list Z * pyval))) :
  Forall text_paths weibos ->
  forall done s,
  exists evs,
    for_each weibos
      (fun weibo done =>
         let image_paths := Dict.get_default (lit "image_paths") (VStr []) weibo in
         base64_images ←
           (if truthy image_paths then
              match image_paths with
              | VStr p =>
                  for_each (split 124 p)
                    (fun path acc =>
                       e ← read (path_exists ext path);
                       if negb (bool_decide (path = [])) && (e : bool) then
                         base64_data ← image_to_base64 ext path;
                         ret (if bool_decide (base64_data = []) then acc
                              else acc ++ [base64_data])
                       else ret acc)
                    []
              | _ => raise AttributeError
              end
            else ret []);
         let weibo := Dict.set (lit "image_base64")
                        (VStr (join [124] base64_images)) weibo in
         let weibo := Dict.set (lit "image_count")
                        (VInt (Z.of_nat (length base64_images))) weibo in
         ret (done ++ [weibo]))
      done s
    = (Ok (done ++ List.map (with_images ext (world s)) weibos), record s evs)
    /\ Forall is_warning evs.
Proof.
  induction 1 as [|weibo weibos Hw _ IH]; intros done s.
  - exists []. cbn. rewrite app_nil_r, RunFacts.record_nil. now split.
  - cbn [for_each List.map]. rewrite RunFacts.run_bind, RunFacts.run_bind.
    unfold text_paths in Hw.
    assert (exists evs1,
              (if truthy (Dict.get_default (lit "image_paths") (VStr []) weibo)
               then
                 match Dict.get_default (lit "image_paths") (VStr []) weibo with
                 | VStr p =>
                     for_each (split 124 p)
                       (fun path acc =>
                          e ← read (path_exists ext path);
                          if negb (bool_decide (path = [])) && (e : bool) then
                            base64_data ← image_to_base64 ext path;
                            ret (if bool_decide (base64_data = []) then acc
                                 else acc ++ [base64_data])
                          else ret acc)
                       []
                 | _ => raise AttributeError
                 end
               else ret []) s
              = (Ok (encoded_images ext (world s) weibo), record s evs1)
              /\ Forall is_warning evs1) as (evs1 & -> & Hevs1).
    { unfold encoded_images.
      destruct (Dict.get_default (lit "image_paths") (VStr []) weibo)
        as [| | | |p];
        try (rewrite Hw; exists []; rewrite RunFacts.record_nil;
             split; [reflexivity | constructor]).
      destruct (truthy (VStr p)) eqn:Ht.
      - destruct (encode_paths_run (split 124 p) [] s) as (evs & E & Hevs).
        exists evs. split; [exact E | exact Hevs].
      - assert (p = []) as ->.
        { cbn in Ht. apply negb_false_iff, bool_decide_eq_true in Ht. exact Ht. }
        exists []. rewrite RunFacts.record_nil. split; [reflexivity|constructor]. }
    unfold ret at 1.
    match goal with
    | |- context [for_each weibos _ (done ++ [?w]) ?s1] =>
        destruct (IH (done ++ [w]) s1) as (evs & E & Hevs)
    end.
    exists (evs1 ++ evs). split; [|now apply Forall_app].
    etransitivity; [exact E|].
    rewrite RunFacts.record_record, <- app_assoc. reflexivity.
Qed.

End Media.
End MediaFacts.

(** X18.  [download_filtered_media] calls the downloader only for
    non-empty URLs and under the keyword it was given, and adds nothing
    to the trace but these calls and pauses.  Under a downloader whose
    answer is a function of the URL and the post's identifier, and on
    posts it can handle, it returns every post that does not ask for images
    as it is and every other post with [image_paths] set to the non-empty
    answers for its non-empty URLs, in order, joined by a bar; the count
    is the number of these paths over all posts; and the trace gets, for
    each such URL in turn, the call of the downloader followed by a
    pause. *)
Theorem download_filtered_media_effects {World : Type} (ext : Externals World)
    (filtered_weibos : list (list (list Z * pyval))) (keyword : list Z) :
  adds (download_event keyword)
    (download_filtered_media ext filtered_weibos keyword)
  /\ (forall fetch (s : @state World),
        Forall downloadable filtered_weibos ->
        (forall url wid w,
           fst (download_media ext url keyword wid w) = Ok (fetch url wid)) ->
        exists s',
          download_filtered_media ext filtered_weibos keyword s
          = (Ok (List.map (with_paths fetch) filtered_weibos,
                 Z.of_nat
                   (length (flat_map (counted_paths fetch) filtered_weibos))),
             s')
          /\ files s' = files s
          /\ trace s'
             = trace s ++ flat_map (download_calls keyword) filtered_weibos).
Proof.
  split; [apply MediaFacts.download_adds|].
  intros fetch s Hall Hfetch. unfold download_filtered_media.
  destruct (MediaFacts.download_run ext fetch keyword filtered_weibos Hall Hfetch
              [] 0 s) as (s' & E & Hf & Ht).
  exists s'. split; [exact E|]. now split.
Qed.

Lemma download_filtered_media_effects_witness :
  exists s',
    download_filtered_media sample_media_ext
      [sample_media_post; sample_post 1 2] (lit "k") fresh_state
    = (Ok ([ Dict.set (lit "image_paths") (VStr (lit "img/u1|img/u3"))
               sample_media_post;
             Dict.set (lit "image_paths") (VStr []) (sample_post 1 2) ],
           2),
       s')
    /\ files s' = files fresh_state
    /\ trace s'
       = [ EDownload (lit "u1") (lit "k") (VInt 7); ESleep;
           EDownload (lit "u2") (lit "k") (VInt 7); ESleep;
           EDownload (lit "u3") (lit "k") (VInt 7); ESleep ].
Proof.
  refine (proj2 (download_filtered_media_effects sample_media_ext
                   [sample_media_post; sample_post 1 2] (lit "k"))
            (fun url _ => if bool_decide (url = lit "u2") then None
                          else Some (lit "img/" ++ url))
            fresh_state _ _).
  - constructor; [|constructor; [|constructor]];
      (intros _; split; [eexists; reflexivity|]; intros _; eexists; reflexivity).
  - intros url wid w. reflexivity.
Defined.

(** X19.  [image_to_base64] returns from every state: the empty text when
    the file does not exist, the data URI of what the encoder returns when
    it returns, and the empty text with a warning when it raises.  On
    posts whose [image_paths] is a text (or absent, or false),
    [add_image_data_to_weibos] returns one post for each post, in order,
    with [image_base64] set to the data URIs of the non-empty paths that
    exist and that the encoder accepts, in order, joined by a bar, and
    [image_count] to their number; it changes neither the world nor the
    files and logs nothing but warnings. *)
Theorem add_image_data_total {World : Type} (ext : Externals World) :
  (forall path (s : @state World),
     image_to_base64 ext path s
     = if path_exists ext path (world s) then
         match encode_jpeg ext path (world s) with
         | Ok b64 => (Ok (lit "data:image/jpeg;base64," ++ b64), s)
         | Raise _ => (Ok [], record s [ELog WARNING])
         end
       else (Ok [], s))
  /\ (forall weibos (s : @state World),
        Forall text_paths weibos ->
        exists evs,
          add_image_data_to_weibos ext weibos s
          = (Ok (List.map (with_images ext (world s)) weibos), record s evs)
          /\ Forall is_warning evs).
Proof.
  split; [apply MediaFacts.image_to_base64_run|].
  intros weibos s H. unfold add_image_data_to_weibos.
  destruct (MediaFacts.add_image_data_run ext weibos H [] s) as (evs & E & Hevs).
  now exists evs.
Qed.

Lemma add_image_data_total_witness :
  exists evs,
    add_image_data_to_weibos sample_media_ext [sample_media_post] fresh_state
    = (Ok [ sample_media_post
            ++ [ (lit "image_base64",
                  VStr (lit "data:image/jpeg;base64,QUJD|data:image/jpeg;base64,QUJD"));
                 (lit "image_count", VInt 2) ] ],
       record fresh_state evs)
    /\ Forall is_warning evs.
Proof.
  apply (proj2 (add_image_data_total sample_media_ext)
           [sample_media_post] fresh_state).
  repeat constructor.
Defined.

(** ** The whole run *)

Module MainFacts.
Section Main.
Context {World : Type} (ext : Externals World).
Implicit Types s : @state World.

Lemma adds_impl {A : Type} (P Q : event -> Prop) (m : @M World A) :
  (forall e, P e -> Q e) -> adds P m -> adds Q m.
Proof.
  intros HPQ Hm s r s' E. destruct (Hm s r s' E) as (evs & Ht & Hf).
  exists evs. split; [exact Ht|]. eapply Forall_impl; [exact Hf | exact HPQ].
Qed.

Lemma tail_no_search now evs : Forall (tail_event now) evs -> searches evs = [].
Proof.
  induction 1 as [|e evs He _ IH]; [reflexivity|].
  unfold searches in *. cbn [List.filter]. now destruct e.
Qed.

Lemma process_keyword_downloads keyword config now keyword_to_type :
  adds (download_enabled config)
    (process_keyword ext keyword config now keyword_to_type).
Proof.
  unfold process_keyword.
  apply RunFacts.adds_try_catch; [|intros e; repeat adds_step].
  unfold process_keyword_try, add_image_data_to_weibos. cbv zeta.
  repeat first
    [ lazymatch goal with
      | |- adds _ (mbind _ (download_filtered_media _ _ _)) =>
          apply RunFacts.adds_bind;
          [eapply adds_impl; [|apply MediaFacts.download_adds];
           intros []; cbn; eauto
          |intros ?]
      | |- adds _ (if truthy ?v then _ else _) => destruct (truthy v) eqn:?
      end
    | apply ScorerFacts.image_to_base64_adds; exact I
    | apply ScorerFacts.record_getitem_adds
    | adds_step ].
Qed.

End Main.
End MainFacts.

(** X20.  [process_keyword] downloads media only under a configuration
    whose ["download_media"] counts as true: under any other
    configuration no call of the downloader is made. *)
Theorem downloads_only_when_enabled {World : Type} (ext : Externals World)
    (keyword now : list Z) (config : gmap (list Z) pyval)
    (keyword_to_type : gmap (list Z) (list Z)) (s : @state World) :
  exists evs,
    trace (snd (process_keyword ext keyword config now keyword_to_type s))
    = trace s ++ evs
    /\ Forall (download_enabled config) evs.
Proof.
  apply (MainFacts.process_keyword_downloads ext keyword config now
           keyword_to_type s
           (fst (process_keyword ext keyword config now keyword_to_type s))).
  apply surjective_pairing.
Qed.

(** X21.  With a configuration file that holds a JSON object, and when
    creating the fetcher, creating the result directory and extracting
    the id of every user succeed, [main] returns and has searched every
    user of the user file for every keyword of the keyword file, each pair
    once, users in file order and keywords in file order for each user,
    always one page, and with the ["download_media"] of the file or
    [False] when the file has none. *)
Theorem main_searches_every_pair {World : Type} (ext : Externals World)
    (keywords_txt user_urls_txt : option (list (list Z)))
    (m : gmap (list Z) pyval) (s : @state World) :
  config_json (files s) = Document (JDict m) ->
  (forall w, exists w', new_spider ext w = (Ok tt, w')) ->
  (forall path w, exists w', makedirs ext path w = (Ok tt, w')) ->
  (forall u w, exists o w', extract_user_id ext u w = (Ok o, w')) ->
  exists s' evs,
    main ext keywords_txt user_urls_txt s = (Ok tt, s')
    /\ trace s' = trace s ++ evs
    /\ searches evs
       = flat_map
           (fun u =>
              List.map
                (fun k => ESearchUser u k 1
                            (default (VBool false) (m !! lit "download_media")))
                (read_keywords keywords_txt))
           (read_user_urls user_urls_txt).
Proof.
  intros Hfile Hspider Hdirs Hext. unfold main. rewrite RunFacts.run_bind.
  rewrite (ConfigFacts.load_config_object s m Hfile).
  assert (json_getitem (lit "download_media") (JDict (m ∪ default_config))
          = Ok (default (VBool false) (m !! lit "download_media"))) as Hdm.
  { cbn [json_getitem]. rewrite lookup_union.
    assert (default_config !! lit "download_media" = Some (VBool false)) as ->
      by (vm_compute; reflexivity).
    now destruct (m !! lit "download_media"). }
  destruct (read_keywords keywords_txt) as [|k ks] eqn:Ek.
  - exists (record s [ELog ERROR]), [ELog ERROR].
    split; [reflexivity|]. split; [reflexivity|].
    now induction (read_user_urls user_urls_txt).
  - rewrite RunFacts.bind_log.
    destruct (read_user_urls user_urls_txt) as [|u us] eqn:Eu.
    + exists (record (record s [ELog INFO]) [ELog ERROR]), [ELog INFO; ELog ERROR].
      split; [reflexivity|]. split; [|reflexivity].
      cbn [record trace]. now rewrite <- app_assoc.
    + rewrite RunFacts.bind_log, RunFacts.run_bind.
      cbn [record world files trace].
      destruct (Hspider (world s)) as [w1 ->].
      rewrite RunFacts.run_bind. unfold call at 1. cbn [world files trace].
      destruct (Hdirs (lit "results") w1) as [w2 ->].
      rewrite RunFacts.run_bind. unfold read at 1.
      rewrite RunFacts.run_bind. unfold collect_all.
      match goal with
      | |- context [for_each ?ius ?body [] ?s2] =>
          destruct (LoopFacts.outer_loop_run ext _ _ ius (k :: ks) [] s2 Hext Hdm)
            as (all & s3 & evs & E0 & Ht & Hs);
          replace (for_each ius body [] s2) with (Ok all, s3)
            by (symmetry; exact E0)
      end.
      cbn [world trace] in *.
      rewrite (LoopFacts.flat_map_combine_seq
                 (fun u => List.map
                             (fun k => ESearchUser u k 1
                                         (default (VBool false)
                                            (m !! lit "download_media")))
                             (k :: ks))) in Hs.
      destruct (TailFacts.save_all_never_raises ext all (run_timestamp ext w2) s3)
        as ([] & s4 & E).
      destruct (TailFacts.save_all_adds ext all (run_timestamp ext w2) _ _ _ E)
        as (evs' & Ht' & Hf').
      rewrite E.
      exists s4, ([ELog INFO; ELog INFO; EMakedirs (lit "results")] ++ evs ++ evs').
      split; [reflexivity|]. split.
      * rewrite Ht', Ht. cbn [trace]. now rewrite <- !app_assoc.
      * rewrite !LoopFacts.searches_app, Hs,
          (MainFacts.tail_no_search _ _ Hf'), app_nil_r.
        reflexivity.
Qed.

Lemma main_searches_every_pair_witness :
  exists s' evs,
    main (sample_ext [sample_post 1 2] None)
      (Some [lit "k1"; lit "k2"]) (Some [lit "u1"])
      (disk_with (Document (JDict ∅)))
    = (Ok tt, s')
    /\ trace s' = trace (disk_with (Document (JDict ∅))) ++ evs
    /\ searches evs
       = flat_map
           (fun u =>
              List.map
                (fun k => ESearchUser u k 1
                            (default (VBool false)
                               ((∅ : gmap (list Z) pyval) !! lit "download_media")))
                (read_keywords (Some [lit "k1"; lit "k2"])))
           (read_user_urls (Some [lit "u1"])).
Proof.
  apply main_searches_every_pair.
  - reflexivity.
  - intros w. now exists w.
  - intros path w. now exists w.
  - intros u w. now exists None, w.
Defined.
